(** * Code generation for compiled function objects

    A shallow embedding of [nuitka/codegen/FunctionCodes.py]: the code that
    emits the C source creating and calling compiled functions and
    generators.  Emitted code is text, so the model works on [string] and
    [list string]; the compilation context is an explicit state that the
    emitting functions thread through a small state-and-failure monad.

    Embedded are [getClosureVariableProvisionCode],
    [_getFunctionCreationArgs], [getFunctionMakerDecl],
    [getFunctionMakerCode], [generateFunctionCreationCode],
    [getFunctionCreationCode], [getDirectFunctionCallCode],
    [getFunctionDirectClosureArgs], [getFunctionDirectDecl],
    [getFunctionCode], [getGeneratorFunctionCode], [getGeneratorObjectCode],
    [generateCoroutineCreationCode], [generateMakeGeneratorObjectCode],
    [getExportScopeCode], [generateGeneratorEntryCode] and
    [generateFunctionDeclCode].  What the file imports (other code
    generators, the code templates, the context class) is a parameter of the
    embedding or, for the ledger of the context, a model of its own.
    [template % mapping] is Python's, run by [Py.format]; a literal format
    applied to a tuple is written as the concatenation it produces. *)

From Stdlib Require Import String Ascii List Bool Arith ZArith DecimalString Lia.
Import ListNotations.
Local Open Scope list_scope.
Local Open Scope string_scope.

(** ** Python built-ins used by the code generator *)

Module Py.

(** [str(n)] and ["%d" % n] for a non-negative count. *)
Definition str_of_nat (n : nat) : string :=
  NilEmpty.string_of_uint (Nat.to_uint n).

(** [str(z)] and ["%d" % z] for an [int]. *)
Definition str_of_int (z : Z) : string :=
  NilEmpty.string_of_int (Z.to_int z).

(** [sep.join(parts)]. *)
Definition join (sep : string) (parts : list string) : string :=
  String.concat sep parts.

(** [x in names] on a list of strings. *)
Definition contains (x : string) (names : list string) : bool :=
  existsb (String.eqb x) names.

(** [names.remove(x)]: drops the first occurrence only.  Python raises
    [ValueError] when there is none; every call in this file is guarded
    by a membership test, so that branch is left as the identity. *)
Fixpoint remove (x : string) (names : list string) : list string :=
  match names with
  | [] => []
  | y :: rest => if String.eqb x y then rest else y :: remove x rest
  end.

(** [items.append(x)] and [items + more] (also [+=] and [extend]). *)
Definition append {A : Type} (items : list A) (x : A) : list A :=
  (items ++ [x])%list.

Definition extend {A : Type} (items more : list A) : list A :=
  (items ++ more)%list.

(** [enumerate(items)]. *)
Definition enumerate {A : Type} (items : list A) : list (nat * A) :=
  combine (seq 0 (List.length items)) items.

(** Values found in the dictionaries handed to the [%] operator. *)
Inductive value : Type :=
| Str (s : string)
| Int (z : Z).

Definition dict : Type := list (string * value).

(** [d[key]] on a dictionary literal; a later entry for the same key
    would win in Python, the literals of this file have distinct keys. *)
Fixpoint getitem (key : string) (d : dict) : option value :=
  match d with
  | [] => None
  | (k, v) :: rest => if String.eqb key k then Some v else getitem key rest
  end.

(** One conversion of [%(key)<c>]: [s] is [str(value)], [d] wants an
    [int] (a [str] raises [TypeError]).  Other conversion types are not
    used by the templates and are outside the model. *)
Definition convert (c : ascii) (v : value) : option string :=
  if Ascii.eqb c "s" then
    Some match v with Str s => s | Int z => str_of_int z end
  else if Ascii.eqb c "d" then
    match v with Str _ => None | Int z => Some (str_of_int z) end
  else None.

(** Scanner states of [template % mapping]. *)
Inductive scan : Type :=
| Text
| Percent
| Key (depth : nat) (key : string)
| Conversion (key : string).

(** [template % mapping] for the fragment of the format language that
    uses mapping keys: literal text, [%%] and [%(key)s] / [%(key)d].
    [None] stands for the exception Python raises ([KeyError] for a
    missing key, [ValueError] for an incomplete format, [TypeError] for
    [%d] of a string) and for directives outside the fragment. *)
Fixpoint format_from (st : scan) (d : dict) (template : string)
  : option string :=
  match template with
  | EmptyString =>
      match st with Text => Some EmptyString | _ => None end
  | String c rest =>
      match st with
      | Text =>
          if Ascii.eqb c "%" then format_from Percent d rest
          else option_map (String c) (format_from Text d rest)
      | Percent =>
          if Ascii.eqb c "%" then
            option_map (String "%") (format_from Text d rest)
          else if Ascii.eqb c "(" then format_from (Key 1 "") d rest
          else None
      | Key depth key =>
          if Ascii.eqb c ")" then
            match depth with
            | 1 => format_from (Conversion key) d rest
            | _ => format_from (Key (pred depth) (key ++ ")")) d rest
            end
          else if Ascii.eqb c "(" then
            format_from (Key (S depth) (key ++ "(")) d rest
          else format_from (Key depth (key ++ String c "")) d rest
      | Conversion key =>
          match getitem key d with
          | None => None
          | Some v =>
              match convert c v with
              | None => None
              | Some text =>
                  option_map (String.append text) (format_from Text d rest)
              end
          end
      end
  end.

Definition format (template : string) (d : dict) : option string :=
  format_from Text d template.

(** The line feed, written [\n] inside Python string literals. *)
Definition newline : string := String "010"%char EmptyString.

(** [text.startswith(start)]. *)
Definition startswith (text start : string) : bool :=
  String.prefix start text.

(** [text.endswith(c)] for a single character [c]. *)
Fixpoint endswith (text : string) (c : ascii) : bool :=
  match text with
  | EmptyString => false
  | String a EmptyString => Ascii.eqb a c
  | String _ rest => endswith rest c
  end.

(** [text.split(c)] for a single character [c]. *)
Fixpoint split (text : string) (c : ascii) : list string :=
  match text with
  | EmptyString => [EmptyString]
  | String a rest =>
      if Ascii.eqb a c then EmptyString :: split rest c
      else
        match split rest c with
        | first :: others => String a first :: others
        | [] => [String a EmptyString]
        end
  end.

(** [range(1, n + 1)]. *)
Definition range_from_1 (n : nat) : list nat := seq 1 n.

End Py.

(** ** Nodes and variables handed over by the front end

    The node classes live outside this file; a node is modelled by the
    values of the accessors that the code generator calls on it. *)

(** Compile-time constants, as far as this file looks into them.  No
    induction principle is needed for them. *)
#[local] Unset Elimination Schemes.
Inductive Constant : Type :=
| ConstNone
| ConstStr (s : string)
| ConstInt (z : Z)
| ConstTuple (items : list Constant)
| ConstDict (items : list (Constant * Constant)).
#[local] Set Elimination Schemes.

(** [constant != {}]. *)
Definition differs_from_empty_dict (constant : Constant) : bool :=
  match constant with
  | ConstDict [] => false
  | _ => true
  end.

(** Expression nodes: a constant reference, or any other node, which the
    expression code generator handles. *)
Inductive Expression : Type :=
| ExpressionConstantRef (constant : Constant)
| ExpressionComputed (node : string).

Definition isExpressionConstantRef (e : Expression) : bool :=
  match e with ExpressionConstantRef _ => true | ExpressionComputed _ => false end.

(** [getConstant()] is only called behind [isExpressionConstantRef()]. *)
Definition getConstant (e : Expression) : Constant :=
  match e with ExpressionConstantRef c => c | ExpressionComputed _ => ConstNone end.

Module Var.
Record t : Type := make {
  getName : string;
  getCodeName : string;
  isSharedTechnically : bool;
  isParameterVariable : bool
}.
End Var.

Module Params.
Record t : Type := make {
  getCoArgNames : list string;
  getStarListArgumentName : option string;
  getStarDictArgumentName : option string;
  getAllVariables : list Var.t
}.
End Params.

Module CodeObject.
Record t : Type := make {
  getVarNames : list string;
  getArgumentCount : nat;
  getKwOnlyParameterCount : nat;
  getCodeObjectName : string
}.
End CodeObject.

Module FunctionBody.
Record t : Type := make {
  needsCreation : bool;
  getCodeName : string;
  getFunctionName : string;
  getFunctionQualname : string;
  getDoc : Constant;
  getParameters : Params.t;
  getLocalVariables : list Var.t;
  getClosureVariables : list Var.t;
  isGenerator : bool;
  needsLocalsDict : bool;
  getRunTimeFilename : string;
  getLineNumber : nat;
  getFutureFlags : list string;
  isExpressionGeneratorObjectBody : bool;
  needsDirectCall : bool;
  isCrossModuleUsed : bool
}.
End FunctionBody.

(** The body of a coroutine, [expression.getCoroutineBody()]; its
    statements are only handed on to the statement code generator. *)
Module CoroutineBody.
Record t : Type := make {
  getClosureVariables : list Var.t;
  getCodeName : string;
  getBody : list string
}.
End CoroutineBody.

(** A source position, [statement.getSourceReference()]. *)
Record SourceReference : Type := {
  source_filename : string;
  source_line : nat
}.

(** The keyword arguments of [context.getCodeObjectHandle]. *)
Record CodeObjectKey : Type := {
  filename : string;
  var_names : list string;
  arg_count : nat;
  kw_only_count : nat;
  line_number : nat;
  code_name : string;
  is_generator : bool;
  is_optimized : bool;
  new_locals : bool;
  has_starlist : bool;
  has_stardict : bool;
  has_closure : bool;
  future_flags : list string
}.

(** ** The compilation context *)

(** Modelled from the spec: the context classes of [Contexts.py] are not in
    the source tree.  The spec's "Compilation Context (Ledger)" holds the
    callable identities whose constructor code has been emitted (monotonic,
    never retracted), generated fragments keyed by identity (append-only),
    a temp-name allocator that only counts upwards, and the "needs cleanup"
    temp names.  Both fragment stores are kept as append-only association
    lists, so that a second registration under one identity would show as a
    second entry.  The remaining fields are the answers of the read-only
    queries that this file makes. *)
Record Context : Type := {
  helper_codes : list (string * string);
  declaration_codes : list (string * string);
  tmp_names : list (string * nat);
  cleanup_names : list string;
  isForCreatedFunction : bool;
  isForDirectCall : bool;
  hasLocalsDict : bool;
  needsExceptionVariables : bool;
  getKeeperVariableCount : nat;
  getExceptionPreserverCounts : list nat;
  getTempNameInfos : list (string * string);
  getFrameDeclarations : list string
}.

Definition with_helper_codes (v : list (string * string)) (c : Context) :=
  {| helper_codes := v;
     declaration_codes := declaration_codes c;
     tmp_names := tmp_names c;
     cleanup_names := cleanup_names c;
     isForCreatedFunction := isForCreatedFunction c;
     isForDirectCall := isForDirectCall c;
     hasLocalsDict := hasLocalsDict c;
     needsExceptionVariables := needsExceptionVariables c;
     getKeeperVariableCount := getKeeperVariableCount c;
     getExceptionPreserverCounts := getExceptionPreserverCounts c;
     getTempNameInfos := getTempNameInfos c;
     getFrameDeclarations := getFrameDeclarations c |}.

Definition with_declaration_codes (v : list (string * string)) (c : Context) :=
  {| helper_codes := helper_codes c;
     declaration_codes := v;
     tmp_names := tmp_names c;
     cleanup_names := cleanup_names c;
     isForCreatedFunction := isForCreatedFunction c;
     isForDirectCall := isForDirectCall c;
     hasLocalsDict := hasLocalsDict c;
     needsExceptionVariables := needsExceptionVariables c;
     getKeeperVariableCount := getKeeperVariableCount c;
     getExceptionPreserverCounts := getExceptionPreserverCounts c;
     getTempNameInfos := getTempNameInfos c;
     getFrameDeclarations := getFrameDeclarations c |}.

Definition with_tmp_names (v : list (string * nat)) (c : Context) :=
  {| helper_codes := helper_codes c;
     declaration_codes := declaration_codes c;
     tmp_names := v;
     cleanup_names := cleanup_names c;
     isForCreatedFunction := isForCreatedFunction c;
     isForDirectCall := isForDirectCall c;
     hasLocalsDict := hasLocalsDict c;
     needsExceptionVariables := needsExceptionVariables c;
     getKeeperVariableCount := getKeeperVariableCount c;
     getExceptionPreserverCounts := getExceptionPreserverCounts c;
     getTempNameInfos := getTempNameInfos c;
     getFrameDeclarations := getFrameDeclarations c |}.

Definition with_cleanup_names (v : list string) (c : Context) :=
  {| helper_codes := helper_codes c;
     declaration_codes := declaration_codes c;
     tmp_names := tmp_names c;
     cleanup_names := v;
     isForCreatedFunction := isForCreatedFunction c;
     isForDirectCall := isForDirectCall c;
     hasLocalsDict := hasLocalsDict c;
     needsExceptionVariables := needsExceptionVariables c;
     getKeeperVariableCount := getKeeperVariableCount c;
     getExceptionPreserverCounts := getExceptionPreserverCounts c;
     getTempNameInfos := getTempNameInfos c;
     getFrameDeclarations := getFrameDeclarations c |}.

(** Keys of an association list, in insertion order. *)
Definition keys {V : Type} (entries : list (string * V)) : list string :=
  map fst entries.

(** Modelled from the spec: [context.hasHelperCode(key)], whether [key] is
    among "the callable identities whose constructor code has already been
    emitted". *)
Definition hasHelperCode (key : string) (c : Context) : bool :=
  Py.contains key (keys (helper_codes c)).

(** Modelled from the spec: [context.addHelperCode(key, code)] adds a
    fragment "keyed by callable identity; append-only". *)
Definition addHelperCode (key code : string) (c : Context) : Context :=
  with_helper_codes (Py.append (helper_codes c) (key, code)) c.

(** Modelled from the spec: [context.addDeclaration(key, code)] adds to the
    "forward declarations collected separately from bodies". *)
Definition addDeclaration (key code : string) (c : Context) : Context :=
  with_declaration_codes (Py.append (declaration_codes c) (key, code)) c.

(** Modelled from the spec: [context.needsCleanup(tmp_name)], whether the
    name is among the "needs cleanup" temp names; the argument may be
    [None]. *)
Definition needsCleanup (tmp_name : option string) (c : Context) : bool :=
  match tmp_name with
  | Some name => Py.contains name (cleanup_names c)
  | None => false
  end.

(** Modelled from the spec: [context.removeCleanupTempName(tmp_name)]
    takes one entry of the name out of the cleanup ledger.  Every call is
    guarded by [needsCleanup(tmp_name)], which is false for [None]. *)
Definition removeCleanupTempName (tmp_name : option string) (c : Context)
  : Context :=
  match tmp_name with
  | Some name => with_cleanup_names (Py.remove name (cleanup_names c)) c
  | None => c
  end.

(** Modelled from the spec: [context.addCleanupTempName(tmp_name)] enters
    the name into the cleanup ledger. *)
Definition addCleanupTempName (tmp_name : string) (c : Context) : Context :=
  with_cleanup_names (Py.append (cleanup_names c) tmp_name) c.

(** Modelled from the spec: [context.hasTempName(base_name)], whether a
    temporary of that base name was allocated. *)
Definition hasTempName (base_name : string) (c : Context) : bool :=
  Py.contains base_name (keys (tmp_names c)).

(** The last number given out for a base name, 0 when there is none. *)
Fixpoint last_number (base_name : string) (names : list (string * nat))
  : nat :=
  match names with
  | [] => 0
  | (b, n) :: rest =>
      if String.eqb base_name b then n else last_number base_name rest
  end.

(** Records the number given out for a base name. *)
Fixpoint set_number (base_name : string) (number : nat)
  (names : list (string * nat)) : list (string * nat) :=
  match names with
  | [] => [(base_name, number)]
  | (b, n) :: rest =>
      if String.eqb base_name b then (b, number) :: rest
      else (b, n) :: set_number base_name number rest
  end.

(** The temp names of the source read [tmp_<base>] with a number added
    ([tmp_outline_return_value_...]). *)
Definition formatTempName (base_name : string) (number : nat) : string :=
  "tmp_" ++ base_name ++ "_" ++ Py.str_of_nat number.

(** Modelled from the spec: [context.allocateTempName(base_name)], "a
    temp-name allocator (monotonically increasing ...)": the next number
    for that base name. *)
Definition allocateTempName (base_name : string) (c : Context)
  : string * Context :=
  let number := S (last_number base_name (tmp_names c)) in
  (formatTempName base_name number,
   with_tmp_names (set_number base_name number (tmp_names c)) c).

(** ** Emission: state and failure

    [emit] appends one line to the collector it was built on
    ([SourceCodeCollector.codes]); the context is one mutable object shared
    by every function called with it.  A generating function is therefore
    a function of the pair of both, and either returns or raises. *)

Inductive Failure : Type :=
| AssertNeedsCreation
| AssertKwDefaultsNotEmpty (constant : Constant)
| FormatError.

Record GenState : Type := {
  current : Context;
  emitted : list string
}.

Inductive Outcome (A : Type) : Type :=
| Raised (failure : Failure)
| Returned (result : A) (final : GenState).
Arguments Raised {A} failure.
Arguments Returned {A} result final.

Definition Gen (A : Type) : Type := GenState -> Outcome A.

Definition ret {A : Type} (a : A) : Gen A := fun s => Returned a s.

Definition bind {A B : Type} (m : Gen A) (k : A -> Gen B) : Gen B :=
  fun s =>
    match m s with
    | Raised failure => Raised failure
    | Returned a s' => k a s'
    end.

Notation "x <- m ;; k" := (bind m (fun x => k))
  (at level 61, m at next level, right associativity).
Notation "m ;; k" := (bind m (fun _ => k))
  (at level 61, right associativity).

Definition raise {A : Type} (failure : Failure) : Gen A :=
  fun _ => Raised failure.

(** [assert condition, ...]. *)
Definition assert (condition : bool) (failure : Failure) : Gen unit :=
  if condition then ret tt else raise failure.

(** [emit(line)]. *)
Definition emit (line : string) : Gen unit :=
  fun s => Returned tt {| current := current s; emitted := Py.append (emitted s) line |}.

(** Reading and updating the shared context. *)
Definition ask {A : Type} (query : Context -> A) : Gen A :=
  fun s => Returned (query (current s)) s.

Definition update (change : Context -> Context) : Gen unit :=
  fun s => Returned tt {| current := change (current s); emitted := emitted s |}.

(** A context method that returns a value and changes the context. *)
Definition call {A : Type} (method : Context -> A * Context) : Gen A :=
  fun s =>
    let (a, c) := method (current s) in
    Returned a {| current := c; emitted := emitted s |}.

(** A code generator of another module, called with the same [emit] and
    [context]: it appends the lines it emits and may change the context. *)
Definition generate (generator : Context -> list string * Context) : Gen unit :=
  fun s =>
    let (lines, c) := generator (current s) in
    Returned tt {| current := c; emitted := Py.extend (emitted s) lines |}.

(** The value of a [template % mapping] expression, raising when the
    formatting does. *)
Definition formatted (text : option string) : Gen string :=
  match text with
  | Some text => ret text
  | None => raise FormatError
  end.

(** [for item in items: body(item)]. *)
Fixpoint for_each {A : Type} (items : list A) (body : A -> Gen unit) : Gen unit :=
  match items with
  | [] => ret tt
  | item :: rest => body item ;; for_each rest body
  end.

(** [if condition: body]. *)
Definition when (condition : bool) (body : Gen unit) : Gen unit :=
  if condition then body else ret tt.

(** Functions that build a text without [emit] only fail through [%]. *)
Definition and_then {A B : Type} (m : option A) (k : A -> option B)
  : option B :=
  match m with
  | Some a => k a
  | None => None
  end.

Notation "x <-? m ;; k" := (and_then m (fun x => k))
  (at level 61, m at next level, right associativity).

(** Truth value of an optional name: [None] and the empty string are false. *)
Definition truthy (name : option string) : bool :=
  match name with
  | Some text => negb (String.eqb text "")
  | None => false
  end.

(** [x is not None]. *)
Definition is_not_None {A : Type} (x : option A) : bool :=
  match x with Some _ => true | None => false end.

(** Truth value of a sequence. *)
Definition non_empty {A : Type} (items : list A) : bool :=
  match items with [] => false | _ :: _ => true end.

(** One request to create a function object: the arguments of
    [generateFunctionCreationCode] apart from [emit] and [context]. *)
Record Creation : Type := {
  creation_to_name : string;
  creation_function_body : FunctionBody.t;
  creation_code_object : CodeObject.t;
  creation_defaults : list Expression;
  creation_kw_defaults : option Expression;
  creation_annotations : option Expression;
  creation_defaults_first : bool
}.

(** ** Stand-ins for the imported generators

    Small versions of the generators and templates that [FunctionCodes.py]
    imports, on which the functions can be run. *)

Module Sample.

Definition getConstantCode (context : Context) (constant : Constant) : string :=
  match constant with
  | ConstNone => "Py_None"
  | ConstStr text => "const_str_plain_" ++ text
  | ConstInt _ => "const_int"
  | ConstTuple _ => "const_tuple"
  | ConstDict [] => "const_dict_empty"
  | ConstDict _ => "const_dict"
  end.

Definition getCodeObjectHandle (key : CodeObjectKey) (context : Context)
  : string :=
  "codeobj_" ++ code_name key.

Definition getModuleAccessCode (context : Context) : string :=
  "module___main__".

Definition getDirectFunctionEntryPointIdentifier (function_identifier : string)
  : string :=
  "impl_" ++ function_identifier.

Definition getParameterEntryPointIdentifier (function_identifier : string)
  : string :=
  "fparse_" ++ function_identifier.

Definition getQuickEntryPointIdentifier (function_identifier : string)
  (parameters : Params.t) : string :=
  "dparse_" ++ function_identifier.

Definition getReferenceExportCode (base_name : string) (context : Context)
  : string :=
  if needsCleanup (Some base_name) context then base_name
  else "INCREASE_REFCOUNT( " ++ base_name ++ " )".

Definition getVariableCode (context : Context) (variable : Var.t) : string :=
  "closure_" ++ Var.getCodeName variable.

Definition getVariableCodeName (in_context : bool) (variable : Var.t)
  : string :=
  (if in_context then "closure_" else "var_") ++ Var.getCodeName variable.

Definition indented (codes : list string) : string :=
  Py.join Py.newline
    (map (fun line => if String.eqb line "" then line else "    " ++ line)
       codes).

Definition indented_text (codes : string) : string :=
  indented (Py.split codes "010").

Definition getParameterParsingCode (function_identifier function_name : string)
  (parameters : Params.t) (needs_creation : bool) (context : Context)
  : list Var.t * string * list string :=
  (Params.getAllVariables parameters,
   if needs_creation
   then "static PyObject *fparse_" ++ function_identifier
          ++ "( Nuitka_FunctionObject *self, PyObject **args, Py_ssize_t args_size, PyObject *kw );"
   else "",
   map (fun variable => "PyObject *_python_par_" ++ Var.getCodeName variable)
     (Params.getAllVariables parameters)).

Definition getLocalVariableInitCode (variable : Var.t)
  (init_from : option string) : string :=
  "PyObject *var_" ++ Var.getCodeName variable ++ " = "
    ++ match init_from with Some value => value | None => "NULL" end ++ ";".

Definition getErrorVariableDeclarations : list string :=
  ["PyObject *exception_type = NULL, *exception_value = NULL;";
   "PyTracebackObject *exception_tb = NULL;"].

Definition getExceptionKeeperVariableNames (keeper_index : nat)
  : list string :=
  ["PyObject *exception_keeper_type_" ++ Py.str_of_nat keeper_index ++ ";"].

Definition getExceptionPreserverVariableNames (preserver_id : nat)
  : list string :=
  ["PyObject *exception_preserved_type_" ++ Py.str_of_nat preserver_id ++ ";"].

Definition getMustNotGetHereCode (reason : string) (context : Context)
  : list string :=
  ["NUITKA_CANNOT_GET_HERE( function );"; "return NULL;"].

Definition getErrorExitCode (check_name : string) (needs_check : bool)
  (context : Context) : list string * Context :=
  (if needs_check
   then ["if ( " ++ check_name ++ " == NULL ) goto exception_exit;"]
   else [],
   context).

Definition generateExpressionCode (to_name : string) (expression : Expression)
  (context : Context) : list string * Context :=
  match expression with
  | ExpressionConstantRef constant =>
      ([to_name ++ " = " ++ getConstantCode context constant ++ ";"], context)
  | ExpressionComputed node =>
      ([to_name ++ " = " ++ node ++ ";"], addCleanupTempName to_name context)
  end.

Definition generateTupleCreationCode (to_name : string)
  (elements : list Expression) (context : Context) : list string * Context :=
  ([to_name ++ " = PyTuple_New( "
      ++ Py.str_of_nat (List.length elements) ++ " );"],
   addCleanupTempName to_name context).

Definition template_function_make_declaration : string :=
  "static PyObject *MAKE_FUNCTION_%(function_identifier)s( %(function_creation_arg_spec)s );".

Definition template_make_function_without_context_template : string :=
  "static PyObject *MAKE_FUNCTION_%(function_identifier)s( %(function_creation_args)s ) { return Nuitka_Function_New( %(fparse_function_identifier)s, %(dparse_function_identifier)s, %(function_name_obj)s, %(function_qualname_obj)s, %(code_identifier)s, %(defaults)s, %(kw_defaults)s, %(annotations)s, %(module_identifier)s, %(function_doc)s ); }".

Definition template_make_function_with_context_template : string :=
  "static PyObject *MAKE_FUNCTION_%(function_identifier)s( %(function_creation_args)s ) { %(context_copy)s return Nuitka_Function_New( %(fparse_function_identifier)s, %(dparse_function_identifier)s, %(function_name_obj)s, %(function_qualname_obj)s, %(code_identifier)s, %(defaults)s, %(kw_defaults)s, %(annotations)s, %(module_identifier)s, %(function_doc)s, closure, %(closure_count)d ); }".

Definition template_generator_exception_exit : string :=
  "function_exception_exit: RESTORE_ERROR_OCCURRED( exception_type, exception_value, exception_tb ); return;".

Definition template_generator_noexception_exit : string :=
  "RESTORE_ERROR_OCCURRED( PyExc_StopIteration, NULL, NULL ); return;".

Definition template_generator_return_exit : string :=
  " function_return_exit: generator->m_returned = tmp_return_value; return;".

Definition template_function_exception_exit : string :=
  "function_exception_exit: %(function_cleanup)s return NULL;".

Definition template_function_return_exit : string :=
  "function_return_exit: %(function_cleanup)s return tmp_return_value;".

Definition template_genfunc_generator_with_parameters : string :=
  "PyObject **parameters = (PyObject **)malloc( %(parameter_count)d * sizeof(PyObject *) ); %(parameter_copy)s".

Definition template_genfunc_generator_no_parameters : string :=
  "PyObject **parameters = NULL;".

Definition function_dict_setup : string :=
  "PyObject *locals_dict = PyDict_New();".

Definition function_direct_body_template : string :=
  "%(file_scope)s PyObject *impl_%(function_identifier)s( %(direct_call_arg_spec)s ) { %(function_locals)s %(function_body)s %(function_exit)s }".

Definition template_function_body : string :=
  "static PyObject *impl_%(function_identifier)s( %(parameter_objects_decl)s ) { %(function_locals)s %(function_body)s %(function_exit)s }".

Definition template_genfunc_function_impl_template : string :=
  "static PyObject *impl_%(function_identifier)s( %(parameter_objects_decl)s ) { %(parameter_decl)s %(closure_decl)s return Nuitka_Generator_New( %(function_identifier)s_context, %(function_name_obj)s, %(function_qualname_obj)s, %(code_identifier)s, closure, %(closure_count)d, parameters, %(parameter_count)d ); }".

Definition template_genfunc_generator_no_closure : string :=
  "PyCellObject **closure = NULL;".

Definition template_genfunc_generator_with_own_closure : string :=
  "PyCellObject **closure = (PyCellObject **)malloc( %(closure_count)d * sizeof(PyCellObject *) ); %(closure_copy)s".

Definition template_genfunc_generator_with_parent_closure : string :=
  "PyCellObject **closure = self->m_closure;".

Definition template_genfunc_yielder_body_template : string :=
  "static void %(function_identifier)s_context( Nuitka_GeneratorObject *generator ) { %(function_var_inits)s %(function_body)s %(generator_exit)s }".

Definition template_function_direct_declaration : string :=
  "%(file_scope)s PyObject *impl_%(function_identifier)s( %(direct_call_arg_spec)s );".

Definition template_genfunc_yielder_decl_template : string :=
  "static void %(function_identifier)s_context( Nuitka_GeneratorObject *generator );".

Definition template_generator_making_with_context : string :=
  "{ %(closure_making)s %(to_name)s = Nuitka_Generator_New( %(generator_identifier)s_context, %(generator_name_obj)s, %(generator_qualname_obj)s, %(code_identifier)s, closure, %(closure_count)d ); }".

Definition template_generator_making_without_context : string :=
  "%(to_name)s = Nuitka_Generator_New( %(generator_identifier)s_context, %(generator_name_obj)s, %(generator_qualname_obj)s, %(code_identifier)s, NULL, 0 );".

Definition template_make_coroutine_with_context_template : string :=
  "%(to_name)s = MAKE_COROUTINE_%(code_identifier)s( closure );".

Definition template_make_coroutine_without_context_template : string :=
  "%(to_name)s = MAKE_COROUTINE_%(code_identifier)s();".

(** A statement generator that emits every statement as it stands. *)
Definition generateStatementSequenceCode (coroutine_body : CoroutineBody.t)
  (statements : list string) (context : Context) : list string * Context :=
  (statements, context).

(** A context with an empty ledger, and one that has the temporary
    [return_value]. *)
Definition context : Context :=
  {| helper_codes := [];
     declaration_codes := [];
     tmp_names := [];
     cleanup_names := [];
     isForCreatedFunction := true;
     isForDirectCall := false;
     hasLocalsDict := false;
     needsExceptionVariables := false;
     getKeeperVariableCount := 0;
     getExceptionPreserverCounts := [];
     getTempNameInfos := [];
     getFrameDeclarations := [] |}.

Definition context_with_return_value : Context :=
  with_tmp_names [("return_value", 1)] context.

(** The context of a function that is called directly. *)
Definition context_for_direct_call : Context :=
  {| helper_codes := [];
     declaration_codes := [];
     tmp_names := [("return_value", 1)];
     cleanup_names := [];
     isForCreatedFunction := false;
     isForDirectCall := true;
     hasLocalsDict := false;
     needsExceptionVariables := false;
     getKeeperVariableCount := 1;
     getExceptionPreserverCounts := [];
     getTempNameInfos := [("tmp_outline_return_value_1", "PyObject *")];
     getFrameDeclarations := [] |}.

Definition state : GenState := {| current := context; emitted := [] |}.

(** A state whose ledger tracks the three names of a creation and one
    other temporary. *)
Definition tracking_state : GenState :=
  {| current :=
       with_cleanup_names
         ["tmp_defaults_1"; "tmp_kw_defaults_1"; "tmp_annotations_1";
          "tmp_called_1"]
         context;
     emitted := [] |}.

(** [def f(a, b=1, *, c=2) -> int] nested in [outer], and a variable it
    takes from [outer]. *)
Definition cell : Var.t :=
  {| Var.getName := "x"; Var.getCodeName := "x";
     Var.isSharedTechnically := true; Var.isParameterVariable := false |}.

Definition parameter_a : Var.t :=
  {| Var.getName := "a"; Var.getCodeName := "a";
     Var.isSharedTechnically := true; Var.isParameterVariable := true |}.

Definition parameter_b : Var.t :=
  {| Var.getName := "b"; Var.getCodeName := "b";
     Var.isSharedTechnically := false; Var.isParameterVariable := true |}.

Definition parameters : Params.t :=
  {| Params.getCoArgNames := ["a"; "b"; "c"];
     Params.getStarListArgumentName := None;
     Params.getStarDictArgumentName := None;
     Params.getAllVariables := [parameter_a; parameter_b] |}.

Definition function_body : FunctionBody.t :=
  {| FunctionBody.needsCreation := true;
     FunctionBody.getCodeName := "function_1_f_of_outer";
     FunctionBody.getFunctionName := "f";
     FunctionBody.getFunctionQualname := "outer.<locals>.f";
     FunctionBody.getDoc := ConstNone;
     FunctionBody.getParameters := parameters;
     FunctionBody.getLocalVariables := [parameter_a; parameter_b];
     FunctionBody.getClosureVariables := [cell];
     FunctionBody.isGenerator := false;
     FunctionBody.needsLocalsDict := false;
     FunctionBody.getRunTimeFilename := "module.py";
     FunctionBody.getLineNumber := 3;
     FunctionBody.getFutureFlags := [];
     FunctionBody.isExpressionGeneratorObjectBody := false;
     FunctionBody.needsDirectCall := false;
     FunctionBody.isCrossModuleUsed := false |}.

Definition code_object : CodeObject.t :=
  {| CodeObject.getVarNames := ["a"; "b"; "c"];
     CodeObject.getArgumentCount := 2;
     CodeObject.getKwOnlyParameterCount := 1;
     CodeObject.getCodeObjectName := "f" |}.

(** The same function, called directly and never created. *)
Definition direct_function_body : FunctionBody.t :=
  {| FunctionBody.needsCreation := false;
     FunctionBody.getCodeName := "function_1_f_of_outer";
     FunctionBody.getFunctionName := "f";
     FunctionBody.getFunctionQualname := "outer.<locals>.f";
     FunctionBody.getDoc := ConstNone;
     FunctionBody.getParameters := parameters;
     FunctionBody.getLocalVariables := [parameter_a; parameter_b];
     FunctionBody.getClosureVariables := [cell];
     FunctionBody.isGenerator := false;
     FunctionBody.needsLocalsDict := false;
     FunctionBody.getRunTimeFilename := "module.py";
     FunctionBody.getLineNumber := 3;
     FunctionBody.getFutureFlags := [];
     FunctionBody.isExpressionGeneratorObjectBody := false;
     FunctionBody.needsDirectCall := true;
     FunctionBody.isCrossModuleUsed := false |}.

(** The body of a generator expression without closure, and a coroutine. *)
Definition generator_object_body : FunctionBody.t :=
  {| FunctionBody.needsCreation := false;
     FunctionBody.getCodeName := "genexpr_1_genexpr_of_outer";
     FunctionBody.getFunctionName := "<genexpr>";
     FunctionBody.getFunctionQualname := "outer.<locals>.<genexpr>";
     FunctionBody.getDoc := ConstNone;
     FunctionBody.getParameters :=
       {| Params.getCoArgNames := [];
          Params.getStarListArgumentName := None;
          Params.getStarDictArgumentName := None;
          Params.getAllVariables := [] |};
     FunctionBody.getLocalVariables := [];
     FunctionBody.getClosureVariables := [];
     FunctionBody.isGenerator := true;
     FunctionBody.needsLocalsDict := false;
     FunctionBody.getRunTimeFilename := "module.py";
     FunctionBody.getLineNumber := 9;
     FunctionBody.getFutureFlags := [];
     FunctionBody.isExpressionGeneratorObjectBody := true;
     FunctionBody.needsDirectCall := false;
     FunctionBody.isCrossModuleUsed := false |}.

Definition coroutine_body : CoroutineBody.t :=
  {| CoroutineBody.getClosureVariables := [];
     CoroutineBody.getCodeName := "coroutine_1_c_of_outer";
     CoroutineBody.getBody := ["await_result = AWAIT( other );"] |}.



(** Two definition sites of [f]. *)
Definition first_site : Creation :=
  {| creation_to_name := "tmp_assign_source_1";
     creation_function_body := function_body;
     creation_code_object := code_object;
     creation_defaults := [ExpressionConstantRef (ConstInt 1)];
     creation_kw_defaults := Some (ExpressionComputed "make_kw_defaults()");
     creation_annotations := Some (ExpressionComputed "make_annotations()");
     creation_defaults_first := true |}.

Definition second_site : Creation :=
  {| creation_to_name := "tmp_assign_source_2";
     creation_function_body := function_body;
     creation_code_object := code_object;
     creation_defaults := [ExpressionConstantRef (ConstInt 1)];
     creation_kw_defaults := Some (ExpressionComputed "make_kw_defaults()");
     creation_annotations := Some (ExpressionComputed "make_annotations()");
     creation_defaults_first := false |}.

End Sample.

(** ** The functions of [FunctionCodes.py] *)

Section FunctionCodes.

(** *** What the file imports

    [Utils.python_version], the code generators of other modules, and the
    code templates.  None of them is defined in this file; the functions
    below are parameterised by them. *)

Variable python_version : Z.

(** [ConstantCodes.getConstantCode(context, constant)] and the method
    [context.getConstantCode(constant)]. *)
Variable getConstantCode : Context -> Constant -> string.
Variable context_getConstantCode : Context -> Constant -> string.
(** [context.getCodeObjectHandle(...)]. *)
Variable getCodeObjectHandle : CodeObjectKey -> Context -> string.
(** [ModuleCodes], [ParameterParsing], [PythonAPICodes], [VariableCodes]. *)
Variable getModuleAccessCode : Context -> string.
Variable getDirectFunctionEntryPointIdentifier : string -> string.
Variable getParameterEntryPointIdentifier : string -> string.
Variable getQuickEntryPointIdentifier : string -> Params.t -> string.
Variable getParameterParsingCode :
  string -> string -> Params.t -> bool -> Context ->
  list Var.t * string * list string.
Variable getReferenceExportCode : string -> Context -> string.
Variable getLocalVariableInitCode : Var.t -> option string -> string.
Variable getVariableCode : Context -> Var.t -> string.
Variable getVariableCodeName : bool -> Var.t -> string.
(** [Indentation.indented], called on a list of lines and on a text. *)
Variable indented : list string -> string.
Variable indented_text : string -> string.
(** [ErrorCodes]. *)
Variable getErrorVariableDeclarations : list string.
Variable getExceptionKeeperVariableNames : nat -> list string.
Variable getExceptionPreserverVariableNames : nat -> list string.
Variable getMustNotGetHereCode : string -> Context -> list string.
Variable getErrorExitCode :
  string -> bool -> Context -> list string * Context.
(** [CodeGeneration.generateExpressionCode] and
    [TupleCodes.generateTupleCreationCode]. *)
Variable generateExpressionCode :
  string -> Expression -> Context -> list string * Context.
Variable generateTupleCreationCode :
  string -> list Expression -> Context -> list string * Context.

(** [templates.CodeTemplatesFunction]. *)
Variable function_dict_setup : string.
Variable function_direct_body_template : string.
Variable template_function_body : string.
Variable template_function_direct_declaration : string.
Variable template_function_exception_exit : string.
Variable template_function_make_declaration : string.
Variable template_function_return_exit : string.
Variable template_make_function_with_context_template : string.
Variable template_make_function_without_context_template : string.
(** [templates.CodeTemplatesGeneratorFunction]. *)
Variable template_generator_exception_exit : string.
Variable template_generator_making_with_context : string.
Variable template_generator_making_without_context : string.
Variable template_generator_noexception_exit : string.
Variable template_generator_return_exit : string.
Variable template_genfunc_function_impl_template : string.
Variable template_genfunc_generator_no_closure : string.
Variable template_genfunc_generator_no_parameters : string.
Variable template_genfunc_generator_with_own_closure : string.
Variable template_genfunc_generator_with_parameters : string.
Variable template_genfunc_generator_with_parent_closure : string.
Variable template_genfunc_yielder_body_template : string.
Variable template_genfunc_yielder_decl_template : string.
Variable template_make_genfunc_with_context_template : string.
Variable template_make_genfunc_without_context_template : string.
(** [templates.CodeTemplatesCoroutines] and [templates.CodeTemplatesFrames]. *)
Variable template_make_coroutine_with_context_template : string.
Variable template_make_coroutine_without_context_template : string.
Variable template_generator_initial_throw : string.
(** [CodeGeneration.generateStatementSequenceCode], run on the body of a
    coroutine with a collector of its own and with a
    [PythonFunctionCoroutineContext] whose parent is the context given: the
    lines it collects, and the parent context as it leaves it. *)
Variable generateStatementSequenceCode :
  CoroutineBody.t -> list string -> Context -> list string * Context.
(** [context.setCurrentSourceCodeReference], [context.getExceptionEscape]
    and [LineNumberCodes.getErrorLineNumberUpdateCode]. *)
Variable setCurrentSourceCodeReference : SourceReference -> Context -> Context.
Variable getExceptionEscape : Context -> string.
Variable getErrorLineNumberUpdateCode : Context -> string.

(** *** Closure provision and constructor arguments *)

Definition getClosureVariableProvisionCode (context : Context)
  (closure_variables : list Var.t) : list string :=
  fold_left
    (fun result variable =>
       Py.append result (getVariableCode context variable))
    closure_variables [].

Definition _getFunctionCreationArgs
  (defaults_name kw_defaults_name annotations_name : option string)
  (closure_variables : list Var.t) : list string :=
  let result := [] in
  let result :=
    if is_not_None defaults_name
    then Py.append result "PyObject *defaults" else result in
  let result :=
    if is_not_None kw_defaults_name
    then Py.append result "PyObject *kw_defaults" else result in
  let result :=
    if is_not_None annotations_name
    then Py.append result "PyObject *annotations" else result in
  fold_left
    (fun result closure_variable =>
       Py.append result
         ("PyCellObject *" ++ getVariableCodeName true closure_variable))
    closure_variables result.

Definition getFunctionMakerDecl (function_identifier : string)
  (defaults_name kw_defaults_name annotations_name : option string)
  (closure_variables : list Var.t) : option string :=
  let function_creation_arg_spec :=
    _getFunctionCreationArgs defaults_name kw_defaults_name
      annotations_name closure_variables in
  Py.format template_function_make_declaration
    [ ("function_identifier", Py.Str function_identifier);
      ("function_creation_arg_spec",
       Py.Str (Py.join ", " function_creation_arg_spec)) ].

(** *** The constructor of a function object, the "maker" *)

(** The qualified-name argument of the constructor, lines 159-165. *)
Definition function_qualname_obj (function_name function_qualname : string)
  (context : Context) : string :=
  if (python_version <? 330)%Z || String.eqb function_qualname function_name
  then "NULL"
  else getConstantCode context (ConstStr function_qualname).

(** The statements copying the closure cells, lines 168-187. *)
Definition context_copy (closure_variables : list Var.t) : list string :=
  let context_copy := [] in
  let closure_count := List.length closure_variables in
  let context_copy :=
    Py.append context_copy
      ("PyCellObject **closure = (PyCellObject **)malloc( "
         ++ Py.str_of_nat closure_count ++ " * sizeof(PyCellObject *) );") in
  fold_left
    (fun context_copy '(count, closure_variable) =>
       let context_copy :=
         Py.append context_copy
           ("closure[" ++ Py.str_of_nat count ++ "] = "
              ++ getVariableCodeName true closure_variable ++ ";") in
       Py.append context_copy
         ("Py_INCREF( closure[" ++ Py.str_of_nat count ++ "] );"))
    (Py.enumerate closure_variables) context_copy.

(** The mapping given to the with-context templates, lines 194-230. *)
Definition maker_mapping_with_context
  (function_name function_qualname function_identifier code_identifier : string)
  (parameters : Params.t) (closure_variables : list Var.t)
  (defaults_name kw_defaults_name annotations_name : option string)
  (function_doc : Constant) (context : Context) : Py.dict :=
  let function_creation_args :=
    _getFunctionCreationArgs defaults_name kw_defaults_name
      annotations_name closure_variables in
  [ ("function_name_obj",
     Py.Str (getConstantCode context (ConstStr function_name)));
    ("function_qualname_obj",
     Py.Str (function_qualname_obj function_name function_qualname context));
    ("function_identifier", Py.Str function_identifier);
    ("fparse_function_identifier",
     Py.Str (getParameterEntryPointIdentifier function_identifier));
    ("dparse_function_identifier",
     Py.Str (getQuickEntryPointIdentifier function_identifier parameters));
    ("function_creation_args", Py.Str (Py.join ", " function_creation_args));
    ("code_identifier", Py.Str code_identifier);
    ("context_copy", Py.Str (indented (context_copy closure_variables)));
    ("function_doc", Py.Str (getConstantCode context function_doc));
    ("defaults", Py.Str (if truthy defaults_name then "defaults" else "NULL"));
    ("kw_defaults",
     Py.Str (if truthy kw_defaults_name then "kw_defaults" else "NULL"));
    ("annotations",
     Py.Str (if truthy annotations_name then "annotations"
             else context_getConstantCode context (ConstDict [])));
    ("closure_count", Py.Int (Z.of_nat (List.length closure_variables)));
    ("module_identifier", Py.Str (getModuleAccessCode context)) ].

(** The mapping given to the without-context templates, lines 238-272. *)
Definition maker_mapping_without_context
  (function_name function_qualname function_identifier code_identifier : string)
  (parameters : Params.t) (closure_variables : list Var.t)
  (defaults_name kw_defaults_name annotations_name : option string)
  (function_doc : Constant) (context : Context) : Py.dict :=
  let function_creation_args :=
    _getFunctionCreationArgs defaults_name kw_defaults_name
      annotations_name closure_variables in
  [ ("function_name_obj",
     Py.Str (getConstantCode context (ConstStr function_name)));
    ("function_qualname_obj",
     Py.Str (function_qualname_obj function_name function_qualname context));
    ("function_identifier", Py.Str function_identifier);
    ("fparse_function_identifier",
     Py.Str (getParameterEntryPointIdentifier function_identifier));
    ("dparse_function_identifier",
     Py.Str (getQuickEntryPointIdentifier function_identifier parameters));
    ("function_creation_args", Py.Str (Py.join ", " function_creation_args));
    ("code_identifier", Py.Str code_identifier);
    ("function_doc", Py.Str (getConstantCode context function_doc));
    ("defaults", Py.Str (if truthy defaults_name then "defaults" else "NULL"));
    ("kw_defaults",
     Py.Str (if truthy kw_defaults_name then "kw_defaults" else "NULL"));
    ("annotations",
     Py.Str (if truthy annotations_name then "annotations"
             else context_getConstantCode context (ConstDict [])));
    ("module_identifier", Py.Str (getModuleAccessCode context)) ].

Definition getFunctionMakerCode
  (function_name function_qualname function_identifier code_identifier : string)
  (parameters : Params.t) (closure_variables : list Var.t)
  (defaults_name kw_defaults_name annotations_name : option string)
  (function_doc : Constant) (is_generator : bool) (context : Context)
  : option string :=
  if non_empty closure_variables then
    let template :=
      if is_generator then template_make_genfunc_with_context_template
      else template_make_function_with_context_template in
    Py.format template
      (maker_mapping_with_context function_name function_qualname
         function_identifier code_identifier parameters closure_variables
         defaults_name kw_defaults_name annotations_name function_doc context)
  else
    let template :=
      if is_generator then template_make_genfunc_without_context_template
      else template_make_function_without_context_template in
    Py.format template
      (maker_mapping_without_context function_name function_qualname
         function_identifier code_identifier parameters closure_variables
         defaults_name kw_defaults_name annotations_name function_doc context).

(** *** Creating a function object at a definition site *)

(** Modelled from the spec: [ErrorCodes.getReleaseCode] is not in the
    source tree.  The spec has a tracked temp name leave the cleanup
    ledger exactly once, "either by an explicit release or by transfer of
    ownership", and has annotations "released by the caller immediately
    after the call": a name that needs cleanup gets its release emitted
    and leaves the ledger; any other name (also [None]) is left alone. *)
Definition getReleaseCode (release_name : option string) : Gen unit :=
  tracked <- ask (needsCleanup release_name) ;;
  when tracked
    (match release_name with
     | Some name => emit ("Py_DECREF( " ++ name ++ " );")
     | None => ret tt
     end ;;
     update (removeCleanupTempName release_name)).

Definition getFunctionCreationCode (to_name function_identifier : string)
  (defaults_name kw_defaults_name annotations_name : option string)
  (closure_variables : list Var.t) : Gen unit :=
  context <- ask (fun context => context) ;;
  let args := [] in
  let args :=
    match defaults_name with
    | Some name => Py.append args (getReferenceExportCode name context)
    | None => args
    end in
  let args :=
    match kw_defaults_name with
    | Some name => Py.append args name
    | None => args
    end in
  let args :=
    match annotations_name with
    | Some name => Py.append args name
    | None => args
    end in
  let args :=
    Py.extend args
      (getClosureVariableProvisionCode context closure_variables) in
  emit (to_name ++ " = MAKE_FUNCTION_" ++ function_identifier
          ++ "( " ++ Py.join ", " args ++ " );") ;;
  tracked <- ask (needsCleanup defaults_name) ;;
  when tracked (update (removeCleanupTempName defaults_name)) ;;
  tracked <- ask (needsCleanup kw_defaults_name) ;;
  when tracked (update (removeCleanupTempName kw_defaults_name)) ;;
  update (addCleanupTempName to_name).

(** The nested function [handleKwDefaults], lines 284-301. *)
Definition handleKwDefaults (kw_defaults : option Expression)
  : Gen (option string) :=
  match kw_defaults with
  | Some kw_defaults =>
      kw_defaults_name <- call (allocateTempName "kw_defaults") ;;
      assert
        (negb (isExpressionConstantRef kw_defaults)
         || differs_from_empty_dict (getConstant kw_defaults))
        (AssertKwDefaultsNotEmpty (getConstant kw_defaults)) ;;
      generate (generateExpressionCode kw_defaults_name kw_defaults) ;;
      ret (Some kw_defaults_name)
  | None => ret None
  end.

(** The nested function [handleDefaults], lines 303-316. *)
Definition handleDefaults (defaults : list Expression)
  : Gen (option string) :=
  if non_empty defaults then
    defaults_name <- call (allocateTempName "defaults") ;;
    generate (generateTupleCreationCode defaults_name defaults) ;;
    ret (Some defaults_name)
  else ret None.

Definition generateFunctionCreationCode (to_name : string)
  (function_body : FunctionBody.t) (code_object : CodeObject.t)
  (defaults : list Expression) (kw_defaults annotations : option Expression)
  (defaults_first : bool) : Gen unit :=
  assert (FunctionBody.needsCreation function_body) AssertNeedsCreation ;;
  names <-
    (if defaults_first then
       defaults_name <- handleDefaults defaults ;;
       kw_defaults_name <- handleKwDefaults kw_defaults ;;
       ret (defaults_name, kw_defaults_name)
     else
       kw_defaults_name <- handleKwDefaults kw_defaults ;;
       defaults_name <- handleDefaults defaults ;;
       ret (defaults_name, kw_defaults_name)) ;;
  let '(defaults_name, kw_defaults_name) := names in
  annotations_name <-
    match annotations with
    | Some annotations =>
        annotations_name <- call (allocateTempName "annotations") ;;
        generate (generateExpressionCode annotations_name annotations) ;;
        ret (Some annotations_name)
    | None => ret None
    end ;;
  let function_identifier := FunctionBody.getCodeName function_body in
  (* Creation code needs to be done only once. *)
  registered <- ask (hasHelperCode function_identifier) ;;
  when (negb registered)
    (let parameters := FunctionBody.getParameters function_body in
     let var_names := Params.getCoArgNames parameters in
     (* Add names of local variables too. *)
     let var_names :=
       Py.extend var_names
         (map Var.getName
            (filter (fun local_variable =>
                       negb (Var.isParameterVariable local_variable))
               (FunctionBody.getLocalVariables function_body))) in
     code_identifier <-
       ask (getCodeObjectHandle
              {| filename := FunctionBody.getRunTimeFilename function_body;
                 var_names := CodeObject.getVarNames code_object;
                 arg_count := CodeObject.getArgumentCount code_object;
                 kw_only_count :=
                   CodeObject.getKwOnlyParameterCount code_object;
                 line_number := FunctionBody.getLineNumber function_body;
                 code_name := FunctionBody.getFunctionName function_body;
                 is_generator := FunctionBody.isGenerator function_body;
                 is_optimized :=
                   negb (FunctionBody.needsLocalsDict function_body);
                 new_locals := true;
                 has_starlist :=
                   is_not_None (Params.getStarListArgumentName parameters);
                 has_stardict :=
                   is_not_None (Params.getStarDictArgumentName parameters);
                 has_closure :=
                   non_empty (FunctionBody.getClosureVariables function_body);
                 future_flags := FunctionBody.getFutureFlags function_body
              |}) ;;
     context <- ask (fun context => context) ;;
     maker_code <-
       formatted
         (getFunctionMakerCode
            (FunctionBody.getFunctionName function_body)
            (FunctionBody.getFunctionQualname function_body)
            function_identifier code_identifier parameters
            (FunctionBody.getClosureVariables function_body)
            defaults_name kw_defaults_name annotations_name
            (FunctionBody.getDoc function_body)
            (FunctionBody.isGenerator function_body) context) ;;
     update (addHelperCode function_identifier maker_code) ;;
     function_decl <-
       formatted
         (getFunctionMakerDecl (FunctionBody.getCodeName function_body)
            defaults_name kw_defaults_name annotations_name
            (FunctionBody.getClosureVariables function_body)) ;;
     update (addDeclaration function_identifier function_decl)) ;;
  getFunctionCreationCode to_name (FunctionBody.getCodeName function_body)
    defaults_name kw_defaults_name annotations_name
    (FunctionBody.getClosureVariables function_body) ;;
  getReleaseCode annotations_name.

(** *** Calling a function directly *)

(** The body of the loop over [arg_names] before the call, lines 466-470. *)
Definition hand_over_argument (arg_name : string) : Gen unit :=
  tracked <- ask (needsCleanup (Some arg_name)) ;;
  if tracked
  then update (removeCleanupTempName (Some arg_name))
  else emit ("Py_INCREF( " ++ arg_name ++ " );").

(** The body of the loop over [arg_names] after the call, lines 483-485. *)
Definition disown_argument (arg_name : string) : Gen unit :=
  tracked <- ask (needsCleanup (Some arg_name)) ;;
  when tracked (update (removeCleanupTempName (Some arg_name))).

Definition getDirectFunctionCallCode (to_name function_identifier : string)
  (arg_names : list string) (closure_variables : list Var.t)
  (needs_check : bool) : Gen unit :=
  let function_identifier :=
    getDirectFunctionEntryPointIdentifier function_identifier in
  context <- ask (fun context => context) ;;
  let suffix_args :=
    getClosureVariableProvisionCode context closure_variables in
  for_each arg_names hand_over_argument ;;
  emit (to_name ++ " = " ++ function_identifier ++ "( "
          ++ Py.join ", " (Py.extend arg_names suffix_args) ++ " );") ;;
  (* Arguments are owned to the called in direct function call. *)
  for_each arg_names disown_argument ;;
  generate (getErrorExitCode to_name needs_check) ;;
  update (addCleanupTempName to_name).

Definition getFunctionDirectClosureArgs (closure_variables : list Var.t)
  : list string :=
  fold_left
    (fun result closure_variable =>
       if Var.isSharedTechnically closure_variable then
         Py.append result
           ("PyCellObject *" ++ getVariableCodeName true closure_variable)
       else
         Py.append result
           ("PyObject *&" ++ getVariableCodeName true closure_variable))
    closure_variables [].

Definition getFunctionDirectDecl (function_identifier : string)
  (closure_variables parameter_variables : list Var.t)
  (file_scope : string) : option string :=
  let parameter_objects_decl :=
    map (fun variable => "PyObject *_python_par_" ++ Var.getCodeName variable)
      parameter_variables in
  let parameter_objects_decl :=
    Py.extend parameter_objects_decl
      (getFunctionDirectClosureArgs closure_variables) in
  Py.format template_function_direct_declaration
    [ ("file_scope", Py.Str file_scope);
      ("function_identifier", Py.Str function_identifier);
      ("direct_call_arg_spec", Py.Str (Py.join ", " parameter_objects_decl)) ].

(** *** The body of a plain function *)

(** Declarations of the temporaries, exception slots and frame
    variables, as all three body generators build them. *)
Definition temp_declarations (context : Context) : list string :=
  map (fun '(tmp_name, tmp_type) =>
         tmp_type ++ (if negb (Py.endswith tmp_type "*") then " " else "")
           ++ tmp_name ++ ";")
    (getTempNameInfos context).

Definition outline_return_inits (context : Context) : list string :=
  fold_left
    (fun inits '(tmp_name, tmp_type) =>
       if Py.startswith tmp_name "tmp_outline_return_value_"
       then Py.append inits (tmp_name ++ " = NULL;") else inits)
    (getTempNameInfos context) [].

Definition keeper_declarations (context : Context) : list string :=
  fold_left
    (fun inits keeper_index =>
       Py.extend inits (getExceptionKeeperVariableNames keeper_index))
    (Py.range_from_1 (getKeeperVariableCount context)) [].

Definition preserver_declarations (context : Context) : list string :=
  fold_left
    (fun inits preserver_id =>
       Py.extend inits (getExceptionPreserverVariableNames preserver_id))
    (getExceptionPreserverCounts context) [].

(** [function_cleanup], lines 623-627. *)
Definition function_cleanup (context : Context) : string :=
  if hasLocalsDict context
  then "Py_DECREF( locals_dict );" ++ Py.newline
  else "".

(** [function_exit], lines 631-654. *)
Definition function_exit (context : Context) (needs_exception_exit : bool)
  : option string :=
  let codes :=
    getMustNotGetHereCode "Return statement must have exited already."
      context in
  let function_exit := indented codes ++ Py.newline ++ Py.newline in
  function_exit <-?
    (if needs_exception_exit then
       block <-?
         Py.format template_function_exception_exit
           [ ("function_cleanup", Py.Str (function_cleanup context)) ] ;;
       Some (function_exit ++ block)
     else Some function_exit) ;;
  if hasTempName "return_value" context then
    block <-?
      Py.format template_function_return_exit
        [ ("function_cleanup",
           Py.Str (indented_text (function_cleanup context))) ] ;;
    Some (function_exit ++ indented_text block)
  else Some function_exit.

Definition getFunctionCode (context : Context)
  (function_name function_identifier : string) (parameters : Params.t)
  (closure_variables user_variables temp_variables : list Var.t)
  (function_codes : list string) (function_doc : Constant)
  (file_scope : string) (needs_exception_exit : bool) : option string :=
  let '(parameter_variables, entry_point_code, parameter_objects_decl) :=
    getParameterParsingCode function_identifier function_name parameters
      (isForCreatedFunction context) context in
  let function_parameter_decl :=
    map (fun variable =>
           getLocalVariableInitCode variable
             (Some ("_python_par_" ++ Var.getCodeName variable)))
      parameter_variables in
  (* User local variable initializations *)
  let local_var_inits :=
    map (fun variable => getLocalVariableInitCode variable None)
      (Py.extend user_variables temp_variables) in
  let local_var_inits :=
    if needsExceptionVariables context
    then Py.extend local_var_inits getErrorVariableDeclarations
    else local_var_inits in
  let local_var_inits :=
    Py.extend local_var_inits (keeper_declarations context) in
  let local_var_inits :=
    Py.extend local_var_inits (preserver_declarations context) in
  let local_var_inits :=
    Py.extend local_var_inits (temp_declarations context) in
  let local_var_inits :=
    Py.extend local_var_inits (getFrameDeclarations context) in
  let local_var_inits :=
    if hasTempName "return_value" context
    then Py.append local_var_inits "tmp_return_value = NULL;"
    else local_var_inits in
  let local_var_inits :=
    Py.extend local_var_inits (outline_return_inits context) in
  let function_doc := getConstantCode context function_doc in
  let function_locals := [] in
  let function_locals :=
    if hasLocalsDict context
    then Py.extend function_locals (Py.split function_dict_setup "010")
    else function_locals in
  let function_locals :=
    Py.extend function_locals
      (Py.extend function_parameter_decl local_var_inits) in
  let result := "" in
  function_exit <-? function_exit context needs_exception_exit ;;
  result <-?
    (if isForDirectCall context then
       let parameter_objects_decl :=
         Py.extend parameter_objects_decl
           (getFunctionDirectClosureArgs closure_variables) in
       body <-?
         Py.format function_direct_body_template
           [ ("file_scope", Py.Str file_scope);
             ("function_identifier", Py.Str function_identifier);
             ("direct_call_arg_spec",
              Py.Str (Py.join ", " parameter_objects_decl));
             ("function_locals", Py.Str (indented function_locals));
             ("function_body", Py.Str (indented function_codes));
             ("function_exit", Py.Str function_exit) ] ;;
       Some (result ++ body)
     else
       body <-?
         Py.format template_function_body
           [ ("function_identifier", Py.Str function_identifier);
             ("parameter_objects_decl",
              Py.Str (Py.join ", " parameter_objects_decl));
             ("function_locals", Py.Str (indented function_locals));
             ("function_body", Py.Str (indented function_codes));
             ("function_exit", Py.Str function_exit) ] ;;
       Some (result ++ body)) ;;
  let result :=
    if isForCreatedFunction context then result ++ entry_point_code
    else result in
  Some result.

(** *** Generators: the resumable body and the construction path *)

(** [generator_exit], lines 767-773 and again lines 924-930. *)
Definition generator_exit (needs_exception_exit needs_generator_return : bool)
  : option string :=
  generator_exit <-?
    (if needs_exception_exit
     then Py.format template_generator_exception_exit []
     else Py.format template_generator_noexception_exit []) ;;
  if needs_generator_return then
    block <-? Py.format template_generator_return_exit [] ;;
    Some (generator_exit ++ block)
  else Some generator_exit.

(** The local declarations of a resumable body, lines 719-764 and again
    lines 880-921. *)
Definition generator_function_locals (context : Context)
  (user_variables temp_variables : list Var.t) : list string :=
  let function_locals :=
    map (fun user_variable => getLocalVariableInitCode user_variable None)
      (Py.extend user_variables temp_variables) in
  let function_locals :=
    if hasLocalsDict context
    then Py.extend function_locals (Py.split function_dict_setup "010")
    else function_locals in
  let function_locals :=
    if needsExceptionVariables context
    then Py.extend function_locals getErrorVariableDeclarations
    else function_locals in
  let function_locals :=
    Py.extend function_locals (keeper_declarations context) in
  let function_locals :=
    Py.extend function_locals (preserver_declarations context) in
  let function_locals :=
    Py.extend function_locals (temp_declarations context) in
  let function_locals :=
    Py.extend function_locals (getFrameDeclarations context) in
  let function_locals :=
    if hasTempName "generator_return" context
    then Py.append function_locals "tmp_generator_return = false;"
    else function_locals in
  let function_locals :=
    if hasTempName "return_value" context
    then Py.append function_locals "tmp_return_value = NULL;"
    else function_locals in
  Py.extend function_locals (outline_return_inits context).

(** [parameter_copy], lines 788-804. *)
Definition parameter_copy (parameter_variables : list Var.t) : list string :=
  fold_left
    (fun parameter_copy '(count, variable) =>
       if Var.isSharedTechnically variable then
         Py.append parameter_copy
           ("parameters[" ++ Py.str_of_nat count
              ++ "] = (PyObject *)PyCell_NEW1( _python_par_"
              ++ Var.getCodeName variable ++ " );")
       else
         Py.append parameter_copy
           ("parameters[" ++ Py.str_of_nat count ++ "] = _python_par_"
              ++ Var.getCodeName variable ++ ";"))
    (Py.enumerate parameter_variables) [].

(** [parameters_decl], lines 784-811. *)
Definition parameters_decl (parameter_variables : list Var.t)
  : option string :=
  let parameter_count := List.length parameter_variables in
  if (0 <? parameter_count)%nat then
    Py.format template_genfunc_generator_with_parameters
      [ ("parameter_copy",
         Py.Str (indented (parameter_copy parameter_variables)));
        ("parameter_count", Py.Int (Z.of_nat parameter_count)) ]
  else Py.format template_genfunc_generator_no_parameters [].

(** [closure_copy], lines 818-832. *)
Definition closure_copy (closure_variables : list Var.t) : list string :=
  fold_left
    (fun closure_copy '(count, variable) =>
       let closure_copy :=
         Py.append closure_copy
           ("closure[" ++ Py.str_of_nat count ++ "] = "
              ++ getVariableCodeName true variable ++ ";") in
       Py.append closure_copy
         ("Py_INCREF( closure[" ++ Py.str_of_nat count ++ "] );"))
    (Py.enumerate closure_variables) [].

(** [closure_decl], lines 814-844. *)
Definition closure_decl (context : Context) (closure_variables : list Var.t)
  : option string :=
  let closure_count := List.length closure_variables in
  if (0 <? closure_count)%nat then
    if isForDirectCall context then
      Py.format template_genfunc_generator_with_own_closure
        [ ("closure_copy",
           Py.Str (Py.join Py.newline (closure_copy closure_variables)));
          ("closure_count", Py.Int (Z.of_nat closure_count)) ]
    else
      Py.format template_genfunc_generator_with_parent_closure
        [ ("closure_count", Py.Int (Z.of_nat closure_count)) ]
  else Py.format template_genfunc_generator_no_closure [].

Definition getGeneratorFunctionCode (context : Context)
  (function_name function_qualname function_identifier code_identifier : string)
  (parameters : Params.t)
  (closure_variables user_variables temp_variables : list Var.t)
  (function_codes : list string) (function_doc : Constant)
  (needs_exception_exit needs_generator_return : bool) : option string :=
  let '(parameter_variables, entry_point_code, parameter_objects_decl) :=
    getParameterParsingCode function_identifier function_name parameters
      (isForCreatedFunction context) context in
  (* For direct calls, append the closure variables to the argument list. *)
  let parameter_objects_decl :=
    if isForDirectCall context then
      fold_left
        (fun parameter_objects_decl '(count, variable) =>
           Py.append parameter_objects_decl
             ("PyCellObject *" ++ getVariableCodeName true variable))
        (Py.enumerate closure_variables) parameter_objects_decl
    else parameter_objects_decl in
  let function_locals :=
    generator_function_locals context user_variables temp_variables in
  let function_doc := getConstantCode context function_doc in
  generator_exit <-?
    generator_exit needs_exception_exit needs_generator_return ;;
  result <-?
    Py.format template_genfunc_yielder_body_template
      [ ("function_identifier", Py.Str function_identifier);
        ("function_body", Py.Str (indented function_codes));
        ("function_var_inits", Py.Str (indented function_locals));
        ("generator_exit", Py.Str generator_exit) ] ;;
  (* Code to copy parameters into a "PyObject **" array, attaching it to
     the generator object to be created in the cause of the function call. *)
  let parameter_count := List.length parameter_variables in
  parameters_decl <-? parameters_decl parameter_variables ;;
  let closure_count := List.length closure_variables in
  closure_decl <-? closure_decl context closure_variables ;;
  let function_name_obj :=
    if (python_version <? 350)%Z || isForDirectCall context
    then getConstantCode context (ConstStr function_name)
    else "self->m_name" in
  let function_qualname_obj :=
    if (python_version <? 350)%Z then "NULL"
    else if isForDirectCall context
         then getConstantCode context (ConstStr function_qualname)
         else "self->m_qualname" in
  impl <-?
    Py.format template_genfunc_function_impl_template
      [ ("function_name", Py.Str function_name);
        ("function_name_obj", Py.Str function_name_obj);
        ("function_qualname_obj", Py.Str function_qualname_obj);
        ("function_identifier", Py.Str function_identifier);
        ("code_identifier", Py.Str code_identifier);
        ("parameter_decl", Py.Str parameters_decl);
        ("parameter_count", Py.Int (Z.of_nat parameter_count));
        ("closure_decl", Py.Str closure_decl);
        ("closure_count", Py.Int (Z.of_nat closure_count));
        ("parameter_objects_decl",
         Py.Str (Py.join ", " parameter_objects_decl)) ] ;;
  let result := result ++ impl in
  let result :=
    if isForCreatedFunction context then result ++ entry_point_code
    else result in
  Some result.

Definition getGeneratorObjectCode (context : Context)
  (function_identifier : string) (user_variables temp_variables : list Var.t)
  (function_codes : list string)
  (needs_exception_exit needs_generator_return : bool) : option string :=
  let function_locals :=
    generator_function_locals context user_variables temp_variables in
  generator_exit <-?
    generator_exit needs_exception_exit needs_generator_return ;;
  Py.format template_genfunc_yielder_body_template
    [ ("function_identifier", Py.Str function_identifier);
      ("function_body", Py.Str (indented function_codes));
      ("function_var_inits", Py.Str (indented function_locals));
      ("generator_exit", Py.Str generator_exit) ].

(** *** Creating a coroutine object *)

(** [expression.getCoroutineBody()] is passed in directly.  The code of
    the body goes to the local collector [function_codes], which the
    function does not read again. *)
Definition generateCoroutineCreationCode (to_name : string)
  (coroutine_body : CoroutineBody.t) : Gen unit :=
  let closure_variables := CoroutineBody.getClosureVariables coroutine_body in
  let code_identifier := CoroutineBody.getCodeName coroutine_body in
  function_codes <-
    call (generateStatementSequenceCode coroutine_body
            (CoroutineBody.getBody coroutine_body)) ;;
  if non_empty closure_variables then
    line <-
      formatted
        (Py.format template_make_coroutine_with_context_template
           [ ("to_name", Py.Str to_name);
             ("code_identifier", Py.Str code_identifier) ]) ;;
    emit line
  else
    line <-
      formatted
        (Py.format template_make_coroutine_without_context_template
           [ ("to_name", Py.Str to_name);
             ("code_identifier", Py.Str code_identifier) ]) ;;
    emit line.

(** *** Making a generator object *)

(** The qualified-name argument of the generator maker, lines 993-999. *)
Definition generator_qualname_obj (generator_name generator_qualname : string)
  (context : Context) : string :=
  if (python_version <? 330)%Z
     || String.eqb generator_qualname generator_name
  then "NULL"
  else getConstantCode context (ConstStr generator_qualname).

(** [expression.getGeneratorRef().getFunctionBody()] and
    [expression.getCodeObject()] are passed in directly. *)
Definition generateMakeGeneratorObjectCode (to_name : string)
  (generator_object_body : FunctionBody.t) (code_object : CodeObject.t)
  : Gen unit :=
  context <- ask (fun context => context) ;;
  let closure_variables :=
    FunctionBody.getClosureVariables generator_object_body in
  let generator_name := FunctionBody.getFunctionName generator_object_body in
  let generator_qualname :=
    FunctionBody.getFunctionQualname generator_object_body in
  let generator_name_obj :=
    getConstantCode context (ConstStr generator_name) in
  let generator_qualname_obj :=
    generator_qualname_obj generator_name generator_qualname context in
  code_identifier <-
    ask (getCodeObjectHandle
           {| filename := FunctionBody.getRunTimeFilename generator_object_body;
              var_names := CodeObject.getVarNames code_object;
              arg_count := CodeObject.getArgumentCount code_object;
              kw_only_count := CodeObject.getKwOnlyParameterCount code_object;
              line_number := FunctionBody.getLineNumber generator_object_body;
              code_name := CodeObject.getCodeObjectName code_object;
              is_generator := true;
              is_optimized := true;
              new_locals :=
                negb (FunctionBody.needsLocalsDict generator_object_body);
              has_starlist := false;
              has_stardict := false;
              has_closure := (0 <? List.length closure_variables)%nat;
              future_flags := FunctionBody.getFutureFlags generator_object_body
           |}) ;;
  (if non_empty closure_variables then
     let closure_copy :=
       fold_left
         (fun closure_copy '(count, variable) =>
            let closure_copy :=
              Py.append closure_copy
                ("closure[" ++ Py.str_of_nat count ++ "] = "
                   ++ getVariableCode context variable ++ ";") in
            Py.append closure_copy
              ("Py_INCREF( closure[" ++ Py.str_of_nat count ++ "] );"))
         (Py.enumerate closure_variables) [] in
     closure_making <-
       formatted
         (Py.format template_genfunc_generator_with_own_closure
            [ ("closure_copy", Py.Str (indented closure_copy));
              ("closure_count",
               Py.Int (Z.of_nat (List.length closure_variables))) ]) ;;
     line <-
       formatted
         (Py.format template_generator_making_with_context
            [ ("closure_making", Py.Str closure_making);
              ("to_name", Py.Str to_name);
              ("generator_identifier",
               Py.Str (FunctionBody.getCodeName generator_object_body));
              ("generator_name_obj", Py.Str generator_name_obj);
              ("generator_qualname_obj", Py.Str generator_qualname_obj);
              ("code_identifier", Py.Str code_identifier);
              ("closure_count",
               Py.Int (Z.of_nat (List.length closure_variables))) ]) ;;
     emit line
   else
     line <-
       formatted
         (Py.format template_generator_making_without_context
            [ ("to_name", Py.Str to_name);
              ("generator_identifier",
               Py.Str (FunctionBody.getCodeName generator_object_body));
              ("generator_name_obj", Py.Str generator_name_obj);
              ("generator_qualname_obj", Py.Str generator_qualname_obj);
              ("code_identifier", Py.Str code_identifier) ]) ;;
     emit line) ;;
  update (addCleanupTempName to_name).

Definition getExportScopeCode (cross_module : bool) : string :=
  if cross_module then "NUITKA_CROSS_MODULE" else "NUITKA_LOCAL_MODULE".

(** [statement.getSourceReference()] is passed in directly. *)
Definition generateGeneratorEntryCode (source_ref : SourceReference)
  : Gen unit :=
  update (setCurrentSourceCodeReference source_ref) ;;
  context <- ask (fun context => context) ;;
  line <-
    formatted
      (Py.format template_generator_initial_throw
         [ ("frame_exception_exit", Py.Str (getExceptionEscape context));
           ("set_error_line_number",
            Py.Str (getErrorLineNumberUpdateCode context)) ]) ;;
  emit line.

(** [Some None] is the function returning [None]; the outer [None] is a
    failing [%]. *)
Definition generateFunctionDeclCode (function_body : FunctionBody.t)
  : option (option string) :=
  if FunctionBody.isExpressionGeneratorObjectBody function_body then
    decl <-?
      Py.format template_genfunc_yielder_decl_template
        [ ("function_identifier",
           Py.Str (FunctionBody.getCodeName function_body)) ] ;;
    Some (Some decl)
  else if FunctionBody.needsDirectCall function_body then
    decl <-?
      getFunctionDirectDecl (FunctionBody.getCodeName function_body)
        (FunctionBody.getClosureVariables function_body)
        (Params.getAllVariables (FunctionBody.getParameters function_body))
        (getExportScopeCode (FunctionBody.isCrossModuleUsed function_body)) ;;
    Some (Some decl)
  else Some None.

(** *** Notions used to state the properties *)

(** The cell parameter declared for one closure variable. *)
Definition cell_parameter (closure_variable : Var.t) : string :=
  "PyCellObject *" ++ getVariableCodeName true closure_variable.

(** A call site of the constructor of [function_identifier]. *)
Definition constructor_call (to_name function_identifier : string)
  (args : list string) : string :=
  to_name ++ " = MAKE_FUNCTION_" ++ function_identifier
    ++ "( " ++ Py.join ", " args ++ " );".

(** The line of a direct call of the entry point [entry_point]. *)
Definition direct_call (to_name entry_point : string) (args : list string)
  : string :=
  to_name ++ " = " ++ entry_point ++ "( " ++ Py.join ", " args ++ " );".

(** The statements emitted for taking and for dropping a reference. *)
Definition incref_line (name : string) : string :=
  "Py_INCREF( " ++ name ++ " );".

Definition decref_line (name : string) : string :=
  "Py_DECREF( " ++ name ++ " );".

(** How often a name is entered in the cleanup ledger, and how often a line
    was emitted. *)
Definition occurrences (x : string) (items : list string) : nat :=
  count_occ string_dec items x.

(** The names among optional ones that are present. *)
Definition present (names : list (option string)) : list string :=
  flat_map (fun name => match name with Some x => [x] | None => [] end) names.

Fixpoint all_distinct (names : list string) : bool :=
  match names with
  | [] => true
  | x :: rest => negb (Py.contains x rest) && all_distinct rest
  end.

(** The entries registered under one identity, in registration order. *)
Definition registered (key : string) (entries : list (string * string))
  : list (string * string) :=
  filter (fun entry => String.eqb (fst entry) key) entries.

(** The keyword-defaults expression is a constant that equals [{}]. *)
Definition is_empty_dict_constant (kw_defaults : option Expression) : bool :=
  match kw_defaults with
  | Some e =>
      isExpressionConstantRef e && negb (differs_from_empty_dict (getConstant e))
  | None => false
  end.

(** The statement that fills slot [count] of the parameter array of a
    generator object from parameter [variable]. *)
Definition parameter_copy_line (count : nat) (variable : Var.t) : string :=
  if Var.isSharedTechnically variable then
    "parameters[" ++ Py.str_of_nat count
      ++ "] = (PyObject *)PyCell_NEW1( _python_par_"
      ++ Var.getCodeName variable ++ " );"
  else
    "parameters[" ++ Py.str_of_nat count ++ "] = _python_par_"
      ++ Var.getCodeName variable ++ ";".

(** The argument the constructor body passes for a slot whose value is
    absent, in the words of the property: [NULL] for the defaults and the
    keyword defaults, the empty-dictionary constant for the annotations. *)
Definition absent_slot_argument (context : Context) (slot : string) : string :=
  if String.eqb slot "annotations"
  then context_getConstantCode context (ConstDict [])
  else "NULL".

(** The two statements that fill slot [count] of a closure array. *)
Definition closure_assign_line (count : nat) (variable : Var.t) : string :=
  "closure[" ++ Py.str_of_nat count ++ "] = "
    ++ getVariableCodeName true variable ++ ";".

Definition closure_incref_line (count : nat) : string :=
  "Py_INCREF( closure[" ++ Py.str_of_nat count ++ "] );".

(** The statement that allocates a closure array of [closure_count]
    cells. *)
Definition closure_allocation_line (closure_count : nat) : string :=
  "PyCellObject **closure = (PyCellObject **)malloc( "
    ++ Py.str_of_nat closure_count ++ " * sizeof(PyCellObject *) );".

(** The parameter a directly called function declares for one explicit
    argument. *)
Definition direct_parameter (variable : Var.t) : string :=
  "PyObject *_python_par_" ++ Var.getCodeName variable.

(** The parameter a directly called function declares for one closure
    variable. *)
Definition direct_closure_parameter (closure_variable : Var.t) : string :=
  if Var.isSharedTechnically closure_variable
  then "PyCellObject *" ++ getVariableCodeName true closure_variable
  else "PyObject *&" ++ getVariableCodeName true closure_variable.

(** The mapping [getGeneratorFunctionCode] gives to the template of the
    construction function, lines 846-869, from the declarations of the
    parameter array and of the closure array. *)
Definition construction_mapping (context : Context)
  (function_name function_qualname function_identifier code_identifier : string)
  (parameter_variables closure_variables : list Var.t)
  (parameter_objects_decl : list string)
  (parameters_decl closure_decl : string) : Py.dict :=
  [ ("function_name", Py.Str function_name);
    ("function_name_obj",
     Py.Str (if (python_version <? 350)%Z || isForDirectCall context
             then getConstantCode context (ConstStr function_name)
             else "self->m_name"));
    ("function_qualname_obj",
     Py.Str (if (python_version <? 350)%Z then "NULL"
             else if isForDirectCall context
                  then getConstantCode context (ConstStr function_qualname)
                  else "self->m_qualname"));
    ("function_identifier", Py.Str function_identifier);
    ("code_identifier", Py.Str code_identifier);
    ("parameter_decl", Py.Str parameters_decl);
    ("parameter_count", Py.Int (Z.of_nat (List.length parameter_variables)));
    ("closure_decl", Py.Str closure_decl);
    ("closure_count", Py.Int (Z.of_nat (List.length closure_variables)));
    ("parameter_objects_decl",
     Py.Str (Py.join ", "
               (if isForDirectCall context
                then Py.extend parameter_objects_decl
                       (map cell_parameter closure_variables)
                else parameter_objects_decl))) ].

(** The declaration of a parameter variable in a function body, which
    takes its value from the argument of the same code name, and the
    declaration of any other local variable. *)
Definition parameter_declaration (variable : Var.t) : string :=
  getLocalVariableInitCode variable
    (Some ("_python_par_" ++ Var.getCodeName variable)).

Definition local_declaration (variable : Var.t) : string :=
  getLocalVariableInitCode variable None.

(** From [c] to [c'] the cleanup ledger lost nothing, and gained at most
    the [names]: a code generator that is called with a target name may
    enter that name into the ledger. *)
Definition ledger_grows_by (names : list string) (c c' : Context) : Prop :=
  forall x,
    occurrences x (cleanup_names c) <= occurrences x (cleanup_names c')
    /\ occurrences x (cleanup_names c')
       <= occurrences x (cleanup_names c) + occurrences x names.

(** An optional temp name of the base name [base_name]. *)
Definition temp_named (base_name : string) (name : option string) : Prop :=
  name = None \/ exists number, name = Some (formatTempName base_name number).

(** The part of [generateFunctionCreationCode] that generates the values
    handed to the constructor, lines 318-338: the defaults and the keyword
    defaults in the order asked for, then the annotations; it returns the
    three temp names. *)
Definition creation_values (r : Creation)
  : Gen (option string * option string * option string) :=
  names <-
    (if creation_defaults_first r then
       defaults_name <- handleDefaults (creation_defaults r) ;;
       kw_defaults_name <- handleKwDefaults (creation_kw_defaults r) ;;
       ret (defaults_name, kw_defaults_name)
     else
       kw_defaults_name <- handleKwDefaults (creation_kw_defaults r) ;;
       defaults_name <- handleDefaults (creation_defaults r) ;;
       ret (defaults_name, kw_defaults_name)) ;;
  let '(defaults_name, kw_defaults_name) := names in
  annotations_name <-
    match creation_annotations r with
    | Some annotations =>
        annotations_name <- call (allocateTempName "annotations") ;;
        generate (generateExpressionCode annotations_name annotations) ;;
        ret (Some annotations_name)
    | None => ret None
    end ;;
  ret (defaults_name, kw_defaults_name, annotations_name).

(** The template and the mapping [getFunctionMakerCode] selects. *)
Definition maker_template (closure_variables : list Var.t)
  (is_generator : bool) : string :=
  if non_empty closure_variables then
    if is_generator then template_make_genfunc_with_context_template
    else template_make_function_with_context_template
  else
    if is_generator then template_make_genfunc_without_context_template
    else template_make_function_without_context_template.

(** The failures other than the keyword-defaults assertion. *)
Definition not_kw_defaults_assertion (failure : Failure) : bool :=
  match failure with
  | AssertKwDefaultsNotEmpty _ => false
  | _ => true
  end.

Definition create (r : Creation) : Gen unit :=
  generateFunctionCreationCode (creation_to_name r)
    (creation_function_body r) (creation_code_object r)
    (creation_defaults r) (creation_kw_defaults r) (creation_annotations r)
    (creation_defaults_first r).

(** A request that passes the assertions of the function. *)
Definition well_formed (r : Creation) : bool :=
  FunctionBody.needsCreation (creation_function_body r)
  && negb (is_empty_dict_constant (creation_kw_defaults r)).

(** The identity of the function a request creates, and whether it is
    [key]. *)
Definition creation_identity (r : Creation) : string :=
  FunctionBody.getCodeName (creation_function_body r).


(** A step that returns, only appends to the emitted lines, and leaves the
    fragments registered under [key] as they are. *)
Definition keeps_fragments (key : string) {A : Type} (m : Gen A) : Prop :=
  forall s,
    exists a s' lines,
      m s = Returned a s'
      /\ emitted s' = (emitted s ++ lines)%list
      /\ registered key (helper_codes (current s'))
         = registered key (helper_codes (current s))
      /\ registered key (declaration_codes (current s'))
         = registered key (declaration_codes (current s)).

(** Every failure of [m] is one of the [allowed] ones. *)
Definition raises_only (allowed : Failure -> bool) {A : Type} (m : Gen A)
  : Prop :=
  forall s failure, m s = Raised failure -> allowed failure = true.

(** ** Properties *)

(** *** The built-ins on examples *)

Example format_fills_keys :
  Py.format "%(to_name)s = MAKE_GENERATOR( %(count)d ); // 100%%"
    [("to_name", Py.Str "tmp_1"); ("count", Py.Int 2)]
  = Some "tmp_1 = MAKE_GENERATOR( 2 ); // 100%".
Proof. reflexivity. Qed.

Example format_missing_key : Py.format "%(to_name)s" [] = None.
Proof. reflexivity. Qed.

Example format_number_of_text :
  Py.format "%(count)d" [("count", Py.Str "two")] = None.
Proof. reflexivity. Qed.

Example format_without_directives : Py.format "return NULL;" [] = Some "return NULL;".
Proof. reflexivity. Qed.

Example remove_takes_the_first :
  Py.remove "tmp_a" ["tmp_b"; "tmp_a"; "tmp_c"; "tmp_a"]
  = ["tmp_b"; "tmp_c"; "tmp_a"].
Proof. reflexivity. Qed.

Example allocate_counts_per_base :
  fst (allocateTempName "defaults"
         (snd (allocateTempName "defaults" Sample.context)))
  = "tmp_defaults_2".
Proof. reflexivity. Qed.

(** *** Loops that append *)

Lemma fold_left_append_map {A B : Type} (f : A -> B) (items : list A)
  (start : list B) :
  fold_left (fun result x => Py.append result (f x)) items start
  = (start ++ map f items)%list.
Proof.
  revert start.
  induction items as [|x items IH]; intros start; simpl.
  - now rewrite app_nil_r.
  - rewrite IH. unfold Py.append. now rewrite <- app_assoc.
Qed.

(** *** Arguments of the constructor declaration *)

(** C2.  Whatever names are present and whatever the closure variables,
    [_getFunctionCreationArgs] lists the defaults pointer, the
    keyword-defaults pointer and the annotations pointer, each only when its
    name is present, then one cell parameter per closure variable in source
    order; the length of the list is the number of present names plus the
    number of closure variables. *)
Theorem creation_args_fixed_order
  (defaults_name kw_defaults_name annotations_name : option string)
  (closure_variables : list Var.t) :
  _getFunctionCreationArgs defaults_name kw_defaults_name annotations_name
    closure_variables
  = ((if is_not_None defaults_name then ["PyObject *defaults"] else [])
     ++ (if is_not_None kw_defaults_name then ["PyObject *kw_defaults"] else [])
     ++ (if is_not_None annotations_name then ["PyObject *annotations"] else [])
     ++ map cell_parameter closure_variables)%list
  /\ List.length
       (_getFunctionCreationArgs defaults_name kw_defaults_name
          annotations_name closure_variables)
     = (if is_not_None defaults_name then 1 else 0)
       + (if is_not_None kw_defaults_name then 1 else 0)
       + (if is_not_None annotations_name then 1 else 0)
       + List.length closure_variables.
Proof.
  assert (E : _getFunctionCreationArgs defaults_name kw_defaults_name
                annotations_name closure_variables
              = ((if is_not_None defaults_name then ["PyObject *defaults"] else [])
                 ++ (if is_not_None kw_defaults_name
                     then ["PyObject *kw_defaults"] else [])
                 ++ (if is_not_None annotations_name
                     then ["PyObject *annotations"] else [])
                 ++ map cell_parameter closure_variables)%list).
  { unfold _getFunctionCreationArgs.
    change (fun result closure_variable =>
              Py.append result
                ("PyCellObject *" ++ getVariableCodeName true closure_variable))
      with (fun result x => Py.append result (cell_parameter x)).
    rewrite fold_left_append_map.
    destruct defaults_name, kw_defaults_name, annotations_name; reflexivity. }
  split; [exact E|].
  rewrite E, !length_app, length_map.
  destruct defaults_name, kw_defaults_name, annotations_name; simpl; lia.
Qed.

(** *** The cleanup ledger *)

Lemma contains_In (x : string) (items : list string) :
  Py.contains x items = true <-> In x items.
Proof.
  unfold Py.contains. rewrite existsb_exists. split.
  - intros [y [Hy E]]. apply String.eqb_eq in E. now subst.
  - intros H. exists x. split; [exact H | apply String.eqb_refl].
Qed.

Lemma contains_occurrences (x : string) (items : list string) :
  Py.contains x items = (0 <? occurrences x items)%nat.
Proof.
  unfold occurrences.
  destruct (Py.contains x items) eqn:E; symmetry.
  - apply Nat.ltb_lt. apply count_occ_In. now apply contains_In.
  - apply Nat.ltb_ge.
    assert (N : ~ In x items).
    { intros H. apply contains_In in H. congruence. }
    apply (count_occ_not_In string_dec) in N. lia.
Qed.

Lemma occurrences_cons (x y : string) (items : list string) :
  occurrences x (y :: items)
  = (if String.eqb y x then 1 else 0) + occurrences x items.
Proof.
  unfold occurrences. simpl.
  destruct (string_dec y x) as [E|N].
  - subst. now rewrite String.eqb_refl.
  - apply String.eqb_neq in N. now rewrite N.
Qed.

Lemma occurrences_app (x : string) (items more : list string) :
  occurrences x (items ++ more)%list
  = occurrences x items + occurrences x more.
Proof. apply count_occ_app. Qed.

Lemma occurrences_append (x y : string) (items : list string) :
  occurrences x (Py.append items y)
  = occurrences x items + (if String.eqb y x then 1 else 0).
Proof.
  unfold Py.append. rewrite occurrences_app, occurrences_cons.
  unfold occurrences at 2. simpl. destruct (String.eqb y x); lia.
Qed.

Lemma occurrences_remove (x y : string) (items : list string) :
  occurrences x (Py.remove y items)
  = if String.eqb y x then pred (occurrences x items)
    else occurrences x items.
Proof.
  induction items as [|z items IH]; cbn [Py.remove].
  - now destruct (String.eqb y x).
  - destruct (String.eqb y z) eqn:Eyz.
    + apply String.eqb_eq in Eyz. subst z.
      rewrite occurrences_cons.
      destruct (String.eqb y x); simpl; reflexivity.
    + rewrite !occurrences_cons, IH.
      destruct (String.eqb y x) eqn:Eyx.
      * apply String.eqb_eq in Eyx. subst x. rewrite String.eqb_sym, Eyz.
        reflexivity.
      * reflexivity.
Qed.

Lemma remove_absent (x : string) (items : list string) :
  Py.contains x items = false -> Py.remove x items = items.
Proof.
  induction items as [|y items IH]; simpl; [reflexivity|].
  intros H. apply orb_false_iff in H. destruct H as [Hxy Hrest].
  rewrite Hxy. now rewrite IH.
Qed.

Lemma removeCleanupTempName_untracked (name : option string) (c : Context) :
  needsCleanup name c = false -> removeCleanupTempName name c = c.
Proof.
  destruct name as [x|]; simpl; [|reflexivity].
  intros H. rewrite (remove_absent _ _ H). now destruct c.
Qed.

(** [if context.needsCleanup(name): context.removeCleanupTempName(name)],
    followed by the rest of the function. *)
Lemma guarded_removal {A : Type} (name : option string) (rest : Gen A)
  (s : GenState) :
  (tracked <- ask (needsCleanup name) ;;
   when tracked (update (removeCleanupTempName name)) ;;
   rest) s
  = rest {| current := removeCleanupTempName name (current s);
            emitted := emitted s |}.
Proof.
  unfold bind, ask, when, update, ret.
  destruct (needsCleanup name (current s)) eqn:E; [reflexivity|].
  rewrite (removeCleanupTempName_untracked _ _ E). now destruct s.
Qed.

(** *** Running the emitting functions *)

Lemma bind_ask {A B : Type} (query : Context -> A) (k : A -> Gen B)
  (s : GenState) :
  (x <- ask query ;; k x) s = k (query (current s)) s.
Proof. reflexivity. Qed.

Lemma bind_emit {B : Type} (line : string) (k : Gen B) (s : GenState) :
  (emit line ;; k) s
  = k {| current := current s; emitted := Py.append (emitted s) line |}.
Proof. reflexivity. Qed.

Lemma bind_update {B : Type} (change : Context -> Context) (k : Gen B)
  (s : GenState) :
  (update change ;; k) s
  = k {| current := change (current s); emitted := emitted s |}.
Proof. reflexivity. Qed.

Lemma bind_bind {A B C : Type} (m : Gen A) (f : A -> Gen B) (g : B -> Gen C)
  (s : GenState) :
  (y <- (x <- m ;; f x) ;; g y) s = (x <- m ;; y <- f x ;; g y) s.
Proof. unfold bind. now destruct (m s). Qed.

Lemma bind_returned {A B : Type} (m : Gen A) (k : A -> Gen B)
  (s s' : GenState) (a : A) :
  m s = Returned a s' -> (x <- m ;; k x) s = k a s'.
Proof. unfold bind. now intros ->. Qed.

Lemma getFunctionCreationCode_run (to_name function_identifier : string)
  (defaults_name kw_defaults_name annotations_name : option string)
  (closure_variables : list Var.t) (s : GenState) :
  exists args,
    getFunctionCreationCode to_name function_identifier defaults_name
      kw_defaults_name annotations_name closure_variables s
    = Returned tt
        {| current :=
             addCleanupTempName to_name
               (removeCleanupTempName kw_defaults_name
                  (removeCleanupTempName defaults_name (current s)));
           emitted :=
             Py.append (emitted s)
               (constructor_call to_name function_identifier args) |}.
Proof.
  unfold getFunctionCreationCode.
  rewrite bind_ask, bind_emit, guarded_removal, guarded_removal.
  eexists. unfold update, constructor_call. cbn [current emitted].
  reflexivity.
Qed.

Lemma getReleaseCode_run (release_name : option string) (s : GenState) :
  getReleaseCode release_name s
  = Returned tt
      {| current := removeCleanupTempName release_name (current s);
         emitted :=
           match release_name with
           | Some name =>
               if Py.contains name (cleanup_names (current s))
               then Py.append (emitted s) (decref_line name)
               else emitted s
           | None => emitted s
           end |}.
Proof.
  unfold getReleaseCode. rewrite bind_ask.
  destruct release_name as [name|]; cbn [needsCleanup].
  - destruct (Py.contains name (cleanup_names (current s))) eqn:E.
    + reflexivity.
    + cbn [when ret]. rewrite removeCleanupTempName_untracked by exact E.
      now destruct s.
  - cbn [when ret removeCleanupTempName]. now destruct s.
Qed.

(** *** Ownership at a function creation *)

Lemma occurrences_removeCleanupTempName (x : string) (name : option string)
  (c : Context) :
  occurrences x (cleanup_names (removeCleanupTempName name c))
  = match name with
    | Some y =>
        if String.eqb y x then pred (occurrences x (cleanup_names c))
        else occurrences x (cleanup_names c)
    | None => occurrences x (cleanup_names c)
    end.
Proof.
  destruct name as [y|]; cbn [removeCleanupTempName]; [|reflexivity].
  cbn [with_cleanup_names cleanup_names]. apply occurrences_remove.
Qed.

Lemma occurrences_addCleanupTempName (x y : string) (c : Context) :
  occurrences x (cleanup_names (addCleanupTempName y c))
  = occurrences x (cleanup_names c) + (if String.eqb y x then 1 else 0).
Proof.
  unfold addCleanupTempName. cbn [with_cleanup_names cleanup_names].
  apply occurrences_append.
Qed.

(** Splits a computed [all_distinct] fact into the inequalities it holds,
    and rewrites the comparisons in the goal with them. *)
Ltac split_distinct :=
  repeat match goal with
    | H : _ && _ = true |- _ => apply andb_true_iff in H; destruct H
    | H : negb _ = true |- _ => apply negb_true_iff in H
    | H : _ || _ = false |- _ => apply orb_false_iff in H; destruct H
    end.

Ltac use_distinct :=
  repeat match goal with
    | H : String.eqb ?a ?b = false |- context [String.eqb ?a ?b] =>
        rewrite H
    | H : String.eqb ?a ?b = false |- context [String.eqb ?b ?a] =>
        rewrite (String.eqb_sym b a), H
    end.

(** *** Ownership at a direct call *)

Lemma append_cancel_l (prefix a b : string) :
  prefix ++ a = prefix ++ b -> a = b.
Proof.
  induction prefix as [|c prefix IH]; simpl; intros H; [exact H|].
  injection H as H. now apply IH.
Qed.

Lemma append_nil_r (a : string) : a ++ "" = a.
Proof. induction a as [|c a IH]; cbn; [reflexivity | now rewrite IH]. Qed.

Lemma length_append (a b : string) :
  String.length (a ++ b) = String.length a + String.length b.
Proof. induction a as [|c a IH]; simpl; [reflexivity | now rewrite IH]. Qed.

Lemma append_cancel_r (a b suffix : string) :
  a ++ suffix = b ++ suffix -> a = b.
Proof.
  revert b. induction a as [|c a IH]; intros [|d b] H.
  - reflexivity.
  - apply (f_equal String.length) in H. simpl in H.
    rewrite length_append in H. lia.
  - apply (f_equal String.length) in H. simpl in H.
    rewrite length_append in H. lia.
  - simpl in H. injection H as Hc H. subst d. f_equal. now apply IH.
Qed.

Lemma incref_line_injective (a b : string) :
  incref_line a = incref_line b -> a = b.
Proof.
  unfold incref_line. intros H.
  apply append_cancel_l in H. now apply append_cancel_r in H.
Qed.

Lemma incref_line_eqb (a b : string) :
  String.eqb (incref_line a) (incref_line b) = String.eqb a b.
Proof.
  destruct (String.eqb a b) eqn:E.
  - apply String.eqb_eq in E. subst. apply String.eqb_refl.
  - apply String.eqb_neq. intros H. apply incref_line_injective in H.
    apply String.eqb_neq in E. contradiction.
Qed.

(** The loop before the call: for each name, the entries taken out of the
    ledger and the increments emitted add up to the number of times the
    name is passed. *)
Lemma hand_over_arguments (arg_names : list string) (s : GenState) :
  exists s_call increfs,
    for_each arg_names hand_over_argument s = Returned tt s_call
    /\ emitted s_call = (emitted s ++ increfs)%list
    /\ Forall (fun line => exists a, In a arg_names /\ line = incref_line a)
         increfs
    /\ (forall a,
          occurrences (incref_line a) increfs
          = occurrences a arg_names
            - Nat.min (occurrences a arg_names)
                (occurrences a (cleanup_names (current s))))
    /\ (forall a,
          occurrences a (cleanup_names (current s_call))
          = occurrences a (cleanup_names (current s))
            - Nat.min (occurrences a arg_names)
                (occurrences a (cleanup_names (current s)))).
Proof.
  revert s. induction arg_names as [|x rest IH]; intros s.
  - exists s, []. cbn [for_each]. unfold ret.
    repeat split; try (rewrite ?app_nil_r; reflexivity); try constructor.
    all: intros a; unfold occurrences; simpl; lia.
  - cbn [for_each]. unfold hand_over_argument at 1.
    rewrite bind_bind, bind_ask. cbn [needsCleanup].
    pose proof (contains_occurrences x (cleanup_names (current s))) as T.
    destruct (Py.contains x (cleanup_names (current s))) eqn:E.
    + rewrite bind_update.
      destruct (IH {| current := removeCleanupTempName (Some x) (current s);
                      emitted := emitted s |})
        as (s_call & increfs & R & Em & All & Inc & Led).
      exists s_call, increfs. cbn [current emitted] in *.
      symmetry in T. apply Nat.ltb_lt in T.
      split; [exact R|]. split; [exact Em|].
      split.
      { eapply Forall_impl; [|exact All]. intros line (a & Ha & ->).
        exists a. split; [now right | reflexivity]. }
      split; intros a; [rewrite Inc | rewrite Led];
        rewrite occurrences_removeCleanupTempName, occurrences_cons;
        destruct (String.eqb x a) eqn:Exa;
        try (apply String.eqb_eq in Exa; subst a); lia.
    + rewrite bind_emit.
      destruct (IH {| current := current s;
                      emitted := Py.append (emitted s)
                                   ("Py_INCREF( " ++ x ++ " );") |})
        as (s_call & increfs & R & Em & All & Inc & Led).
      exists s_call, (incref_line x :: increfs). cbn [current emitted] in *.
      symmetry in T. apply Nat.ltb_ge in T.
      split; [exact R|].
      split.
      { rewrite Em. unfold Py.append, incref_line.
        now rewrite <- app_assoc. }
      split.
      { constructor.
        - exists x. split; [now left | reflexivity].
        - eapply Forall_impl; [|exact All]. intros line (a & Ha & ->).
          exists a. split; [now right | reflexivity]. }
      split; intros a.
      * rewrite occurrences_cons, incref_line_eqb, Inc, occurrences_cons.
        destruct (String.eqb x a) eqn:Exa;
          try (apply String.eqb_eq in Exa; subst a); lia.
      * rewrite Led, occurrences_cons.
        destruct (String.eqb x a) eqn:Exa;
          try (apply String.eqb_eq in Exa; subst a); lia.
Qed.

Lemma disown_arguments {A : Type} (arg_names : list string) (rest : Gen A)
  (s : GenState) :
  exists c,
    (for_each arg_names disown_argument ;; rest) s
    = rest {| current := c; emitted := emitted s |}.
Proof.
  revert s. induction arg_names as [|x others IH]; intros s.
  - exists (current s). cbn [for_each]. unfold bind, ret. now destruct s.
  - cbn [for_each]. unfold disown_argument at 1.
    rewrite bind_bind.
    assert (E : forall s0,
               (x0 <- (tracked <- ask (needsCleanup (Some x)) ;;
                       when tracked (update (removeCleanupTempName (Some x)))) ;;
                y <- (fun _ : unit => for_each others disown_argument) x0 ;;
                (fun _ : unit => rest) y) s0
               = (tracked <- ask (needsCleanup (Some x)) ;;
                  when tracked (update (removeCleanupTempName (Some x))) ;;
                  (for_each others disown_argument ;; rest)) s0).
    { intros s0. now rewrite bind_bind. }
    rewrite E, guarded_removal.
    destruct (IH {| current := removeCleanupTempName (Some x) (current s);
                    emitted := emitted s |}) as [c R].
    exists c. exact R.
Qed.

(** The loop after the call: it takes a further entry out of the ledger
    for every time a name is passed and still tracked, emits nothing, and
    leaves the rest of the context alone. *)
Lemma disown_arguments_ledger (arg_names : list string) (s : GenState) :
  exists c,
    for_each arg_names disown_argument s
    = Returned tt {| current := c; emitted := emitted s |}
    /\ c = with_cleanup_names (cleanup_names c) (current s)
    /\ (forall a,
          occurrences a (cleanup_names c)
          = occurrences a (cleanup_names (current s))
            - Nat.min (occurrences a arg_names)
                (occurrences a (cleanup_names (current s)))).
Proof.
  revert s. induction arg_names as [|x rest IH]; intros s.
  - exists (current s). cbn [for_each]. unfold ret.
    split; [now destruct s|]. split; [now destruct (current s)|].
    intros a. unfold occurrences. simpl. lia.
  - cbn [for_each]. unfold disown_argument at 1.
    rewrite bind_bind, bind_ask. cbn [needsCleanup].
    pose proof (contains_occurrences x (cleanup_names (current s))) as T.
    destruct (Py.contains x (cleanup_names (current s))) eqn:E;
      cbn [when].
    + rewrite bind_update.
      destruct (IH {| current := removeCleanupTempName (Some x) (current s);
                      emitted := emitted s |}) as (c & R & Same & Led).
      exists c. cbn [current emitted] in *.
      symmetry in T. apply Nat.ltb_lt in T.
      split; [exact R|]. split.
      { rewrite Same at 1. now destruct (current s). }
      intros a. rewrite Led, occurrences_removeCleanupTempName,
        occurrences_cons.
      destruct (String.eqb x a) eqn:Exa;
        try (apply String.eqb_eq in Exa; subst a); lia.
    + rewrite (bind_returned (ret tt) _ s s tt eq_refl).
      destruct (IH s) as (c & R & Same & Led).
      exists c. symmetry in T. apply Nat.ltb_ge in T.
      split; [exact R|]. split; [exact Same|].
      intros a. rewrite Led, occurrences_cons.
      destruct (String.eqb x a) eqn:Exa;
        try (apply String.eqb_eq in Exa; subst a); lia.
Qed.

(** C4.  A direct call runs, in this order, the loop over the explicit
    arguments, the call line, a second loop over the arguments, the error
    exit and the registration of the result name, and this is all that
    [getDirectFunctionCallCode] does to the context and to the emitted
    lines.  Before the call line, for every name the first loop takes
    entries out of the cleanup ledger as long as the name is tracked and
    emits one [Py_INCREF] for each further time the name is passed, and
    emits nothing else: the entries handed over and the increments emitted
    add up to the number of times the name is an argument.  For a name
    passed once this reads: a tracked name loses one ledger entry and gets
    no increment, an untracked name gets one increment.  After the call
    line nothing is emitted for the arguments; names that are not arguments
    keep their entries up to the error exit, and an argument keeps none
    unless it was tracked more often than twice the times it is passed. *)
Theorem direct_call_one_reference_per_argument
  (to_name function_identifier : string) (arg_names : list string)
  (closure_variables : list Var.t) (needs_check : bool) (s : GenState) :
  exists s_call increfs c,
    let call_line :=
      direct_call to_name
        (getDirectFunctionEntryPointIdentifier function_identifier)
        (arg_names
         ++ getClosureVariableProvisionCode (current s) closure_variables)%list
    in
    let error_exit := getErrorExitCode to_name needs_check c in
    for_each arg_names hand_over_argument s = Returned tt s_call
    /\ emitted s_call = (emitted s ++ increfs)%list
    /\ Forall (fun line => exists a, In a arg_names /\ line = incref_line a)
         increfs
    /\ for_each arg_names disown_argument
         {| current := current s_call;
            emitted := (emitted s_call ++ [call_line])%list |}
       = Returned tt
           {| current := c;
              emitted := (emitted s_call ++ [call_line])%list |}
    /\ getDirectFunctionCallCode to_name function_identifier arg_names
         closure_variables needs_check s
       = Returned tt
           {| current := addCleanupTempName to_name (snd error_exit);
              emitted :=
                (emitted s ++ increfs ++ [call_line] ++ fst error_exit)%list |}
    /\ c = with_cleanup_names (cleanup_names c) (current s)
    /\ (forall a,
          (occurrences a (cleanup_names (current s))
           - occurrences a (cleanup_names (current s_call)))
          + occurrences (incref_line a) increfs
          = occurrences a arg_names)
    /\ (forall a,
          occurrences a arg_names = 1 ->
          if Py.contains a (cleanup_names (current s))
          then occurrences a (cleanup_names (current s_call))
               = pred (occurrences a (cleanup_names (current s)))
               /\ occurrences (incref_line a) increfs = 0
          else occurrences a (cleanup_names (current s_call))
               = occurrences a (cleanup_names (current s))
               /\ occurrences (incref_line a) increfs = 1)
    /\ (forall a,
          occurrences a (cleanup_names c)
          = occurrences a (cleanup_names (current s))
            - Nat.min (2 * occurrences a arg_names)
                (occurrences a (cleanup_names (current s)))).
Proof.
  destruct (hand_over_arguments arg_names s)
    as (s_call & increfs & R & Em & All & Inc & Led).
  destruct (disown_arguments_ledger arg_names
              {| current := current s_call;
                 emitted :=
                   (emitted s_call
                    ++ [direct_call to_name
                          (getDirectFunctionEntryPointIdentifier
                             function_identifier)
                          (arg_names
                           ++ getClosureVariableProvisionCode (current s)
                                closure_variables)%list])%list |})
    as (c & D & Same & Led2).
  cbn [current emitted] in D, Same, Led2.
  exists s_call, increfs, c. cbv zeta.
  split; [exact R|]. split; [exact Em|]. split; [exact All|].
  split; [exact D|].
  split.
  { unfold getDirectFunctionCallCode.
    rewrite bind_ask, (bind_returned _ _ _ _ _ R), bind_emit.
    unfold direct_call, Py.append, Py.extend in *.
    rewrite (bind_returned _ _ _ _ _ D).
    unfold bind, generate, update. cbn [current emitted].
    destruct (getErrorExitCode to_name needs_check c) as [error_lines c'].
    cbn [fst snd]. unfold Py.extend. rewrite Em, <- !app_assoc. reflexivity. }
  split.
  { rewrite Same at 1. cbn [cleanup_names with_cleanup_names].
    assert (Kept : forall names (s0 s1 : GenState),
               for_each names hand_over_argument s0 = Returned tt s1 ->
               current s1
               = with_cleanup_names (cleanup_names (current s1)) (current s0)).
    { clear. induction names as [|x rest IH]; intros s0 s1 H.
      - cbn [for_each] in H. unfold ret in H. injection H as <-.
        now destruct (current s0).
      - cbn [for_each] in H. unfold hand_over_argument at 1 in H.
        rewrite bind_bind, bind_ask in H.
        destruct (needsCleanup (Some x) (current s0)).
        + rewrite bind_update in H. apply IH in H. rewrite H at 1.
          cbn [current]. now destruct (current s0).
        + rewrite bind_emit in H. apply IH in H. exact H. }
    rewrite (Kept _ _ _ R) at 1. now destruct (current s). }
  split.
  { intros a. rewrite Inc, Led. lia. }
  split.
  { intros a One. rewrite contains_occurrences, Inc, Led, One.
    destruct (0 <? occurrences a (cleanup_names (current s)))%nat eqn:T.
    - apply Nat.ltb_lt in T. lia.
    - apply Nat.ltb_ge in T. lia. }
  intros a. rewrite Led2, Led. lia.
Qed.

(** *** Emitting the constructor once *)


Lemma hasHelperCode_registered (key : string) (c : Context) :
  hasHelperCode key c = non_empty (registered key (helper_codes c)).
Proof.
  unfold hasHelperCode, keys, registered, Py.contains.
  induction (helper_codes c) as [|[k code] entries IH]; simpl; [reflexivity|].
  rewrite (String.eqb_sym key k).
  destruct (String.eqb k key); simpl; [reflexivity | exact IH].
Qed.

Lemma keeps_ret (key : string) {A : Type} (a : A) :
  keeps_fragments key (ret a).
Proof.
  intros s. exists a, s, []. now rewrite app_nil_r.
Qed.

Lemma keeps_bind (key : string) {A B : Type} (m : Gen A) (k : A -> Gen B) :
  keeps_fragments key m ->
  (forall a, keeps_fragments key (k a)) ->
  keeps_fragments key (x <- m ;; k x).
Proof.
  intros Hm Hk s.
  destruct (Hm s) as (a & s1 & lines1 & R1 & E1 & H1 & D1).
  destruct (Hk a s1) as (b & s2 & lines2 & R2 & E2 & H2 & D2).
  exists b, s2, (lines1 ++ lines2)%list.
  rewrite (bind_returned _ _ _ _ _ R1).
  repeat split; [exact R2 | | congruence | congruence].
  now rewrite E2, E1, app_assoc.
Qed.

Lemma keeps_emit (key line : string) : keeps_fragments key (emit line).
Proof. intros s. eexists tt, _, [line]. repeat split. Qed.

Lemma keeps_ask (key : string) {A : Type} (query : Context -> A) :
  keeps_fragments key (ask query).
Proof.
  intros s. exists (query (current s)), s, []. now rewrite app_nil_r.
Qed.

Lemma keeps_update (key : string) (change : Context -> Context) :
  (forall c, helper_codes (change c) = helper_codes c) ->
  (forall c, declaration_codes (change c) = declaration_codes c) ->
  keeps_fragments key (update change).
Proof.
  intros H D s. eexists tt, _, []. unfold update.
  split; [reflexivity|]. cbn [current emitted].
  now rewrite app_nil_r, H, D.
Qed.

Lemma keeps_when (key : string) (condition : bool) (body : Gen unit) :
  keeps_fragments key body -> keeps_fragments key (when condition body).
Proof. destruct condition; [trivial | intros _; apply keeps_ret]. Qed.

Lemma keeps_allocateTempName (key base_name : string) :
  keeps_fragments key (call (allocateTempName base_name)).
Proof.
  intros s. eexists _, _, []. unfold call, allocateTempName.
  split; [reflexivity|]. cbn [current emitted]. now rewrite app_nil_r.
Qed.

Lemma keeps_removal (key : string) (name : option string) :
  keeps_fragments key (update (removeCleanupTempName name)).
Proof. apply keeps_update; intros c; now destruct name. Qed.

Lemma keeps_getFunctionCreationCode (key to_name function_identifier : string)
  (defaults_name kw_defaults_name annotations_name : option string)
  (closure_variables : list Var.t) :
  keeps_fragments key
    (getFunctionCreationCode to_name function_identifier defaults_name
       kw_defaults_name annotations_name closure_variables).
Proof.
  intros s.
  destruct (getFunctionCreationCode_run to_name function_identifier
              defaults_name kw_defaults_name annotations_name
              closure_variables s) as [args R].
  eexists tt, _, _. split; [exact R|]. cbn [current emitted].
  split; [reflexivity|].
  now destruct defaults_name, kw_defaults_name.
Qed.

Lemma keeps_getReleaseCode (key : string) (release_name : option string) :
  keeps_fragments key (getReleaseCode release_name).
Proof.
  unfold getReleaseCode.
  apply keeps_bind; [apply keeps_ask|]. intros tracked.
  apply keeps_when. apply keeps_bind.
  - destruct release_name; [apply keeps_emit | apply keeps_ret].
  - intros _. apply keeps_removal.
Qed.

Section SingleEmission.

(** The identity whose constructor is followed. *)
Variable key : string.

(** The expression and tuple code generators may register fragments of
    other functions (a lambda among the defaults), not of this one. *)
Hypothesis generateExpressionCode_keeps :
  forall to_name expression c,
    registered key (helper_codes (snd (generateExpressionCode to_name expression c)))
    = registered key (helper_codes c)
    /\ registered key
         (declaration_codes (snd (generateExpressionCode to_name expression c)))
       = registered key (declaration_codes c).

Hypothesis generateTupleCreationCode_keeps :
  forall to_name elements c,
    registered key (helper_codes (snd (generateTupleCreationCode to_name elements c)))
    = registered key (helper_codes c)
    /\ registered key
         (declaration_codes (snd (generateTupleCreationCode to_name elements c)))
       = registered key (declaration_codes c).

(** The constructor templates can be filled in from their mappings. *)
Hypothesis maker_code_renders :
  forall function_name function_qualname function_identifier code_identifier
    parameters closure_variables defaults_name kw_defaults_name
    annotations_name function_doc is_generator context,
    getFunctionMakerCode function_name function_qualname function_identifier
      code_identifier parameters closure_variables defaults_name
      kw_defaults_name annotations_name function_doc is_generator context
    <> None.

Hypothesis maker_decl_renders :
  forall function_identifier defaults_name kw_defaults_name annotations_name
    closure_variables,
    getFunctionMakerDecl function_identifier defaults_name kw_defaults_name
      annotations_name closure_variables
    <> None.

Lemma keeps_generate (generator : Context -> list string * Context) :
  (forall c,
     registered key (helper_codes (snd (generator c)))
     = registered key (helper_codes c)
     /\ registered key (declaration_codes (snd (generator c)))
        = registered key (declaration_codes c)) ->
  keeps_fragments key (generate generator).
Proof.
  intros H s. unfold generate.
  destruct (H (current s)) as [Hh Hd].
  destruct (generator (current s)) as [lines c].
  eexists tt, _, lines. split; [reflexivity|]. cbn [current emitted snd] in *.
  now rewrite Hh, Hd.
Qed.

Lemma keeps_handleDefaults (defaults : list Expression) :
  keeps_fragments key (handleDefaults defaults).
Proof.
  unfold handleDefaults. destruct (non_empty defaults); [|apply keeps_ret].
  apply keeps_bind; [apply keeps_allocateTempName|]. intros name.
  apply keeps_bind; [|intros _; apply keeps_ret].
  apply keeps_generate. intros c. apply generateTupleCreationCode_keeps.
Qed.

Lemma keeps_handleKwDefaults (kw_defaults : option Expression) :
  is_empty_dict_constant kw_defaults = false ->
  keeps_fragments key (handleKwDefaults kw_defaults).
Proof.
  unfold handleKwDefaults, is_empty_dict_constant.
  destruct kw_defaults as [e|]; [|intros _; apply keeps_ret].
  intros W.
  apply keeps_bind; [apply keeps_allocateTempName|]. intros name.
  replace (negb (isExpressionConstantRef e)
           || differs_from_empty_dict (getConstant e)) with true
    by (destruct (isExpressionConstantRef e),
          (differs_from_empty_dict (getConstant e)); simpl in *; congruence).
  apply keeps_bind; [apply keeps_ret|]. intros _.
  apply keeps_bind; [|intros _; apply keeps_ret].
  apply keeps_generate. intros c. apply generateExpressionCode_keeps.
Qed.

Lemma keeps_names (defaults : list Expression)
  (kw_defaults : option Expression) (defaults_first : bool) :
  is_empty_dict_constant kw_defaults = false ->
  keeps_fragments key
    (if defaults_first then
       defaults_name <- handleDefaults defaults ;;
       kw_defaults_name <- handleKwDefaults kw_defaults ;;
       ret (defaults_name, kw_defaults_name)
     else
       kw_defaults_name <- handleKwDefaults kw_defaults ;;
       defaults_name <- handleDefaults defaults ;;
       ret (defaults_name, kw_defaults_name)).
Proof.
  intros W. destruct defaults_first.
  - apply keeps_bind; [apply keeps_handleDefaults|]. intros d.
    apply keeps_bind; [now apply keeps_handleKwDefaults|]. intros k.
    apply keeps_ret.
  - apply keeps_bind; [now apply keeps_handleKwDefaults|]. intros k.
    apply keeps_bind; [apply keeps_handleDefaults|]. intros d.
    apply keeps_ret.
Qed.

Lemma keeps_annotations (annotations : option Expression) :
  keeps_fragments key
    match annotations with
    | Some annotations =>
        annotations_name <- call (allocateTempName "annotations") ;;
        generate (generateExpressionCode annotations_name annotations) ;;
        ret (Some annotations_name)
    | None => ret None
    end.
Proof.
  destruct annotations as [e|]; [|apply keeps_ret].
  apply keeps_bind; [apply keeps_allocateTempName|]. intros name.
  apply keeps_bind; [|intros _; apply keeps_ret].
  apply keeps_generate. intros c. apply generateExpressionCode_keeps.
Qed.





End SingleEmission.

(** *** The assertion on keyword defaults *)

Lemma raises_only_bind (allowed : Failure -> bool) {A B : Type}
  (m : Gen A) (k : A -> Gen B) :
  raises_only allowed m ->
  (forall a, raises_only allowed (k a)) ->
  raises_only allowed (x <- m ;; k x).
Proof.
  intros Hm Hk s failure. unfold bind.
  destruct (m s) as [f|a s'] eqn:E.
  - intros H. injection H as <-. exact (Hm s f E).
  - apply Hk.
Qed.

Lemma raises_only_total (allowed : Failure -> bool) {A : Type} (m : Gen A) :
  (forall s, exists a s', m s = Returned a s') -> raises_only allowed m.
Proof.
  intros H s failure E. destruct (H s) as (a & s' & R). congruence.
Qed.

Lemma raises_only_assert (allowed : Failure -> bool) (condition : bool)
  (failure : Failure) :
  (condition = false -> allowed failure = true) ->
  raises_only allowed (assert condition failure).
Proof.
  intros H s f. destruct condition; cbn; [discriminate|].
  intros E. injection E as <-. now apply H.
Qed.

Lemma raises_only_formatted (allowed : Failure -> bool) (text : option string) :
  allowed FormatError = true -> raises_only allowed (formatted text).
Proof.
  intros H s f. destruct text; cbn; [discriminate|].
  intros E. now injection E as <-.
Qed.

Lemma raises_only_when (allowed : Failure -> bool) (condition : bool)
  (body : Gen unit) :
  raises_only allowed body -> raises_only allowed (when condition body).
Proof.
  destruct condition; [trivial|]. intros _ s f. discriminate.
Qed.

Ltac returns :=
  apply raises_only_total; intros ?s;
  unfold ret, ask, update, emit, call, generate;
  repeat match goal with
    | |- context [let (_, _) := ?p in _] => destruct p
    end;
  eexists _, _; reflexivity.

Lemma handleDefaults_returns (defaults : list Expression) (s : GenState) :
  exists name s', handleDefaults defaults s = Returned name s'.
Proof.
  unfold handleDefaults, bind, call, generate, ret.
  destruct (non_empty defaults); [|now eexists _, _].
  destruct (allocateTempName "defaults" (current s)) as [name c].
  cbn [current emitted].
  destruct (generateTupleCreationCode name defaults c) as [lines c'].
  now eexists _, _.
Qed.

Lemma empty_dict_constant (e : Expression) :
  is_empty_dict_constant (Some e) = true ->
  isExpressionConstantRef e = true /\ getConstant e = ConstDict [].
Proof.
  unfold is_empty_dict_constant. intros H.
  apply andb_true_iff in H. destruct H as [Hc He]. split; [exact Hc|].
  apply negb_true_iff in He.
  destruct (getConstant e) as [| | | |items]; try discriminate.
  now destruct items.
Qed.

Lemma handleKwDefaults_asserts (e : Expression) (s : GenState) :
  is_empty_dict_constant (Some e) = true ->
  handleKwDefaults (Some e) s
  = Raised (AssertKwDefaultsNotEmpty (ConstDict [])).
Proof.
  intros H. destruct (empty_dict_constant e H) as [Hc He].
  unfold handleKwDefaults, bind, call.
  destruct (allocateTempName "kw_defaults" (current s)) as [name c].
  now rewrite Hc, He.
Qed.

Lemma handleKwDefaults_passes (kw_defaults : option Expression) :
  is_empty_dict_constant kw_defaults = false ->
  raises_only not_kw_defaults_assertion (handleKwDefaults kw_defaults).
Proof.
  intros H. unfold handleKwDefaults.
  destruct kw_defaults as [e|]; [|returns].
  apply raises_only_bind; [returns|]. intros name.
  apply raises_only_bind.
  - apply raises_only_assert. intros F. cbn in H.
    destruct (isExpressionConstantRef e),
      (differs_from_empty_dict (getConstant e)); discriminate.
  - intros _. apply raises_only_bind; [returns | intros _; returns].
Qed.

(** C9.  When the keyword-defaults expression is a constant equal to the
    empty mapping, creating the function fails with an assertion: the one on
    the keyword defaults, or already the one on [needsCreation()] when the
    function body does not need creation.  When the keyword defaults are
    absent, or not a constant, or a constant other than the empty mapping,
    the assertion on the keyword defaults does not fire. *)
Theorem empty_kw_defaults_constant_asserts (to_name : string)
  (function_body : FunctionBody.t) (code_object : CodeObject.t)
  (defaults : list Expression) (kw_defaults annotations : option Expression)
  (defaults_first : bool) (s : GenState) :
  (is_empty_dict_constant kw_defaults = true ->
   generateFunctionCreationCode to_name function_body code_object defaults
     kw_defaults annotations defaults_first s
   = Raised (if FunctionBody.needsCreation function_body
             then AssertKwDefaultsNotEmpty (ConstDict [])
             else AssertNeedsCreation))
  /\ (is_empty_dict_constant kw_defaults = false ->
      forall constant,
        generateFunctionCreationCode to_name function_body code_object
          defaults kw_defaults annotations defaults_first s
        <> Raised (AssertKwDefaultsNotEmpty constant)).
Proof.
  split.
  - intros H. unfold generateFunctionCreationCode.
    destruct (FunctionBody.needsCreation function_body); [|reflexivity].
    cbn [assert]. rewrite (bind_returned (ret tt) _ s s tt eq_refl).
    destruct kw_defaults as [e|]; [|discriminate H].
    destruct defaults_first.
    + destruct (handleDefaults_returns defaults s) as (name & s1 & R).
      unfold bind at 1. unfold bind at 1. rewrite R.
      unfold bind at 1. now rewrite (handleKwDefaults_asserts e s1 H).
    + unfold bind at 1. unfold bind at 1.
      now rewrite (handleKwDefaults_asserts e s H).
  - intros H constant E.
    assert (R : raises_only not_kw_defaults_assertion
                  (generateFunctionCreationCode to_name function_body
                     code_object defaults kw_defaults annotations
                     defaults_first)).
    { unfold generateFunctionCreationCode.
      apply raises_only_bind; [now apply raises_only_assert|]. intros _.
      apply raises_only_bind.
      { destruct defaults_first.
        - apply raises_only_bind.
          + apply raises_only_total. intros s0.
            apply handleDefaults_returns.
          + intros d. apply raises_only_bind;
              [now apply handleKwDefaults_passes | intros k; returns].
        - apply raises_only_bind; [now apply handleKwDefaults_passes|].
          intros k. apply raises_only_bind; [|intros d; returns].
          apply raises_only_total. intros s0. apply handleDefaults_returns. }
      intros [d k].
      apply raises_only_bind.
      { destruct annotations as [a|]; [|returns].
        apply raises_only_bind; [returns|]. intros name.
        apply raises_only_bind; [returns | intros _; returns]. }
      intros a.
      apply raises_only_bind; [returns|]. intros registered.
      apply raises_only_bind.
      { apply raises_only_when.
        apply raises_only_bind; [returns|]. intros code_identifier.
        apply raises_only_bind; [returns|]. intros context.
        apply raises_only_bind; [now apply raises_only_formatted|].
        intros maker_code.
        apply raises_only_bind; [returns|]. intros _.
        apply raises_only_bind; [now apply raises_only_formatted|].
        intros function_decl. returns. }
      intros _.
      apply raises_only_bind.
      - apply raises_only_total. intros s0.
        destruct (getFunctionCreationCode_run to_name
                    (FunctionBody.getCodeName function_body) d k a
                    (FunctionBody.getClosureVariables function_body) s0)
          as [args R].
        eexists _, _. exact R.
      - intros _. apply raises_only_total. intros s0.
        rewrite getReleaseCode_run. eexists _, _. reflexivity. }
    specialize (R s _ E). discriminate R.
Qed.

(** *** Filling in a template *)

Lemma option_map_append_nil (o : option string) :
  option_map (String.append "") o = o.
Proof. now destruct o. Qed.

(** Formatting is compositional: a template that formats on its own can be
    followed by any other template. *)
Lemma format_from_app (d : Py.dict) (first second out : string) :
  forall st,
    Py.format_from st d first = Some out ->
    Py.format_from st d (first ++ second)
    = option_map (String.append out) (Py.format_from Py.Text d second).
Proof.
  revert out.
  induction first as [|c first IH]; intros out st H.
  - destruct st; try discriminate H. injection H as <-.
    cbn [String.append]. now rewrite option_map_append_nil.
  - cbn [String.append Py.format_from] in *.
    destruct st as [| |depth key|key].
    + destruct (Ascii.eqb c "%"); [now apply IH|].
      destruct (Py.format_from Py.Text d first) as [out'|] eqn:E;
        [|discriminate H].
      injection H as <-. rewrite (IH out' Py.Text E).
      now destruct (Py.format_from Py.Text d second).
    + destruct (Ascii.eqb c "%").
      * destruct (Py.format_from Py.Text d first) as [out'|] eqn:E;
          [|discriminate H].
        injection H as <-. rewrite (IH out' Py.Text E).
        now destruct (Py.format_from Py.Text d second).
      * destruct (Ascii.eqb c "("); [now apply IH | discriminate H].
    + destruct (Ascii.eqb c ")").
      * destruct depth as [|[|depth]]; now apply IH.
      * destruct (Ascii.eqb c "("); now apply IH.
    + destruct (Py.getitem key d) as [v|]; [|discriminate H].
      destruct (Py.convert c v) as [text|]; [|discriminate H].
      destruct (Py.format_from Py.Text d first) as [out'|] eqn:E;
        [|discriminate H].
      injection H as <-. rewrite (IH out' Py.Text E).
      destruct (Py.format_from Py.Text d second); cbn; [|reflexivity].
      f_equal. clear. induction text as [|a text IHt]; cbn; [reflexivity|].
      now rewrite IHt.
Qed.

Lemma format_app (d : Py.dict) (first second out1 out2 : string) :
  Py.format first d = Some out1 ->
  Py.format second d = Some out2 ->
  Py.format (first ++ second) d = Some (out1 ++ out2).
Proof.
  unfold Py.format. intros H1 H2.
  now rewrite (format_from_app d first second out1 Py.Text H1), H2.
Qed.

Lemma format_slot (d : Py.dict) (first second out1 out2 : string)
  (slot value : string) :
  Py.format first d = Some out1 ->
  Py.format second d = Some out2 ->
  Py.format ("%(" ++ slot ++ ")s") d = Some value ->
  Py.format (first ++ "%(" ++ slot ++ ")s" ++ second) d
  = Some (out1 ++ value ++ out2).
Proof.
  intros H1 H2 Hs.
  apply format_app; [exact H1|].
  change ("%(" ++ slot ++ ")s" ++ second)
    with (String "%" (String "(" (slot ++ ")s" ++ second))).
  replace (String "%" (String "(" (slot ++ ")s" ++ second)))
    with (("%(" ++ slot ++ ")s") ++ second).
  - now apply format_app.
  - cbn [String.append]. do 2 f_equal.
    clear. induction slot as [|c slot IH]; cbn; [reflexivity | now rewrite IH].
Qed.

(** *** Absent slots of the constructor *)

(** C10.  [getFunctionMakerCode] fills the selected template from the
    selected mapping, and in the with-context and in the without-context
    mapping alike an absent defaults name and an absent keyword-defaults
    name give the slot the literal [NULL], while an absent annotations name
    gives its slot the code of the empty-dictionary constant.  Wherever the
    selected template has the placeholder of such a slot, that text is what
    the constructor body has in its place. *)
Theorem absent_slots_of_the_constructor
  (function_name function_qualname function_identifier code_identifier : string)
  (parameters : Params.t) (closure_variables : list Var.t)
  (defaults_name kw_defaults_name annotations_name : option string)
  (function_doc : Constant) (is_generator : bool) (context : Context) :
  let with_context :=
    maker_mapping_with_context function_name function_qualname
      function_identifier code_identifier parameters closure_variables
      defaults_name kw_defaults_name annotations_name function_doc context in
  let without_context :=
    maker_mapping_without_context function_name function_qualname
      function_identifier code_identifier parameters closure_variables
      defaults_name kw_defaults_name annotations_name function_doc context in
  let mapping :=
    if non_empty closure_variables then with_context else without_context in
  let maker_code :=
    getFunctionMakerCode function_name function_qualname function_identifier
      code_identifier parameters closure_variables defaults_name
      kw_defaults_name annotations_name function_doc is_generator context in
  maker_code = Py.format (maker_template closure_variables is_generator) mapping
  /\ (forall m,
        m = with_context \/ m = without_context ->
        (defaults_name = None ->
         Py.getitem "defaults" m = Some (Py.Str "NULL"))
        /\ (kw_defaults_name = None ->
            Py.getitem "kw_defaults" m = Some (Py.Str "NULL"))
        /\ (annotations_name = None ->
            Py.getitem "annotations" m
            = Some (Py.Str (context_getConstantCode context (ConstDict [])))))
  /\ (forall slot name first second out1 out2,
        In (slot, name)
          [("defaults", defaults_name); ("kw_defaults", kw_defaults_name);
           ("annotations", annotations_name)] ->
        name = None ->
        maker_template closure_variables is_generator
        = first ++ "%(" ++ slot ++ ")s" ++ second ->
        Py.format first mapping = Some out1 ->
        Py.format second mapping = Some out2 ->
        maker_code
        = Some (out1 ++ absent_slot_argument context slot ++ out2)).
Proof.
  intros with_context without_context mapping maker_code.
  assert (E : maker_code
              = Py.format (maker_template closure_variables is_generator)
                  mapping).
  { subst maker_code mapping with_context without_context.
    unfold getFunctionMakerCode, maker_template.
    now destruct (non_empty closure_variables), is_generator. }
  assert (M : forall m,
             m = with_context \/ m = without_context ->
             (defaults_name = None ->
              Py.getitem "defaults" m = Some (Py.Str "NULL"))
             /\ (kw_defaults_name = None ->
                 Py.getitem "kw_defaults" m = Some (Py.Str "NULL"))
             /\ (annotations_name = None ->
                 Py.getitem "annotations" m
                 = Some (Py.Str (context_getConstantCode context
                                   (ConstDict []))))).
  { intros m [-> | ->]; repeat split; intros ->; reflexivity. }
  split; [exact E|]. split; [exact M|].
  intros slot name first second out1 out2 Hin Hname Ht H1 H2.
  rewrite E, Ht.
  assert (Hm : mapping = with_context \/ mapping = without_context).
  { subst mapping. destruct (non_empty closure_variables); auto. }
  destruct (M mapping Hm) as (Md & Mk & Ma).
  apply format_slot; [exact H1 | exact H2 |].
  cbn [In] in Hin.
  destruct Hin as [Hin | [Hin | [Hin | []]]];
    injection Hin as <- <-; unfold Py.format; cbn;
    first [rewrite (Md Hname) | rewrite (Mk Hname) | rewrite (Ma Hname)];
    now rewrite ?append_nil_r.
Qed.

(** *** The qualified name of the constructed object *)


(** *** The exit of a resumable body *)

Lemma string_append_assoc (a b c : string) : (a ++ b) ++ c = a ++ (b ++ c).
Proof. induction a as [|x a IH]; cbn; [reflexivity | now rewrite IH]. Qed.

Lemma prefix_append (a b : string) : String.prefix a (a ++ b) = true.
Proof.
  induction a as [|x a IH]; cbn; [now destruct b|].
  destruct (ascii_dec x x) as [_|N]; [exact IH | contradiction].
Qed.




(** *** The exit of a plain function *)

(** C7.  With [X] and [T] the texts of the exception-exit and the
    return-exit templates filled in with the function cleanup, the exit
    section of a plain function is the indented must-not-get-here guard and
    a blank line, then [X] if [needs_exception_exit], then the indented [T]
    if the context has the temporary [return_value].  So the section always
    starts with the guard; it is the one with the exception exit after the
    guard exactly when [needs_exception_exit] holds, and the one that ends
    with the return exit exactly when the temporary was allocated (both
    blocks being non-empty texts).  [getFunctionCode] fills the slot
    [function_exit] of the body template it selects with this section. *)
Theorem function_exit_composition (context : Context) (X T : string) :
  Py.format template_function_exception_exit
    [ ("function_cleanup", Py.Str (function_cleanup context)) ]
  = Some X ->
  Py.format template_function_return_exit
    [ ("function_cleanup", Py.Str (indented_text (function_cleanup context))) ]
  = Some T ->
  String.eqb X "" = false ->
  String.eqb (indented_text T) "" = false ->
  let guard :=
    indented
      (getMustNotGetHereCode "Return statement must have exited already."
         context)
    ++ Py.newline ++ Py.newline in
  let return_exit :=
    if hasTempName "return_value" context then indented_text T else "" in
  (forall needs_exception_exit,
     function_exit context needs_exception_exit
     = Some (guard ++ (if needs_exception_exit then X else "") ++ return_exit))
  /\ (forall needs_exception_exit,
        exists rest,
          function_exit context needs_exception_exit = Some (guard ++ rest)
          /\ String.prefix guard (guard ++ rest) = true)
  /\ (forall needs_exception_exit,
        function_exit context needs_exception_exit
        = Some (guard ++ X ++ return_exit)
        <-> needs_exception_exit = true)
  /\ (forall needs_exception_exit,
        function_exit context needs_exception_exit
        = Some (guard ++ (if needs_exception_exit then X else "")
                ++ indented_text T)
        <-> hasTempName "return_value" context = true)
  /\ (forall function_name function_identifier parameters closure_variables
         user_variables temp_variables function_codes function_doc file_scope
         (needs_exception_exit : bool),
        exists template mapping entry_point_code,
          In template [function_direct_body_template; template_function_body]
          /\ Py.getitem "function_exit" mapping
             = Some (Py.Str (guard
                             ++ (if needs_exception_exit then X else "")
                             ++ return_exit))
          /\ getFunctionCode context function_name function_identifier
               parameters closure_variables user_variables temp_variables
               function_codes function_doc file_scope needs_exception_exit
             = (body <-? Py.format template mapping ;;
                Some (body ++ entry_point_code))).
Proof.
  intros HX HT DX DT guard return_exit.
  apply String.eqb_neq in DX, DT.
  assert (G : forall needs_exception_exit,
             function_exit context needs_exception_exit
             = Some (guard ++ (if needs_exception_exit then X else "")
                     ++ return_exit)).
  { intros needs_exception_exit. unfold function_exit.
    subst guard return_exit.
    destruct needs_exception_exit; rewrite ?HX; cbn [and_then];
      destruct (hasTempName "return_value" context); rewrite ?HT;
      cbn [and_then]; rewrite ?string_append_assoc, ?append_nil_r; reflexivity. }
  split; [exact G|].
  split.
  { intros needs_exception_exit. eexists. split; [apply G|].
    apply prefix_append. }
  split; [|split].
  - intros needs_exception_exit; rewrite G; split.
    + destruct needs_exception_exit; [reflexivity|]. intros H.
      injection H as H. apply append_cancel_l in H. cbn in H.
      symmetry in H. apply append_cancel_r with (a := X) (b := "") in H.
      contradiction.
    + now intros ->.
  - intros needs_exception_exit; rewrite G; split.
    + subst return_exit.
      destruct (hasTempName "return_value" context); [reflexivity|].
      intros H. injection H as H. do 2 apply append_cancel_l in H.
      symmetry in H. contradiction.
    + subst return_exit. now intros ->.
  - intros function_name function_identifier parameters closure_variables
      user_variables temp_variables function_codes function_doc file_scope
      needs_exception_exit.
    unfold getFunctionCode.
    destruct (getParameterParsingCode _ _ _ _ _)
      as [[parameter_variables entry_point_code] parameter_objects_decl].
    rewrite G. cbn [and_then].
    destruct (isForDirectCall context).
    + match goal with
      | |- context [Py.format function_direct_body_template ?m] =>
          exists function_direct_body_template, m,
            (if isForCreatedFunction context then entry_point_code else "")
      end.
      split; [now left|]. split; [reflexivity|].
      destruct (Py.format function_direct_body_template _);
        cbn [and_then String.append]; [|reflexivity].
      destruct (isForCreatedFunction context);
        now rewrite ?append_nil_r.
    + match goal with
      | |- context [Py.format template_function_body ?m] =>
          exists template_function_body, m,
            (if isForCreatedFunction context then entry_point_code else "")
      end.
      split; [now right; left|]. split; [reflexivity|].
      destruct (Py.format template_function_body _);
        cbn [and_then String.append]; [|reflexivity].
      destruct (isForCreatedFunction context);
        now rewrite ?append_nil_r.
Qed.

(** *** The parameter array of a generator object *)

Lemma fold_left_enumerate {A : Type}
  (step : list string -> nat * A -> list string) (line : nat -> A -> string) :
  (forall result count item,
     step result (count, item) = Py.append result (line count item)) ->
  forall (items : list A) (first : nat) (start : list string),
    fold_left step (combine (seq first (List.length items)) items) start
    = (start
       ++ map (fun entry => line (fst entry) (snd entry))
            (combine (seq first (List.length items)) items))%list.
Proof.
  intros Hstep items.
  induction items as [|item items IH]; intros first start; cbn.
  - now rewrite app_nil_r.
  - rewrite Hstep, IH. unfold Py.append. now rewrite <- app_assoc.
Qed.

Lemma nth_error_enumerate {A : Type} (items : list A) :
  forall (first i : nat) (item : A),
    nth_error items i = Some item ->
    nth_error (combine (seq first (List.length items)) items) i
    = Some (first + i, item).
Proof.
  induction items as [|x items IH]; intros first [|i] item H;
    try discriminate H; cbn in *.
  - injection H as <-. now rewrite Nat.add_0_r.
  - rewrite (IH (S first) i item H). f_equal. f_equal. lia.
Qed.

Lemma parameter_copy_lines (parameter_variables : list Var.t) :
  parameter_copy parameter_variables
  = map (fun entry => parameter_copy_line (fst entry) (snd entry))
      (Py.enumerate parameter_variables).
Proof.
  unfold parameter_copy, Py.enumerate.
  rewrite (fold_left_enumerate _ parameter_copy_line); [reflexivity|].
  intros result count variable. unfold parameter_copy_line.
  now destruct (Var.isSharedTechnically variable).
Qed.

(** Follows a run of [getGeneratorFunctionCode] that yields code, stated
    in the goal as [getGeneratorFunctionCode ... = Some result -> ...],
    through the steps of the function: the parameter parser, the exit, the
    resumable body, the two array declarations and the construction
    function. *)
Ltac generator_function_steps :=
  unfold getGeneratorFunctionCode, getGeneratorObjectCode;
  destruct (getParameterParsingCode _ _ _ _ _)
    as [[parameter_variables entry_point_code] parameter_objects_decl];
  cbn [fst snd];
  destruct (generator_exit _ _) as [exit_code|];
  cbn [and_then]; [|discriminate];
  destruct (Py.format template_genfunc_yielder_body_template _) as [body|];
  cbn [and_then]; [|discriminate];
  destruct (parameters_decl _) as [parameter_decl|] eqn:Hparameters;
  cbn [and_then]; [|discriminate];
  destruct (closure_decl _ _) as [closure_decl'|] eqn:Hclosure;
  cbn [and_then]; [|discriminate];
  destruct (Py.format template_genfunc_function_impl_template _)
    as [impl|] eqn:Himpl;
  cbn [and_then]; [|discriminate].

(** C6.  [parameter_copy] has one statement per parameter, and the
    statement at index [i] fills slot [i] of the array from the parameter
    at index [i]: through [PyCell_NEW1] when the variable is shared, as a
    plain copy otherwise.  With at least one parameter the declaration is
    the with-parameters template filled with these statements and their
    number; without parameters it is the no-parameters template, filled
    with nothing.  This declaration is what the construction path gets:
    whenever [getGeneratorFunctionCode] yields code, the code is the
    resumable body, then the construction function, then the entry point
    code of a created function, and the construction function is its
    template filled from a mapping whose [parameter_decl] is the
    declaration made for the parameter variables of the parameter parser
    and whose [parameter_count] is their number. *)
Theorem generator_parameters_copied_by_index
  (parameter_variables : list Var.t) :
  List.length (parameter_copy parameter_variables)
  = List.length parameter_variables
  /\ (forall i variable,
        nth_error parameter_variables i = Some variable ->
        nth_error (parameter_copy parameter_variables) i
        = Some (if Var.isSharedTechnically variable then
                  "parameters[" ++ Py.str_of_nat i
                    ++ "] = (PyObject *)PyCell_NEW1( _python_par_"
                    ++ Var.getCodeName variable ++ " );"
                else
                  "parameters[" ++ Py.str_of_nat i ++ "] = _python_par_"
                    ++ Var.getCodeName variable ++ ";"))
  /\ (parameter_variables <> [] ->
      parameters_decl parameter_variables
      = Py.format template_genfunc_generator_with_parameters
          [ ("parameter_copy",
             Py.Str (indented (parameter_copy parameter_variables)));
            ("parameter_count",
             Py.Int (Z.of_nat (List.length parameter_variables))) ])
  /\ parameters_decl []
     = Py.format template_genfunc_generator_no_parameters []
  /\ (forall context function_name function_qualname function_identifier
         code_identifier parameters closure_variables user_variables
         temp_variables function_codes function_doc
         (needs_exception_exit needs_generator_return : bool) result,
        let parsed :=
          getParameterParsingCode function_identifier function_name
            parameters (isForCreatedFunction context) context in
        fst (fst parsed) = parameter_variables ->
        getGeneratorFunctionCode context function_name function_qualname
          function_identifier code_identifier parameters closure_variables
          user_variables temp_variables function_codes function_doc
          needs_exception_exit needs_generator_return
        = Some result ->
        exists body declaration mapping impl,
          getGeneratorObjectCode context function_identifier user_variables
            temp_variables function_codes needs_exception_exit
            needs_generator_return
          = Some body
          /\ parameters_decl parameter_variables = Some declaration
          /\ Py.getitem "parameter_decl" mapping
             = Some (Py.Str declaration)
          /\ Py.getitem "parameter_count" mapping
             = Some (Py.Int (Z.of_nat (List.length parameter_variables)))
          /\ Py.format template_genfunc_function_impl_template mapping
             = Some impl
          /\ result
             = body ++ impl
               ++ (if isForCreatedFunction context
                   then snd (fst parsed) else "")).
Proof.
  split; [|split; [|split; [|split]]].
  - rewrite parameter_copy_lines. unfold Py.enumerate.
    now rewrite length_map, length_combine, length_seq, Nat.min_id.
  - intros i variable H.
    rewrite parameter_copy_lines. unfold Py.enumerate.
    rewrite nth_error_map,
      (nth_error_enumerate parameter_variables 0 i variable H).
    reflexivity.
  - intros N. unfold parameters_decl. rewrite parameter_copy_lines.
    destruct parameter_variables; [contradiction | reflexivity].
  - reflexivity.
  - intros context function_name function_qualname function_identifier
      code_identifier parameters closure_variables user_variables
      temp_variables function_codes function_doc needs_exception_exit
      needs_generator_return result parsed.
    subst parsed. revert parameter_variables.
    generator_function_steps.
    intros parameters_given <- Hresult. injection Hresult as <-.
    match type of Himpl with
    | Py.format _ ?m = _ =>
        exists body, parameter_decl, m, impl
    end.
    split; [reflexivity|]. split; [exact Hparameters|].
    split; [reflexivity|]. split; [reflexivity|].
    split; [exact Himpl|].
    destruct (isForCreatedFunction context);
      now rewrite ?string_append_assoc, ?append_nil_r.
Qed.

(** *** Call sites and declarations of the constructor *)

Lemma getClosureVariableProvisionCode_map (context : Context)
  (closure_variables : list Var.t) :
  getClosureVariableProvisionCode context closure_variables
  = map (getVariableCode context) closure_variables.
Proof.
  unfold getClosureVariableProvisionCode.
  now rewrite fold_left_append_map.
Qed.

Lemma length_getFunctionCreationArgs
  (defaults_name kw_defaults_name annotations_name : option string)
  (closure_variables : list Var.t) :
  List.length
    (_getFunctionCreationArgs defaults_name kw_defaults_name annotations_name
       closure_variables)
  = List.length (present [defaults_name; kw_defaults_name; annotations_name])
    + List.length closure_variables.
Proof.
  unfold _getFunctionCreationArgs.
  rewrite fold_left_append_map, length_app, length_map.
  now destruct defaults_name, kw_defaults_name, annotations_name.
Qed.

(** X1.  The call site that [getFunctionCreationCode] emits passes the
    export of the defaults name, the keyword-defaults name and the
    annotations name, each only when present, and then the provision code
    of every closure variable in order; it passes exactly as many arguments
    as [_getFunctionCreationArgs] declares parameters for the same names and
    closure variables, and the declaration made by [getFunctionMakerDecl]
    and the definition made by [getFunctionMakerCode] are filled with that
    one parameter list. *)
Theorem constructor_call_matches_declaration
  (to_name function_identifier : string)
  (defaults_name kw_defaults_name annotations_name : option string)
  (closure_variables : list Var.t) (s : GenState) :
  let args :=
    (match defaults_name with
     | Some name => [getReferenceExportCode name (current s)]
     | None => []
     end
     ++ present [kw_defaults_name; annotations_name]
     ++ map (getVariableCode (current s)) closure_variables)%list in
  let declared :=
    _getFunctionCreationArgs defaults_name kw_defaults_name annotations_name
      closure_variables in
  (exists s',
     getFunctionCreationCode to_name function_identifier defaults_name
       kw_defaults_name annotations_name closure_variables s
     = Returned tt s'
     /\ emitted s'
        = (emitted s ++ [constructor_call to_name function_identifier args])%list)
  /\ List.length args = List.length declared
  /\ getFunctionMakerDecl function_identifier defaults_name kw_defaults_name
       annotations_name closure_variables
     = Py.format template_function_make_declaration
         [ ("function_identifier", Py.Str function_identifier);
           ("function_creation_arg_spec", Py.Str (Py.join ", " declared)) ]
  /\ (forall function_name function_qualname code_identifier parameters
        function_doc context,
        Py.getitem "function_creation_args"
          (maker_mapping_with_context function_name function_qualname
             function_identifier code_identifier parameters closure_variables
             defaults_name kw_defaults_name annotations_name function_doc
             context)
        = Some (Py.Str (Py.join ", " declared))
        /\ Py.getitem "function_creation_args"
             (maker_mapping_without_context function_name function_qualname
                function_identifier code_identifier parameters
                closure_variables defaults_name kw_defaults_name
                annotations_name function_doc context)
           = Some (Py.Str (Py.join ", " declared))).
Proof.
  intros args declared. subst args declared.
  split; [|split; [|split; [reflexivity | now split]]].
  - unfold getFunctionCreationCode.
    rewrite bind_ask, bind_emit, guarded_removal, guarded_removal.
    eexists. split; [reflexivity|]. cbn [current emitted].
    rewrite getClosureVariableProvisionCode_map.
    unfold constructor_call, Py.append, Py.extend.
    now destruct defaults_name, kw_defaults_name, annotations_name.
  - rewrite length_getFunctionCreationArgs, !length_app, length_map.
    destruct defaults_name, kw_defaults_name, annotations_name; simpl; lia.
Qed.

(** *** Copying closure cells *)

Lemma fold_left_lines {A B : Type} (step : list B -> A -> list B)
  (lines : A -> list B) :
  (forall result item, step result item = (result ++ lines item)%list) ->
  forall (items : list A) (start : list B),
    fold_left step items start = (start ++ flat_map lines items)%list.
Proof.
  intros Hstep items.
  induction items as [|item items IH]; intros start; cbn.
  - now rewrite app_nil_r.
  - now rewrite Hstep, IH, <- app_assoc.
Qed.

Lemma closure_copy_lines (closure_variables : list Var.t) :
  closure_copy closure_variables
  = flat_map
      (fun entry =>
         [closure_assign_line (fst entry) (snd entry);
          closure_incref_line (fst entry)])
      (Py.enumerate closure_variables).
Proof.
  unfold closure_copy.
  rewrite (fold_left_lines _
             (fun entry =>
                [closure_assign_line (fst entry) (snd entry);
                 closure_incref_line (fst entry)])); [reflexivity|].
  intros result [count variable]. unfold Py.append.
  now rewrite <- app_assoc.
Qed.

Lemma nth_error_line_pairs {A B : Type} (first second : A -> B)
  (items : list A) :
  forall (i : nat) (item : A),
    nth_error items i = Some item ->
    nth_error (flat_map (fun x => [first x; second x]) items) (2 * i)
    = Some (first item)
    /\ nth_error (flat_map (fun x => [first x; second x]) items) (2 * i + 1)
       = Some (second item).
Proof.
  induction items as [|x items IH]; intros [|i] item H;
    try discriminate H.
  - cbn in H. injection H as <-. now split.
  - cbn in H. replace (2 * S i) with (S (S (2 * i))) by lia.
    cbn [flat_map app Nat.add nth_error]. now apply IH.
Qed.

Lemma In_enumerate {A : Type} (items : list A) :
  forall (first count : nat) (item : A),
    In (count, item) (combine (seq first (List.length items)) items) ->
    first <= count /\ nth_error items (count - first) = Some item.
Proof.
  induction items as [|x items IH]; intros first count item H;
    cbn in H; [contradiction|].
  destruct H as [H | H].
  - injection H as <- <-. rewrite Nat.sub_diag. now split.
  - apply IH in H. destruct H as [Hle Hnth]. split; [lia|].
    replace (count - first) with (S (count - S first)) by lia.
    exact Hnth.
Qed.

Lemma length_line_pairs {A B : Type} (first second : A -> B)
  (items : list A) :
  List.length (flat_map (fun x => [first x; second x]) items)
  = 2 * List.length items.
Proof.
  induction items as [|x items IH]; cbn [flat_map app List.length];
    [reflexivity | rewrite IH; lia].
Qed.

(** X2.  The statements with which a directly called generator function
    fills its own closure array come in pairs, one pair per closure
    variable: the statements at [2 i] and [2 i + 1] store the variable at
    index [i] into slot [i] and take a reference to that slot.  No slot
    below the number of closure variables is left out, and no statement
    names another slot.  With at least one closure variable, the closure
    declaration of a generator function is the own-closure template filled
    with these statements and their number when the context is for a direct
    call, and the parent-closure template filled with the number alone when
    it is not; and whenever [getGeneratorFunctionCode] yields code, its
    construction function is filled from a mapping whose [closure_decl] is
    this declaration and whose [closure_count] is the number of closure
    variables. *)
Theorem closure_copy_fills_every_slot (closure_variables : list Var.t) :
  List.length (closure_copy closure_variables)
  = 2 * List.length closure_variables
  /\ (forall i variable,
        nth_error closure_variables i = Some variable ->
        nth_error (closure_copy closure_variables) (2 * i)
        = Some ("closure[" ++ Py.str_of_nat i ++ "] = "
                  ++ getVariableCodeName true variable ++ ";")
        /\ nth_error (closure_copy closure_variables) (2 * i + 1)
           = Some ("Py_INCREF( closure[" ++ Py.str_of_nat i ++ "] );"))
  /\ (forall line,
        In line (closure_copy closure_variables) ->
        exists i variable,
          nth_error closure_variables i = Some variable
          /\ (line = closure_assign_line i variable
              \/ line = closure_incref_line i))
  /\ (forall context,
        closure_variables <> [] ->
        closure_decl context closure_variables
        = if isForDirectCall context then
            Py.format template_genfunc_generator_with_own_closure
              [ ("closure_copy",
                 Py.Str (Py.join Py.newline (closure_copy closure_variables)));
                ("closure_count",
                 Py.Int (Z.of_nat (List.length closure_variables))) ]
          else
            Py.format template_genfunc_generator_with_parent_closure
              [ ("closure_count",
                 Py.Int (Z.of_nat (List.length closure_variables))) ])
  /\ (forall context function_name function_qualname function_identifier
         code_identifier parameters user_variables temp_variables
         function_codes function_doc
         (needs_exception_exit needs_generator_return : bool) result,
        getGeneratorFunctionCode context function_name function_qualname
          function_identifier code_identifier parameters closure_variables
          user_variables temp_variables function_codes function_doc
          needs_exception_exit needs_generator_return
        = Some result ->
        exists body declaration mapping impl,
          getGeneratorObjectCode context function_identifier user_variables
            temp_variables function_codes needs_exception_exit
            needs_generator_return
          = Some body
          /\ closure_decl context closure_variables = Some declaration
          /\ Py.getitem "closure_decl" mapping = Some (Py.Str declaration)
          /\ Py.getitem "closure_count" mapping
             = Some (Py.Int (Z.of_nat (List.length closure_variables)))
          /\ Py.format template_genfunc_function_impl_template mapping
             = Some impl
          /\ result
             = body ++ impl
               ++ (if isForCreatedFunction context
                   then snd (fst (getParameterParsingCode function_identifier
                                    function_name parameters
                                    (isForCreatedFunction context) context))
                   else "")).
Proof.
  split; [|split; [|split; [|split]]].
  - rewrite closure_copy_lines. unfold Py.enumerate.
    now rewrite length_line_pairs, length_combine, length_seq, Nat.min_id.
  - intros i variable H.
    rewrite closure_copy_lines. unfold Py.enumerate.
    apply (nth_error_line_pairs
             (fun entry => closure_assign_line (fst entry) (snd entry))
             (fun entry => closure_incref_line (fst entry))
             _ i (0 + i, variable)).
    now apply nth_error_enumerate.
  - rewrite closure_copy_lines. unfold Py.enumerate.
    intros line H. apply in_flat_map in H.
    destruct H as ([count variable] & Hin & Hline).
    apply In_enumerate in Hin. rewrite Nat.sub_0_r in Hin.
    destruct Hin as [_ Hv].
    exists count, variable. split; [exact Hv|].
    cbn [In fst snd] in Hline.
    destruct Hline as [<- | [<- | []]]; [now left | now right].
  - intros context N. unfold closure_decl.
    destruct closure_variables; [contradiction | reflexivity].
  - intros context function_name function_qualname function_identifier
      code_identifier parameters user_variables temp_variables
      function_codes function_doc needs_exception_exit
      needs_generator_return result.
    generator_function_steps.
    intros Hresult. injection Hresult as <-.
    match type of Himpl with
    | Py.format _ ?m = _ =>
        exists body, closure_decl', m, impl
    end.
    split; [reflexivity|]. split; [reflexivity|].
    split; [reflexivity|]. split; [reflexivity|].
    split; [exact Himpl|].
    destruct (isForCreatedFunction context);
      now rewrite ?string_append_assoc, ?append_nil_r.
Qed.

(** X3.  The constructor of a function with closure variables copies the
    cells as a directly called generator function does: it allocates an
    array of as many cells as there are closure variables, and then runs
    the same pairs of statements, so that every allocated slot is filled
    and none beyond. *)
Theorem context_copy_allocates_what_it_fills (closure_variables : list Var.t) :
  context_copy closure_variables
  = closure_allocation_line (List.length closure_variables)
    :: closure_copy closure_variables
  /\ List.length (context_copy closure_variables)
     = 1 + 2 * List.length closure_variables
  /\ (forall function_name function_qualname function_identifier
        code_identifier parameters defaults_name kw_defaults_name
        annotations_name function_doc context,
        let mapping :=
          maker_mapping_with_context function_name function_qualname
            function_identifier code_identifier parameters closure_variables
            defaults_name kw_defaults_name annotations_name function_doc
            context in
        Py.getitem "context_copy" mapping
        = Some (Py.Str
                  (indented
                     (closure_allocation_line (List.length closure_variables)
                      :: closure_copy closure_variables)))
        /\ Py.getitem "closure_count" mapping
           = Some (Py.Int (Z.of_nat (List.length closure_variables)))).
Proof.
  assert (E : context_copy closure_variables
              = closure_allocation_line (List.length closure_variables)
                :: closure_copy closure_variables).
  { rewrite closure_copy_lines. unfold context_copy.
    rewrite (fold_left_lines _
               (fun entry =>
                  [closure_assign_line (fst entry) (snd entry);
                   closure_incref_line (fst entry)])); [reflexivity|].
    intros result [count variable]. unfold Py.append.
    now rewrite <- app_assoc. }
  split; [exact E|]. split.
  - rewrite E. cbn [List.length]. rewrite closure_copy_lines.
    unfold Py.enumerate.
    now rewrite length_line_pairs, length_combine, length_seq, Nat.min_id.
  - intros. subst mapping. cbn. rewrite E. now split.
Qed.

(** *** Declaring and defining a directly called function *)

Lemma getFunctionDirectClosureArgs_map (closure_variables : list Var.t) :
  getFunctionDirectClosureArgs closure_variables
  = map direct_closure_parameter closure_variables.
Proof.
  unfold getFunctionDirectClosureArgs.
  rewrite (fold_left_lines _ (fun variable => [direct_closure_parameter variable])).
  - cbn [app]. induction closure_variables as [|v rest IH]; cbn;
      [reflexivity | now rewrite IH].
  - intros result variable. unfold direct_closure_parameter, Py.append.
    now destruct (Var.isSharedTechnically variable).
Qed.

(** X4.  A directly called function declares one parameter per closure
    variable, in order: a cell pointer for a variable that is shared, a
    reference to an object pointer for one that is not.  The list is the
    list of cell parameters that the constructor and a directly called
    generator function declare for the same variables exactly when every
    closure variable is shared. *)
Theorem direct_closure_args_by_sharing (closure_variables : list Var.t) :
  List.length (getFunctionDirectClosureArgs closure_variables)
  = List.length closure_variables
  /\ (forall i variable,
        nth_error closure_variables i = Some variable ->
        nth_error (getFunctionDirectClosureArgs closure_variables) i
        = Some (if Var.isSharedTechnically variable
                then "PyCellObject *" ++ getVariableCodeName true variable
                else "PyObject *&" ++ getVariableCodeName true variable))
  /\ (getFunctionDirectClosureArgs closure_variables
      = map cell_parameter closure_variables
      <-> forallb Var.isSharedTechnically closure_variables = true).
Proof.
  rewrite getFunctionDirectClosureArgs_map.
  split; [apply length_map|]. split.
  - intros i variable H. rewrite nth_error_map, H. reflexivity.
  - induction closure_variables as [|v rest IH]; cbn [map forallb].
    + now split.
    + rewrite andb_true_iff, <- IH. unfold direct_closure_parameter at 1.
      unfold cell_parameter at 1.
      destruct (Var.isSharedTechnically v); split.
      * intros H. injection H as H. now split.
      * intros [_ H]. now rewrite H.
      * intros H. injection H as H _. cbn in H. discriminate H.
      * intros [H _]. discriminate H.
Qed.

(** X5.  For a function that is called directly, the declaration that
    [generateFunctionDeclCode] makes and the definition that
    [getFunctionCode] makes are filled with the same scope, the same
    identifier and the same parameter list (one object pointer per
    parameter variable, then the closure parameters), provided the
    parameter parser declares these object pointers for the parameter
    variables of the function. *)
Theorem direct_declaration_matches_definition (context : Context)
  (function_body : FunctionBody.t) (function_name : string)
  (user_variables temp_variables : list Var.t) (function_codes : list string)
  (function_doc : Constant) (needs_exception_exit : bool)
  (exit_code : string) :
  let function_identifier := FunctionBody.getCodeName function_body in
  let parameters := FunctionBody.getParameters function_body in
  let closure_variables := FunctionBody.getClosureVariables function_body in
  let file_scope :=
    getExportScopeCode (FunctionBody.isCrossModuleUsed function_body) in
  let arg_spec :=
    Py.join ", "
      (map direct_parameter (Params.getAllVariables parameters)
       ++ map direct_closure_parameter closure_variables)%list in
  FunctionBody.isExpressionGeneratorObjectBody function_body = false ->
  FunctionBody.needsDirectCall function_body = true ->
  isForDirectCall context = true ->
  snd (getParameterParsingCode function_identifier function_name parameters
         (isForCreatedFunction context) context)
  = map direct_parameter (Params.getAllVariables parameters) ->
  function_exit context needs_exception_exit = Some exit_code ->
  generateFunctionDeclCode function_body
  = (decl <-?
       Py.format template_function_direct_declaration
         [ ("file_scope", Py.Str file_scope);
           ("function_identifier", Py.Str function_identifier);
           ("direct_call_arg_spec", Py.Str arg_spec) ] ;;
     Some (Some decl))
  /\ exists mapping entry_point_code,
       getFunctionCode context function_name function_identifier parameters
         closure_variables user_variables temp_variables function_codes
         function_doc file_scope needs_exception_exit
       = (body <-? Py.format function_direct_body_template mapping ;;
          Some (body ++ entry_point_code))
       /\ Py.getitem "file_scope" mapping = Some (Py.Str file_scope)
       /\ Py.getitem "function_identifier" mapping
          = Some (Py.Str function_identifier)
       /\ Py.getitem "direct_call_arg_spec" mapping = Some (Py.Str arg_spec).
Proof.
  intros function_identifier parameters closure_variables file_scope arg_spec
    Hobject Hdirect Hcontext Hparser Hexit.
  subst arg_spec. split.
  - unfold generateFunctionDeclCode, getFunctionDirectDecl.
    rewrite Hobject, Hdirect, getFunctionDirectClosureArgs_map.
    reflexivity.
  - unfold getFunctionCode.
    destruct (getParameterParsingCode function_identifier function_name
                parameters (isForCreatedFunction context) context)
      as [[parameter_variables entry_point_code] parameter_objects_decl].
    cbn [snd] in Hparser. rewrite Hexit, Hcontext, Hparser.
    rewrite getFunctionDirectClosureArgs_map. cbn [and_then].
    match goal with
    | |- context [Py.format function_direct_body_template ?m] =>
        exists m,
          (if isForCreatedFunction context then entry_point_code else "")
    end.
    split; [|repeat split].
    destruct (Py.format function_direct_body_template _);
      cbn [and_then String.append]; [|reflexivity].
    destruct (isForCreatedFunction context); now rewrite ?append_nil_r.
Qed.

(** X16.  A direct call passes the explicit arguments and then the
    provision code of every closure variable, and the declaration of the
    called function lists one object pointer per parameter variable and
    then one parameter per closure variable.  Closure variable [i] is
    therefore passed at position [number of arguments + i] and declared at
    position [number of parameters + i]: call and declaration agree in the
    number of arguments, and line up, exactly when the call passes one
    argument per parameter variable. *)
Theorem direct_call_lines_up_with_declaration
  (to_name function_identifier : string) (arg_names : list string)
  (closure_variables parameter_variables : list Var.t)
  (needs_check : bool) (file_scope : string) (s : GenState) :
  exists args declared s',
    getDirectFunctionCallCode to_name function_identifier arg_names
      closure_variables needs_check s
    = Returned tt s'
    /\ In (direct_call to_name
             (getDirectFunctionEntryPointIdentifier function_identifier) args)
         (emitted s')
    /\ getFunctionDirectDecl function_identifier closure_variables
         parameter_variables file_scope
       = Py.format template_function_direct_declaration
           [ ("file_scope", Py.Str file_scope);
             ("function_identifier", Py.Str function_identifier);
             ("direct_call_arg_spec", Py.Str (Py.join ", " declared)) ]
    /\ List.length args
       = List.length arg_names + List.length closure_variables
    /\ List.length declared
       = List.length parameter_variables + List.length closure_variables
    /\ (forall i name,
          nth_error arg_names i = Some name -> nth_error args i = Some name)
    /\ (forall i variable,
          nth_error parameter_variables i = Some variable ->
          nth_error declared i
          = Some ("PyObject *_python_par_" ++ Var.getCodeName variable))
    /\ (forall i variable,
          nth_error closure_variables i = Some variable ->
          nth_error args (List.length arg_names + i)
          = Some (getVariableCode (current s) variable)
          /\ nth_error declared (List.length parameter_variables + i)
             = Some (direct_closure_parameter variable))
    /\ (List.length args = List.length declared
        <-> List.length arg_names = List.length parameter_variables).
Proof.
  destruct (hand_over_arguments arg_names s)
    as (s_call & increfs & R & Em & _).
  exists (arg_names ++ map (getVariableCode (current s)) closure_variables)%list,
    (map direct_parameter parameter_variables
     ++ map direct_closure_parameter closure_variables)%list.
  unfold getDirectFunctionCallCode.
  rewrite bind_ask, (bind_returned _ _ _ _ _ R), bind_emit.
  rewrite getClosureVariableProvisionCode_map.
  match goal with
  | |- context [bind (for_each arg_names disown_argument) ?k ?s0] =>
      destruct (disown_arguments arg_names (k tt) s0) as [c D]
  end.
  destruct (getErrorExitCode to_name needs_check c) as [error_lines c'] eqn:G.
  eexists.
  split.
  { rewrite D. unfold bind, generate, update. cbn [current emitted].
    rewrite G. reflexivity. }
  cbn [current emitted]. unfold Py.append, Py.extend.
  split.
  { apply in_or_app; left. apply in_or_app; right. now left. }
  split.
  { unfold getFunctionDirectDecl.
    now rewrite getFunctionDirectClosureArgs_map. }
  rewrite !length_app, !length_map.
  split; [reflexivity|]. split; [reflexivity|].
  split.
  { intros i name H. rewrite nth_error_app1; [exact H|].
    apply nth_error_Some. congruence. }
  split.
  { intros i variable H. rewrite nth_error_app1.
    - rewrite nth_error_map, H. reflexivity.
    - rewrite length_map. apply nth_error_Some. congruence. }
  split.
  { intros i variable H. split.
    - rewrite nth_error_app2 by lia.
      replace (List.length arg_names + i - List.length arg_names) with i
        by lia.
      now rewrite nth_error_map, H.
    - rewrite nth_error_app2 by (rewrite length_map; lia).
      rewrite length_map.
      replace (List.length parameter_variables + i
               - List.length parameter_variables) with i by lia.
      now rewrite nth_error_map, H. }
  lia.
Qed.

(** *** The ledger across a direct call *)

Lemma all_distinct_occurrences (names : list string) :
  all_distinct names = true -> forall x, occurrences x names <= 1.
Proof.
  induction names as [|y rest IH]; intros D x.
  - unfold occurrences. simpl. lia.
  - cbn [all_distinct] in D. apply andb_true_iff in D.
    destruct D as [Hy Hrest]. apply negb_true_iff in Hy.
    rewrite occurrences_cons. specialize (IH Hrest x).
    destruct (String.eqb y x) eqn:E; [|lia].
    apply String.eqb_eq in E. subst y.
    rewrite contains_occurrences in Hy. apply Nat.ltb_ge in Hy. lia.
Qed.

Lemma disown_untracked (arg_names : list string) (s : GenState) :
  (forall a, In a arg_names -> needsCleanup (Some a) (current s) = false) ->
  for_each arg_names disown_argument s = Returned tt s.
Proof.
  induction arg_names as [|x rest IH]; intros H; cbn [for_each];
    [reflexivity|].
  unfold disown_argument at 1. unfold bind at 1 2. unfold ask.
  rewrite (H x (or_introl eq_refl)). cbn [when ret].
  apply IH. intros a Ha. apply H. now right.
Qed.

(** X6.  A direct call on a ledger that tracks every name at most once.
    After the loop before the call none of the argument names needs
    cleanup any more, so the loop after the call takes nothing out of the
    ledger; the error exit is generated on the context as the first loop
    left it, in which the result name is not tracked unless it was before;
    and the result name becomes a cleanup obligation only after that, as
    the last step. *)
Theorem direct_call_tracks_result_after_error_exit
  (to_name function_identifier : string) (arg_names : list string)
  (closure_variables : list Var.t) (needs_check : bool) (s : GenState) :
  all_distinct (cleanup_names (current s)) = true ->
  exists s_call,
    let call_line :=
      direct_call to_name
        (getDirectFunctionEntryPointIdentifier function_identifier)
        (arg_names
         ++ map (getVariableCode (current s)) closure_variables)%list in
    let called :=
      {| current := current s_call;
         emitted := (emitted s_call ++ [call_line])%list |} in
    let error_exit := getErrorExitCode to_name needs_check (current s_call) in
    for_each arg_names hand_over_argument s = Returned tt s_call
    /\ (forall a,
          In a arg_names -> needsCleanup (Some a) (current s_call) = false)
    /\ (forall a,
          ~ In a arg_names ->
          occurrences a (cleanup_names (current s_call))
          = occurrences a (cleanup_names (current s)))
    /\ for_each arg_names disown_argument called = Returned tt called
    /\ (needsCleanup (Some to_name) (current s) = false ->
        needsCleanup (Some to_name) (current s_call) = false)
    /\ getDirectFunctionCallCode to_name function_identifier arg_names
         closure_variables needs_check s
       = Returned tt
           {| current := addCleanupTempName to_name (snd error_exit);
              emitted := (emitted called ++ fst error_exit)%list |}.
Proof.
  intros D.
  destruct (hand_over_arguments arg_names s)
    as (s_call & increfs & R & Em & All & Inc & Led).
  exists s_call. cbv zeta.
  assert (U : forall a,
             In a arg_names -> needsCleanup (Some a) (current s_call) = false).
  { intros a Ha. cbn [needsCleanup]. rewrite contains_occurrences, Led.
    apply Nat.ltb_ge.
    pose proof (all_distinct_occurrences _ D a) as One.
    assert (Arg : 0 < occurrences a arg_names)
      by (apply count_occ_In; exact Ha).
    lia. }
  split; [exact R|]. split; [exact U|].
  split.
  { intros a Ha. rewrite Led.
    apply (count_occ_not_In string_dec) in Ha. unfold occurrences at 2.
    rewrite Ha. cbn [Nat.min]. lia. }
  split; [now apply disown_untracked|].
  split.
  { cbn [needsCleanup]. rewrite !contains_occurrences, Led.
    intros H. apply Nat.ltb_ge in H. apply Nat.ltb_ge. lia. }
  unfold getDirectFunctionCallCode.
  rewrite bind_ask, (bind_returned _ _ _ _ _ R), bind_emit.
  rewrite getClosureVariableProvisionCode_map.
  match goal with
  | |- context [bind (for_each arg_names disown_argument) _ ?s0] =>
      rewrite (bind_returned _ _ _ _ tt (disown_untracked arg_names s0 U))
  end.
  unfold bind, generate, update, direct_call, Py.append, Py.extend.
  cbn [current emitted].
  destruct (getErrorExitCode to_name needs_check (current s_call))
    as [error_lines c']. reflexivity.
Qed.

(** *** The code of a generator function *)

Lemma getGeneratorFunctionCode_parts (context : Context)
  (function_name function_qualname function_identifier code_identifier : string)
  (parameters : Params.t)
  (closure_variables user_variables temp_variables : list Var.t)
  (function_codes : list string) (function_doc : Constant)
  (needs_exception_exit needs_generator_return : bool) (result : string) :
  let parsed :=
    getParameterParsingCode function_identifier function_name parameters
      (isForCreatedFunction context) context in
  getGeneratorFunctionCode context function_name function_qualname
    function_identifier code_identifier parameters closure_variables
    user_variables temp_variables function_codes function_doc
    needs_exception_exit needs_generator_return
  = Some result ->
  exists body parameter_decl closure_decl' impl,
    getGeneratorObjectCode context function_identifier user_variables
      temp_variables function_codes needs_exception_exit
      needs_generator_return
    = Some body
    /\ parameters_decl (fst (fst parsed)) = Some parameter_decl
    /\ closure_decl context closure_variables = Some closure_decl'
    /\ Py.format template_genfunc_function_impl_template
         (construction_mapping context function_name function_qualname
            function_identifier code_identifier (fst (fst parsed))
            closure_variables (snd parsed) parameter_decl closure_decl')
       = Some impl
    /\ result
       = body ++ impl
         ++ (if isForCreatedFunction context then snd (fst parsed) else "").
Proof.
  intros parsed. subst parsed.
  unfold getGeneratorFunctionCode, getGeneratorObjectCode, construction_mapping.
  destruct (getParameterParsingCode function_identifier function_name
              parameters (isForCreatedFunction context) context)
    as [[parameter_variables entry_point_code] parameter_objects_decl].
  cbn [fst snd].
  destruct (generator_exit needs_exception_exit needs_generator_return)
    as [exit_code|]; cbn [and_then]; [|discriminate].
  destruct (Py.format template_genfunc_yielder_body_template _) as [body|];
    cbn [and_then]; [|discriminate].
  destruct (parameters_decl parameter_variables) as [parameter_decl|];
    cbn [and_then]; [|discriminate].
  destruct (closure_decl context closure_variables) as [closure_decl'|];
    cbn [and_then]; [|discriminate].
  replace (fold_left
             (fun parameter_objects_decl0 '(_, variable) =>
                Py.append parameter_objects_decl0
                  ("PyCellObject *" ++ getVariableCodeName true variable))
             (Py.enumerate closure_variables) parameter_objects_decl)
    with (Py.extend parameter_objects_decl
            (map cell_parameter closure_variables)).
  - destruct (Py.format template_genfunc_function_impl_template _)
      as [impl|] eqn:Himpl; cbn [and_then]; [|discriminate].
    intros H. injection H as <-.
    exists body, parameter_decl, closure_decl', impl.
    split; [reflexivity|]. split; [reflexivity|]. split; [reflexivity|].
    split; [exact Himpl|].
    destruct (isForCreatedFunction context);
      now rewrite ?string_append_assoc, ?append_nil_r.
  - unfold Py.enumerate.
    rewrite (fold_left_enumerate _ (fun _ variable => cell_parameter variable)).
    + unfold Py.extend. f_equal.
      generalize 0.
      induction closure_variables as [|v rest IH]; intros first; cbn;
        [reflexivity | now rewrite <- IH].
    + now intros lines count variable.
Qed.

(** X7.  Whenever [getGeneratorFunctionCode] yields code, the code starts
    with exactly what [getGeneratorObjectCode] yields for the same resumable
    body, goes on with the construction function, and ends with the entry
    point code of the parameter parser if and only if the context is for a
    created function.  The construction function gets the declaration of the
    parameter array together with the number of parameter variables, and
    the declaration of the closure array together with the number of
    closure variables; for a direct call its parameter list is the one of
    the parameter parser followed by one cell parameter per closure
    variable. *)
Theorem generator_function_code_composition (context : Context)
  (function_name function_qualname function_identifier code_identifier : string)
  (parameters : Params.t)
  (closure_variables user_variables temp_variables : list Var.t)
  (function_codes : list string) (function_doc : Constant)
  (needs_exception_exit needs_generator_return : bool) (result : string) :
  let parsed :=
    getParameterParsingCode function_identifier function_name parameters
      (isForCreatedFunction context) context in
  let parameter_variables := fst (fst parsed) in
  let entry_point_code := snd (fst parsed) in
  getGeneratorFunctionCode context function_name function_qualname
    function_identifier code_identifier parameters closure_variables
    user_variables temp_variables function_codes function_doc
    needs_exception_exit needs_generator_return
  = Some result ->
  exists body mapping impl,
    getGeneratorObjectCode context function_identifier user_variables
      temp_variables function_codes needs_exception_exit
      needs_generator_return
    = Some body
    /\ Py.format template_genfunc_function_impl_template mapping = Some impl
    /\ result
       = body ++ impl
         ++ (if isForCreatedFunction context then entry_point_code else "")
    /\ String.prefix body result = true
    /\ option_map Py.Str (parameters_decl parameter_variables)
       = Py.getitem "parameter_decl" mapping
    /\ Py.getitem "parameter_count" mapping
       = Some (Py.Int (Z.of_nat (List.length parameter_variables)))
    /\ option_map Py.Str (closure_decl context closure_variables)
       = Py.getitem "closure_decl" mapping
    /\ Py.getitem "closure_count" mapping
       = Some (Py.Int (Z.of_nat (List.length closure_variables)))
    /\ Py.getitem "parameter_objects_decl" mapping
       = Some (Py.Str
                 (Py.join ", "
                    (snd parsed
                     ++ (if isForDirectCall context
                         then map cell_parameter closure_variables
                         else []))%list)).
Proof.
  intros parsed parameter_variables entry_point_code H.
  apply getGeneratorFunctionCode_parts in H.
  destruct H as (body & parameter_decl & closure_decl' & impl
                 & Hbody & Hp & Hc & Himpl & ->).
  exists body,
    (construction_mapping context function_name function_qualname
       function_identifier code_identifier parameter_variables
       closure_variables (snd parsed) parameter_decl closure_decl'),
    impl.
  split; [exact Hbody|]. split; [exact Himpl|]. split; [reflexivity|].
  split; [apply prefix_append|].
  subst parameter_variables. fold parsed in Hp. rewrite Hp, Hc.
  repeat split. cbn.
  destruct (isForDirectCall context); [reflexivity|].
  now rewrite app_nil_r.
Qed.

(** X8.  In the construction function of a generator function the name
    and the qualified name of the generator object depend on the version
    number and on whether the function is called directly.  Whenever
    [getGeneratorFunctionCode] yields code, the code is the resumable body,
    then the template of the construction function filled from a mapping,
    then the entry point code of a created function; and in that mapping,
    below version 350 the name is the code of the name constant and the
    qualified name is [NULL], whether or not the two names differ; from 350
    on a directly called function passes the codes of both constants, and
    any other function takes both from the function object, [self]. *)
Theorem generator_function_names_by_version (context : Context)
  (function_name function_qualname function_identifier code_identifier : string)
  (parameters : Params.t)
  (closure_variables user_variables temp_variables : list Var.t)
  (function_codes : list string) (function_doc : Constant)
  (needs_exception_exit needs_generator_return : bool) (result : string) :
  getGeneratorFunctionCode context function_name function_qualname
    function_identifier code_identifier parameters closure_variables
    user_variables temp_variables function_codes function_doc
    needs_exception_exit needs_generator_return
  = Some result ->
  exists body mapping impl name_obj qualname_obj,
    getGeneratorObjectCode context function_identifier user_variables
      temp_variables function_codes needs_exception_exit
      needs_generator_return
    = Some body
    /\ Py.format template_genfunc_function_impl_template mapping = Some impl
    /\ result
       = body ++ impl
         ++ (if isForCreatedFunction context
             then snd (fst (getParameterParsingCode function_identifier
                              function_name parameters
                              (isForCreatedFunction context) context))
             else "")
    /\ Py.getitem "function_name_obj" mapping = Some (Py.Str name_obj)
    /\ Py.getitem "function_qualname_obj" mapping = Some (Py.Str qualname_obj)
    /\ ((python_version < 350)%Z ->
        name_obj = getConstantCode context (ConstStr function_name)
        /\ qualname_obj = "NULL")
    /\ ((350 <= python_version)%Z ->
        if isForDirectCall context
        then name_obj = getConstantCode context (ConstStr function_name)
             /\ qualname_obj
                = getConstantCode context (ConstStr function_qualname)
        else name_obj = "self->m_name" /\ qualname_obj = "self->m_qualname").
Proof.
  generator_function_steps.
  intros Hresult. injection Hresult as <-.
  match type of Himpl with
  | Py.format _ ?m = _ => eexists body, m, impl, _, _
  end.
  split; [reflexivity|]. split; [exact Himpl|].
  split.
  { destruct (isForCreatedFunction context);
      now rewrite ?string_append_assoc, ?append_nil_r. }
  split; [reflexivity|]. split; [reflexivity|].
  split.
  - intros V. apply Z.ltb_lt in V. rewrite V. now split.
  - intros V. apply Z.ltb_ge in V. rewrite V. cbn [orb].
    destruct (isForDirectCall context); now split.
Qed.

(** *** Making generator and coroutine objects *)

(** X9.  Making a generator object either fails in filling a template, or
    emits exactly one line and enters the result name into the cleanup
    ledger; nothing else of the context changes, so unlike the creation of
    a function it registers no constructor and no declaration.  Without
    closure variables the outcome depends on the without-context template
    alone. *)
Theorem generator_object_creation_outcome (to_name : string)
  (generator_object_body : FunctionBody.t) (code_object : CodeObject.t)
  (s : GenState) :
  let run :=
    generateMakeGeneratorObjectCode to_name generator_object_body code_object
      s in
  let made (line : string) :=
    Returned tt
      {| current := addCleanupTempName to_name (current s);
         emitted := (emitted s ++ [line])%list |} in
  ((exists line, run = made line) \/ run = Raised FormatError)
  /\ (FunctionBody.getClosureVariables generator_object_body = [] ->
      exists mapping,
        Py.getitem "to_name" mapping = Some (Py.Str to_name)
        /\ Py.getitem "generator_identifier" mapping
           = Some (Py.Str (FunctionBody.getCodeName generator_object_body))
        /\ Py.getitem "closure_count" mapping = None
        /\ run
           = match Py.format template_generator_making_without_context
                     mapping with
             | Some line => made line
             | None => Raised FormatError
             end).
Proof.
  intros run made. subst run made. split.
  - unfold generateMakeGeneratorObjectCode, bind, ask, formatted, ret,
      raise, emit, update.
    destruct (non_empty (FunctionBody.getClosureVariables
                           generator_object_body));
      repeat (match goal with
              | |- context [Py.format ?t ?m] => destruct (Py.format t m)
              end; cbv beta iota);
      first [now right | left; eexists; reflexivity].
  - intros E.
    unfold generateMakeGeneratorObjectCode, bind, ask, formatted, ret,
      raise, emit, update.
    rewrite E. cbn [non_empty].
    match goal with
    | |- context [Py.format template_generator_making_without_context ?m] =>
        exists m
    end.
    split; [reflexivity|]. split; [reflexivity|]. split; [reflexivity|].
    now destruct (Py.format template_generator_making_without_context _).
Qed.

(** X10.  Creating a coroutine object generates the code of the body into
    a collector of its own and emits none of it: on the caller's side
    there is exactly one new line, the template selected by the presence of
    closure variables and filled with the result name and the code
    identifier.  The context is left as the statement generator left it;
    in particular the result name is not entered into the cleanup ledger
    here, as it is for a generator object. *)
Theorem coroutine_creation_outcome (to_name : string)
  (coroutine_body : CoroutineBody.t) (s : GenState) :
  let generated :=
    generateStatementSequenceCode coroutine_body
      (CoroutineBody.getBody coroutine_body) (current s) in
  let template :=
    if non_empty (CoroutineBody.getClosureVariables coroutine_body)
    then template_make_coroutine_with_context_template
    else template_make_coroutine_without_context_template in
  generateCoroutineCreationCode to_name coroutine_body s
  = match Py.format template
            [ ("to_name", Py.Str to_name);
              ("code_identifier",
               Py.Str (CoroutineBody.getCodeName coroutine_body)) ] with
    | Some line =>
        Returned tt
          {| current := snd generated;
             emitted := (emitted s ++ [line])%list |}
    | None => Raised FormatError
    end
  /\ forall s',
       generateCoroutineCreationCode to_name coroutine_body s
       = Returned tt s' ->
       List.length (emitted s') = S (List.length (emitted s))
       /\ cleanup_names (current s') = cleanup_names (snd generated).
Proof.
  intros generated template.
  assert (E : generateCoroutineCreationCode to_name coroutine_body s
              = match Py.format template
                        [ ("to_name", Py.Str to_name);
                          ("code_identifier",
                           Py.Str (CoroutineBody.getCodeName coroutine_body)) ]
                with
                | Some line =>
                    Returned tt
                      {| current := snd generated;
                         emitted := (emitted s ++ [line])%list |}
                | None => Raised FormatError
                end).
  { subst generated template. unfold generateCoroutineCreationCode.
    unfold bind at 1. unfold call.
    destruct (generateStatementSequenceCode coroutine_body
                (CoroutineBody.getBody coroutine_body) (current s))
      as [function_codes c].
    cbn [snd].
    destruct (non_empty (CoroutineBody.getClosureVariables coroutine_body));
      unfold bind;
      match goal with
      | |- context [Py.format ?t ?m] => destruct (Py.format t m)
      end; reflexivity. }
  split; [exact E|].
  intros s' R. rewrite E in R.
  destruct (Py.format template _) as [line|]; [|discriminate R].
  injection R as <-. cbn [current emitted].
  split; [|reflexivity].
  rewrite length_app. cbn [List.length]. lia.
Qed.

(** *** The local declarations of a plain function *)

Lemma outline_return_inits_filter (context : Context) :
  outline_return_inits context
  = map (fun entry => fst entry ++ " = NULL;")
      (filter
         (fun entry =>
            Py.startswith (fst entry) "tmp_outline_return_value_")
         (getTempNameInfos context)).
Proof.
  unfold outline_return_inits.
  rewrite (fold_left_lines _
             (fun entry =>
                if Py.startswith (fst entry) "tmp_outline_return_value_"
                then [fst entry ++ " = NULL;"] else [])).
  - cbn [app].
    induction (getTempNameInfos context) as [|[name type] rest IH];
      cbn [flat_map filter map fst]; [reflexivity|].
    destruct (Py.startswith name "tmp_outline_return_value_");
      cbn [app map fst]; now rewrite IH.
  - intros inits [name type]. cbn [fst].
    destruct (Py.startswith name "tmp_outline_return_value_");
      [reflexivity | now rewrite app_nil_r].
Qed.

Lemma keeper_declarations_In (context : Context) (keeper_index : nat)
  (line : string) :
  1 <= keeper_index <= getKeeperVariableCount context ->
  In line (getExceptionKeeperVariableNames keeper_index) ->
  In line (keeper_declarations context).
Proof.
  intros Hindex Hline. unfold keeper_declarations, Py.range_from_1.
  rewrite (fold_left_lines _ getExceptionKeeperVariableNames)
    by reflexivity.
  cbn [app]. apply in_flat_map. exists keeper_index.
  split; [|exact Hline]. apply in_seq. lia.
Qed.

(** X11.  [getFunctionCode] fills the direct-body template in a context
    for a direct call, and the function-body template otherwise, and adds
    the entry point code of the parameter parser in a context for a created
    function.  The local declarations that it puts into the
    function body start with the setup of the locals dictionary if the
    context has one; then every parameter variable is declared and
    initialised from the argument [_python_par_<code name>] of the same
    variable, in the order of the parameter parser; then every user and
    temporary variable is declared without initial value.  Among what
    follows, the exception keeper variables of every index from 1 to the
    keeper count are declared, every temporary of the context has its
    declaration, the return value is set to [NULL] if the temporary
    [return_value] was allocated, and so is every temporary whose name
    starts with [tmp_outline_return_value_]. *)
Theorem function_locals_layout (context : Context)
  (function_name function_identifier : string) (parameters : Params.t)
  (closure_variables user_variables temp_variables : list Var.t)
  (function_codes : list string) (function_doc : Constant)
  (file_scope : string) (needs_exception_exit : bool) (exit_code : string) :
  let parsed :=
    getParameterParsingCode function_identifier function_name parameters
      (isForCreatedFunction context) context in
  function_exit context needs_exception_exit = Some exit_code ->
  exists mapping before after,
    getFunctionCode context function_name function_identifier parameters
      closure_variables user_variables temp_variables function_codes
      function_doc file_scope needs_exception_exit
    = (body <-?
         Py.format
           (if isForDirectCall context then function_direct_body_template
            else template_function_body)
           mapping ;;
       Some (body
             ++ (if isForCreatedFunction context
                 then snd (fst parsed) else "")))
    /\ Py.getitem "function_exit" mapping = Some (Py.Str exit_code)
    /\ Py.getitem "function_body" mapping
       = Some (Py.Str (indented function_codes))
    /\ Py.getitem "function_locals" mapping
       = Some (Py.Str
                 (indented
                    (before
                     ++ map parameter_declaration
                          (fst (fst parsed))
                     ++ map local_declaration
                          (user_variables ++ temp_variables)
                     ++ after)%list))
    /\ before
       = (if hasLocalsDict context
          then Py.split function_dict_setup "010" else [])
    /\ (forall keeper_index line,
          1 <= keeper_index <= getKeeperVariableCount context ->
          In line (getExceptionKeeperVariableNames keeper_index) ->
          In line after)
    /\ (forall tmp_name tmp_type,
          In (tmp_name, tmp_type) (getTempNameInfos context) ->
          In (tmp_type
                ++ (if negb (Py.endswith tmp_type "*") then " " else "")
                ++ tmp_name ++ ";")
            after)
    /\ (hasTempName "return_value" context = true ->
        In "tmp_return_value = NULL;" after)
    /\ (forall tmp_name tmp_type,
          In (tmp_name, tmp_type) (getTempNameInfos context) ->
          Py.startswith tmp_name "tmp_outline_return_value_" = true ->
          In (tmp_name ++ " = NULL;") after).
Proof.
  intros parsed Hexit. subst parsed.
  unfold getFunctionCode.
  destruct (getParameterParsingCode function_identifier function_name
              parameters (isForCreatedFunction context) context)
    as [[parameter_variables entry_point_code] parameter_objects_decl].
  cbn [fst snd]. rewrite Hexit. cbn [and_then].
  set (after :=
         ((if needsExceptionVariables context
           then getErrorVariableDeclarations else [])
          ++ keeper_declarations context
          ++ preserver_declarations context
          ++ temp_declarations context
          ++ getFrameDeclarations context
          ++ (if hasTempName "return_value" context
              then ["tmp_return_value = NULL;"] else [])
          ++ outline_return_inits context)%list).
  set (before :=
         if hasLocalsDict context
         then Py.split function_dict_setup "010" else []).
  match goal with
  | |- context [("function_locals", Py.Str (indented ?locals))] =>
      assert (Locals :
                locals
                = (before ++ map parameter_declaration parameter_variables
                   ++ map local_declaration (user_variables ++ temp_variables)
                   ++ after)%list)
  end.
  { subst before after.
    unfold Py.extend, Py.append, parameter_declaration, local_declaration.
    destruct (hasLocalsDict context),
      (hasTempName "return_value" context),
      (needsExceptionVariables context);
      cbn [app]; rewrite <- ?app_assoc; reflexivity. }
  rewrite Locals. clear Locals.
  assert (After :
            (forall keeper_index line,
               1 <= keeper_index <= getKeeperVariableCount context ->
               In line (getExceptionKeeperVariableNames keeper_index) ->
               In line after)
            /\ (forall tmp_name tmp_type,
               In (tmp_name, tmp_type) (getTempNameInfos context) ->
               In (tmp_type
                     ++ (if negb (Py.endswith tmp_type "*") then " " else "")
                     ++ tmp_name ++ ";")
                 after)
            /\ (hasTempName "return_value" context = true ->
                In "tmp_return_value = NULL;" after)
            /\ (forall tmp_name tmp_type,
                  In (tmp_name, tmp_type) (getTempNameInfos context) ->
                  Py.startswith tmp_name "tmp_outline_return_value_" = true ->
                  In (tmp_name ++ " = NULL;") after)).
  { subst after. split; [|split; [|split]].
    - intros keeper_index line Hindex Hline.
      apply in_or_app; right. apply in_or_app; left.
      now apply (keeper_declarations_In context keeper_index).
    - intros tmp_name tmp_type Hin.
      do 3 (apply in_or_app; right). apply in_or_app; left.
      unfold temp_declarations.
      apply (in_map (fun '(tmp_name, tmp_type) =>
                       tmp_type
                         ++ (if negb (Py.endswith tmp_type "*")
                             then " " else "")
                         ++ tmp_name ++ ";")
               _ _ Hin).
    - intros ->. do 5 (apply in_or_app; right). apply in_or_app; left.
      now left.
    - intros tmp_name tmp_type Hin Hstart.
      do 6 (apply in_or_app; right).
      rewrite outline_return_inits_filter.
      apply (in_map (fun entry => fst entry ++ " = NULL;") _
               (tmp_name, tmp_type)).
      apply filter_In. now split. }
  destruct (isForDirectCall context);
    match goal with
    | |- context [Py.format ?template ?m] => exists m, before, after
    end;
    (split;
     [ match goal with
       | |- context [Py.format ?template ?m] =>
           destruct (Py.format template m)
       end; cbn [and_then String.append]; [|reflexivity];
       destruct (isForCreatedFunction context); now rewrite ?append_nil_r
     | split;
       [ reflexivity
       | split;
         [ reflexivity
         | split; [reflexivity | split; [reflexivity | exact After]] ] ] ]).
Qed.

(** *** The constructor of a function without closure variables *)

(** X12.  The mapping for a function without closure variables has no
    entry for the copy of the closure cells and none for their number.  A
    without-context template that asks for either, after a part that can be
    filled in, makes [getFunctionMakerCode] fail, whatever follows the
    placeholder. *)
Theorem maker_without_closure_has_no_capture_slots
  (function_name function_qualname function_identifier code_identifier : string)
  (parameters : Params.t)
  (defaults_name kw_defaults_name annotations_name : option string)
  (function_doc : Constant) (is_generator : bool) (context : Context)
  (first rest out : string) :
  let mapping :=
    maker_mapping_without_context function_name function_qualname
      function_identifier code_identifier parameters []
      defaults_name kw_defaults_name annotations_name function_doc context in
  Py.format first mapping = Some out ->
  maker_template [] is_generator = first ++ "%(context_copy)s" ++ rest
  \/ maker_template [] is_generator = first ++ "%(closure_count)d" ++ rest ->
  Py.getitem "context_copy" mapping = None
  /\ Py.getitem "closure_count" mapping = None
  /\ getFunctionMakerCode function_name function_qualname function_identifier
       code_identifier parameters [] defaults_name kw_defaults_name
       annotations_name function_doc is_generator context
     = None.
Proof.
  intros mapping Hfirst Htemplate.
  split; [reflexivity|]. split; [reflexivity|].
  assert (E : getFunctionMakerCode function_name function_qualname
                function_identifier code_identifier parameters []
                defaults_name kw_defaults_name annotations_name function_doc
                is_generator context
              = Py.format (maker_template [] is_generator) mapping).
  { unfold getFunctionMakerCode, maker_template. cbn [non_empty].
    now destruct is_generator. }
  rewrite E. unfold Py.format in *.
  destruct Htemplate as [-> | ->];
    rewrite (format_from_app _ _ _ _ Py.Text Hfirst); reflexivity.
Qed.

(** *** Creating a function whose constructor is registered *)

(** X13.  When the constructor of a function is already registered, a
    further well-formed request to create that function returns whatever
    the templates are: no constructor and no declaration is rendered, the
    fragments registered under the identity stay as they are, and the call
    site of the constructor is among the emitted lines.  The expression and
    tuple code generators are assumed not to touch the fragments of this
    identity. *)
Theorem registered_constructor_needs_no_template (r : Creation)
  (s : GenState) :
  let key := creation_identity r in
  (forall to_name expression c,
     registered key
       (helper_codes (snd (generateExpressionCode to_name expression c)))
     = registered key (helper_codes c)
     /\ registered key
          (declaration_codes
             (snd (generateExpressionCode to_name expression c)))
        = registered key (declaration_codes c)) ->
  (forall to_name elements c,
     registered key
       (helper_codes (snd (generateTupleCreationCode to_name elements c)))
     = registered key (helper_codes c)
     /\ registered key
          (declaration_codes
             (snd (generateTupleCreationCode to_name elements c)))
        = registered key (declaration_codes c)) ->
  well_formed r = true ->
  hasHelperCode key (current s) = true ->
  exists s' before args after,
    create r s = Returned tt s'
    /\ emitted s'
       = (emitted s ++ before
          ++ constructor_call (creation_to_name r) key args :: after)%list
    /\ registered key (helper_codes (current s'))
       = registered key (helper_codes (current s))
    /\ registered key (declaration_codes (current s'))
       = registered key (declaration_codes (current s)).
Proof.
  intros key HE HT W Reg.
  apply andb_true_iff in W. destruct W as [Wn Wk].
  apply negb_true_iff in Wk.
  unfold create, generateFunctionCreationCode.
  rewrite Wn. cbn [assert].
  rewrite (bind_returned (ret tt) _ s s tt eq_refl).
  destruct (keeps_names key HE HT (creation_defaults r)
              (creation_kw_defaults r) (creation_defaults_first r) Wk s)
    as ([d k] & s1 & lines1 & R1 & E1 & H1 & D1).
  rewrite (bind_returned _ _ _ _ _ R1).
  destruct (keeps_annotations key HE (creation_annotations r) s1)
    as (a & s2 & lines2 & R2 & E2 & H2 & D2).
  rewrite (bind_returned _ _ _ _ _ R2).
  rewrite bind_ask.
  assert (Reg2 : hasHelperCode key (current s2) = true).
  { rewrite hasHelperCode_registered, H2, H1, <- hasHelperCode_registered.
    exact Reg. }
  fold (creation_identity r). fold key. rewrite Reg2. cbn [negb when].
  rewrite (bind_returned (ret tt) _ s2 s2 tt eq_refl).
  destruct (getFunctionCreationCode_run (creation_to_name r) key d k a
              (FunctionBody.getClosureVariables (creation_function_body r))
              s2) as [args R3].
  rewrite (bind_returned _ _ _ _ _ R3), getReleaseCode_run.
  cbn [current emitted].
  eexists _, (lines1 ++ lines2)%list, args, _.
  split; [reflexivity|]. cbn [current emitted].
  split.
  - rewrite E2, E1. unfold Py.append.
    instantiate (1 := match a with
                      | Some name =>
                          if Py.contains name
                               (cleanup_names
                                  (addCleanupTempName (creation_to_name r)
                                     (removeCleanupTempName k
                                        (removeCleanupTempName d
                                           (current s2)))))
                          then [decref_line name] else []
                      | None => []
                      end).
    destruct a as [name|]; [destruct (Py.contains name _)|];
      rewrite <- ?app_assoc; reflexivity.
  - rewrite <- H1, <- H2, <- D1, <- D2. now destruct d, k, a.
Qed.

(** *** The ledger across the creation of a function *)

Lemma ledger_grows_by_nothing (c c' : Context) :
  cleanup_names c' = cleanup_names c -> ledger_grows_by [] c c'.
Proof. intros E x. rewrite E. unfold occurrences. simpl. lia. Qed.

Lemma ledger_grows_by_trans (names more : list string) (c c' c'' : Context) :
  ledger_grows_by names c c' ->
  ledger_grows_by more c' c'' ->
  ledger_grows_by (names ++ more) c c''.
Proof.
  intros H1 H2 x. destruct (H1 x), (H2 x). rewrite occurrences_app. lia.
Qed.

Lemma ledger_grows_by_swap (names more : list string) (c c' : Context) :
  ledger_grows_by (names ++ more) c c' -> ledger_grows_by (more ++ names) c c'.
Proof.
  intros H x. destruct (H x). rewrite occurrences_app in *. lia.
Qed.

Section LedgerBalance.

Hypothesis generateExpressionCode_ledger :
  forall to_name expression c,
    ledger_grows_by [to_name] c
      (snd (generateExpressionCode to_name expression c)).

Hypothesis generateTupleCreationCode_ledger :
  forall to_name elements c,
    ledger_grows_by [to_name] c
      (snd (generateTupleCreationCode to_name elements c)).

Lemma handleDefaults_ledger (defaults : list Expression) (s : GenState) :
  exists d s',
    handleDefaults defaults s = Returned d s'
    /\ temp_named "defaults" d
    /\ ledger_grows_by (present [d]) (current s) (current s').
Proof.
  unfold handleDefaults. destruct (non_empty defaults).
  - unfold bind, call, generate, ret, allocateTempName. cbn [current emitted].
    match goal with
    | |- context [generateTupleCreationCode ?name defaults ?c] =>
        pose proof (generateTupleCreationCode_ledger name defaults c) as G;
        destruct (generateTupleCreationCode name defaults c) as [lines c']
    end.
    eexists _, _. split; [reflexivity|].
    split; [right; eexists; reflexivity|]. exact G.
  - exists None, s. split; [reflexivity|]. split; [now left|].
    now apply ledger_grows_by_nothing.
Qed.

Lemma handleKwDefaults_ledger (kw_defaults : option Expression)
  (s : GenState) :
  is_empty_dict_constant kw_defaults = false ->
  exists k s',
    handleKwDefaults kw_defaults s = Returned k s'
    /\ temp_named "kw_defaults" k
    /\ ledger_grows_by (present [k]) (current s) (current s').
Proof.
  unfold handleKwDefaults, is_empty_dict_constant.
  destruct kw_defaults as [e|].
  - intros W.
    replace (negb (isExpressionConstantRef e)
             || differs_from_empty_dict (getConstant e)) with true
      by (destruct (isExpressionConstantRef e),
            (differs_from_empty_dict (getConstant e)); simpl in *;
          congruence).
    unfold bind, call, assert, generate, ret, allocateTempName.
    cbn [current emitted].
    match goal with
    | |- context [generateExpressionCode ?name e ?c] =>
        pose proof (generateExpressionCode_ledger name e c) as G;
        destruct (generateExpressionCode name e c) as [lines c']
    end.
    eexists _, _. split; [reflexivity|].
    split; [right; eexists; reflexivity|]. exact G.
  - intros _. exists None, s. split; [reflexivity|]. split; [now left|].
    now apply ledger_grows_by_nothing.
Qed.

Lemma annotations_ledger (annotations : option Expression) (s : GenState) :
  exists a s',
    match annotations with
    | Some annotations =>
        annotations_name <- call (allocateTempName "annotations") ;;
        generate (generateExpressionCode annotations_name annotations) ;;
        ret (Some annotations_name)
    | None => ret None
    end s
    = Returned a s'
    /\ temp_named "annotations" a
    /\ ledger_grows_by (present [a]) (current s) (current s').
Proof.
  destruct annotations as [e|].
  - unfold bind, call, generate, ret, allocateTempName. cbn [current emitted].
    match goal with
    | |- context [generateExpressionCode ?name e ?c] =>
        pose proof (generateExpressionCode_ledger name e c) as G;
        destruct (generateExpressionCode name e c) as [lines c']
    end.
    eexists _, _. split; [reflexivity|].
    split; [right; eexists; reflexivity|]. exact G.
  - exists None, s. split; [reflexivity|]. split; [now left|].
    now apply ledger_grows_by_nothing.
Qed.

Lemma names_ledger (defaults : list Expression)
  (kw_defaults : option Expression) (defaults_first : bool) (s : GenState) :
  is_empty_dict_constant kw_defaults = false ->
  exists d k s',
    (if defaults_first then
       defaults_name <- handleDefaults defaults ;;
       kw_defaults_name <- handleKwDefaults kw_defaults ;;
       ret (defaults_name, kw_defaults_name)
     else
       kw_defaults_name <- handleKwDefaults kw_defaults ;;
       defaults_name <- handleDefaults defaults ;;
       ret (defaults_name, kw_defaults_name)) s
    = Returned (d, k) s'
    /\ temp_named "defaults" d
    /\ temp_named "kw_defaults" k
    /\ ledger_grows_by (present [d] ++ present [k]) (current s) (current s').
Proof.
  intros W. destruct defaults_first.
  - destruct (handleDefaults_ledger defaults s) as (d & s1 & R1 & N1 & G1).
    destruct (handleKwDefaults_ledger kw_defaults s1 W)
      as (k & s2 & R2 & N2 & G2).
    exists d, k, s2.
    rewrite (bind_returned _ _ _ _ _ R1), (bind_returned _ _ _ _ _ R2).
    split; [reflexivity|]. split; [exact N1|]. split; [exact N2|].
    exact (ledger_grows_by_trans _ _ _ _ _ G1 G2).
  - destruct (handleKwDefaults_ledger kw_defaults s W)
      as (k & s1 & R1 & N1 & G1).
    destruct (handleDefaults_ledger defaults s1) as (d & s2 & R2 & N2 & G2).
    exists d, k, s2.
    rewrite (bind_returned _ _ _ _ _ R1), (bind_returned _ _ _ _ _ R2).
    split; [reflexivity|]. split; [exact N2|]. split; [exact N1|].
    apply ledger_grows_by_swap.
    exact (ledger_grows_by_trans _ _ _ _ _ G1 G2).
Qed.

End LedgerBalance.

Lemma temps_distinct (d k a : option string) :
  temp_named "defaults" d ->
  temp_named "kw_defaults" k ->
  temp_named "annotations" a ->
  all_distinct (present [d; k; a]) = true.
Proof.
  intros [-> | [nd ->]] [-> | [nk ->]] [-> | [na ->]]; reflexivity.
Qed.

(** The constructor call and the release of the annotations, on the
    number of ledger entries of any name. *)
Lemma call_and_release_ledger (to_name function_identifier : string)
  (d k a : option string) (closure_variables : list Var.t) (s : GenState) :
  all_distinct (present [d; k; a]) = true ->
  exists s',
    (getFunctionCreationCode to_name function_identifier d k a
       closure_variables ;;
     getReleaseCode a) s
    = Returned tt s'
    /\ (forall x,
          ~ In x (present [d; k; a]) ->
          occurrences x (cleanup_names (current s'))
          = occurrences x (cleanup_names (current s))
            + (if String.eqb to_name x then 1 else 0))
    /\ (forall x,
          In x (present [d; k; a]) ->
          x <> to_name ->
          occurrences x (cleanup_names (current s'))
          = pred (occurrences x (cleanup_names (current s)))).
Proof.
  intros D.
  destruct (getFunctionCreationCode_run to_name function_identifier d k a
              closure_variables s) as [args R].
  rewrite (bind_returned _ _ _ _ _ R), getReleaseCode_run.
  eexists. split; [reflexivity|]. cbn [current emitted].
  split; intros x.
  all: rewrite ?occurrences_removeCleanupTempName,
         ?occurrences_addCleanupTempName, ?occurrences_removeCleanupTempName.
  all: destruct d as [nd|], k as [nk|], a as [na|];
    cbn in D; split_distinct; cbn [present flat_map app In]; intros.
  all: repeat match goal with
         | H : _ \/ _ |- _ => destruct H
         | H : False |- _ => destruct H
         | H : ~ (_ \/ _) |- _ => apply Decidable.not_or in H; destruct H
         | H : ?y <> ?x |- _ => apply String.eqb_neq in H
         end.
  all: subst; rewrite ?String.eqb_refl; use_distinct; lia.
Qed.

(** *** The constructor call and the release at the end of a creation *)

Lemma bind_raised {A B : Type} (m : Gen A) (k : A -> Gen B) (s : GenState)
  (failure : Failure) :
  m s = Raised failure -> (x <- m ;; k x) s = Raised failure.
Proof. unfold bind. now intros ->. Qed.

Lemma handleDefaults_runs (defaults : list Expression) (s : GenState) :
  exists d s',
    handleDefaults defaults s = Returned d s'
    /\ temp_named "defaults" d
    /\ (d = None <-> defaults = []).
Proof.
  unfold handleDefaults. destruct defaults as [|e rest]; cbn [non_empty].
  - exists None, s. split; [reflexivity|]. split; [now left | now split].
  - unfold bind, call, generate, ret, allocateTempName. cbn [current emitted].
    destruct (generateTupleCreationCode _ (e :: rest) _) as [lines c'].
    eexists _, _. split; [reflexivity|].
    split; [right; eexists; reflexivity|]. split; discriminate.
Qed.

Lemma handleKwDefaults_runs (kw_defaults : option Expression)
  (s : GenState) :
  is_empty_dict_constant kw_defaults = false ->
  exists k s',
    handleKwDefaults kw_defaults s = Returned k s'
    /\ temp_named "kw_defaults" k
    /\ (k = None <-> kw_defaults = None).
Proof.
  unfold handleKwDefaults, is_empty_dict_constant.
  destruct kw_defaults as [e|].
  - intros W.
    replace (negb (isExpressionConstantRef e)
             || differs_from_empty_dict (getConstant e)) with true
      by (destruct (isExpressionConstantRef e),
            (differs_from_empty_dict (getConstant e)); simpl in *;
          congruence).
    unfold bind, call, assert, generate, ret, allocateTempName.
    cbn [current emitted].
    destruct (generateExpressionCode _ e _) as [lines c'].
    eexists _, _. split; [reflexivity|].
    split; [right; eexists; reflexivity|]. split; discriminate.
  - intros _. exists None, s. split; [reflexivity|].
    split; [now left | now split].
Qed.

Lemma creation_values_run (r : Creation) (s : GenState) :
  is_empty_dict_constant (creation_kw_defaults r) = false ->
  exists d k a s_values,
    creation_values r s = Returned (d, k, a) s_values
    /\ (temp_named "defaults" d /\ (d = None <-> creation_defaults r = []))
    /\ (temp_named "kw_defaults" k
        /\ (k = None <-> creation_kw_defaults r = None))
    /\ (temp_named "annotations" a
        /\ (a = None <-> creation_annotations r = None)).
Proof.
  intros W. unfold creation_values.
  assert (Names :
            exists d k s1,
              (if creation_defaults_first r then
                 defaults_name <- handleDefaults (creation_defaults r) ;;
                 kw_defaults_name <-
                   handleKwDefaults (creation_kw_defaults r) ;;
                 ret (defaults_name, kw_defaults_name)
               else
                 kw_defaults_name <-
                   handleKwDefaults (creation_kw_defaults r) ;;
                 defaults_name <- handleDefaults (creation_defaults r) ;;
                 ret (defaults_name, kw_defaults_name)) s
              = Returned (d, k) s1
              /\ (temp_named "defaults" d
                  /\ (d = None <-> creation_defaults r = []))
              /\ (temp_named "kw_defaults" k
                  /\ (k = None <-> creation_kw_defaults r = None))).
  { destruct (creation_defaults_first r).
    - destruct (handleDefaults_runs (creation_defaults r) s)
        as (d & s1 & R1 & N1).
      destruct (handleKwDefaults_runs (creation_kw_defaults r) s1 W)
        as (k & s2 & R2 & N2).
      exists d, k, s2.
      rewrite (bind_returned _ _ _ _ _ R1), (bind_returned _ _ _ _ _ R2).
      now split.
    - destruct (handleKwDefaults_runs (creation_kw_defaults r) s W)
        as (k & s1 & R1 & N1).
      destruct (handleDefaults_runs (creation_defaults r) s1)
        as (d & s2 & R2 & N2).
      exists d, k, s2.
      rewrite (bind_returned _ _ _ _ _ R1), (bind_returned _ _ _ _ _ R2).
      now split. }
  destruct Names as (d & k & s1 & R1 & Nd & Nk).
  rewrite (bind_returned _ _ _ _ _ R1).
  destruct (creation_annotations r) as [e|].
  - unfold bind, call, generate, ret, allocateTempName. cbn [current emitted].
    destruct (generateExpressionCode _ e _) as [lines c'].
    eexists d, k, _, _. split; [reflexivity|].
    split; [exact Nd|]. split; [exact Nk|].
    split; [right; eexists; reflexivity|]. split; discriminate.
  - exists d, k, None, s1. split; [reflexivity|].
    split; [exact Nd|]. split; [exact Nk|]. split; [now left | now split].
Qed.

(** C3.  A well-formed request to create a function first generates the
    values ([creation_values]), then, unless a constructor template cannot
    be filled in, emits the constructor call and releases the annotations,
    and that is where [generateFunctionCreationCode] ends.  From the state
    in which the values are generated: the call line is the next line
    emitted; with the call the defaults name and the keyword-defaults name
    leave the cleanup ledger, once if they were in it, and nothing is
    emitted for them; the annotations name is still in the ledger after the
    call and leaves it with the release, which is the only line after the
    call and is emitted when the name needs cleanup; every name that is not
    one of the three keeps its entries, and the result name gains one.
    The registration of the constructor in between changes neither the
    ledger nor the emitted lines. *)
Theorem creation_transfers_defaults_and_releases_annotations (r : Creation)
  (s : GenState) :
  let to_name := creation_to_name r in
  let identity := creation_identity r in
  let closure_variables :=
    FunctionBody.getClosureVariables (creation_function_body r) in
  well_formed r = true ->
  exists d k a s_values,
    creation_values r s = Returned (d, k, a) s_values
    /\ (temp_named "defaults" d /\ (d = None <-> creation_defaults r = []))
    /\ (temp_named "kw_defaults" k
        /\ (k = None <-> creation_kw_defaults r = None))
    /\ (temp_named "annotations" a
        /\ (a = None <-> creation_annotations r = None))
    /\ (create r s = Raised FormatError
        \/ exists args s0 s1 s',
             cleanup_names (current s0) = cleanup_names (current s_values)
             /\ emitted s0 = emitted s_values
             /\ getFunctionCreationCode to_name identity d k a
                  closure_variables s0
                = Returned tt s1
             /\ getReleaseCode a s1 = Returned tt s'
             /\ create r s = Returned tt s'
             /\ emitted s1
                = (emitted s_values
                   ++ [constructor_call to_name identity args])%list
             /\ emitted s'
                = (emitted s1
                   ++ match a with
                      | Some name =>
                          if Py.contains name
                               (cleanup_names (current s_values))
                             || String.eqb to_name name
                          then [decref_line name] else []
                      | None => []
                      end)%list
             /\ (forall name,
                   d = Some name \/ k = Some name ->
                   name <> to_name ->
                   occurrences name (cleanup_names (current s1))
                   = pred (occurrences name
                             (cleanup_names (current s_values)))
                   /\ occurrences name (cleanup_names (current s'))
                      = pred (occurrences name
                                (cleanup_names (current s_values))))
             /\ (forall name,
                   a = Some name ->
                   name <> to_name ->
                   occurrences name (cleanup_names (current s1))
                   = occurrences name (cleanup_names (current s_values))
                   /\ occurrences name (cleanup_names (current s'))
                      = pred (occurrences name
                                (cleanup_names (current s_values))))
             /\ (forall x,
                   ~ In x (present [d; k; a]) ->
                   occurrences x (cleanup_names (current s1))
                   = occurrences x (cleanup_names (current s_values))
                     + (if String.eqb to_name x then 1 else 0)
                   /\ occurrences x (cleanup_names (current s'))
                      = occurrences x (cleanup_names (current s_values))
                        + (if String.eqb to_name x then 1 else 0))).
Proof.
  intros to_name identity closure_variables W.
  apply andb_true_iff in W. destruct W as [Wn Wk].
  apply negb_true_iff in Wk.
  destruct (creation_values_run r s Wk)
    as (d & k & a & s_values & Values & Nd & Nk & Na).
  exists d, k, a, s_values.
  split; [exact Values|]. split; [exact Nd|]. split; [exact Nk|].
  split; [exact Na|].
  pose proof (temps_distinct d k a (proj1 Nd) (proj1 Nk) (proj1 Na)) as D.
  assert (Tail : forall s0,
             cleanup_names (current s0) = cleanup_names (current s_values) ->
             emitted s0 = emitted s_values ->
             forall final,
               (getFunctionCreationCode to_name identity d k a
                  closure_variables ;;
                getReleaseCode a) s0
               = final ->
               exists args s1 s',
                 getFunctionCreationCode to_name identity d k a
                   closure_variables s0
                 = Returned tt s1
                 /\ getReleaseCode a s1 = Returned tt s'
                 /\ final = Returned tt s'
                 /\ emitted s1
                    = (emitted s_values
                       ++ [constructor_call to_name identity args])%list
                 /\ emitted s'
                    = (emitted s1
                       ++ match a with
                          | Some name =>
                              if Py.contains name
                                   (cleanup_names (current s_values))
                                 || String.eqb to_name name
                              then [decref_line name] else []
                          | None => []
                          end)%list
                 /\ (forall name,
                       d = Some name \/ k = Some name ->
                       name <> to_name ->
                       occurrences name (cleanup_names (current s1))
                       = pred (occurrences name
                                 (cleanup_names (current s_values)))
                       /\ occurrences name (cleanup_names (current s'))
                          = pred (occurrences name
                                    (cleanup_names (current s_values))))
                 /\ (forall name,
                       a = Some name ->
                       name <> to_name ->
                       occurrences name (cleanup_names (current s1))
                       = occurrences name (cleanup_names (current s_values))
                       /\ occurrences name (cleanup_names (current s'))
                          = pred (occurrences name
                                    (cleanup_names (current s_values))))
                 /\ (forall x,
                       ~ In x (present [d; k; a]) ->
                       occurrences x (cleanup_names (current s1))
                       = occurrences x (cleanup_names (current s_values))
                         + (if String.eqb to_name x then 1 else 0)
                       /\ occurrences x (cleanup_names (current s'))
                          = occurrences x (cleanup_names (current s_values))
                            + (if String.eqb to_name x then 1 else 0))).
  { intros s0 Ledger Lines final Run.
    destruct (getFunctionCreationCode_run to_name identity d k a
                closure_variables s0) as [args R].
    rewrite (bind_returned _ _ _ _ _ R), getReleaseCode_run in Run.
    eexists args, _, _.
    split; [exact R|]. split; [apply getReleaseCode_run|].
    split; [symmetry; exact Run|].
    cbn [current emitted]. rewrite Lines. unfold Py.append.
    split; [reflexivity|].
    assert (Tracked : forall name,
               a = Some name ->
               Py.contains name
                 (cleanup_names
                    (addCleanupTempName to_name
                       (removeCleanupTempName k
                          (removeCleanupTempName d (current s0)))))
               = Py.contains name (cleanup_names (current s_values))
                 || String.eqb to_name name).
    { intros name ->. rewrite !contains_occurrences.
      rewrite occurrences_addCleanupTempName,
        !occurrences_removeCleanupTempName, Ledger.
      destruct d as [nd|], k as [nk|]; cbn in D; split_distinct;
        use_distinct;
        destruct (String.eqb to_name name);
        destruct (occurrences name (cleanup_names (current s_values)));
        reflexivity. }
    split.
    { destruct a as [name|]; [|now rewrite app_nil_r].
      rewrite (Tracked name eq_refl).
      destruct (Py.contains name (cleanup_names (current s_values))
                || String.eqb to_name name);
        [reflexivity | now rewrite app_nil_r]. }
    repeat split.
    all: intros;
      rewrite ?occurrences_removeCleanupTempName,
        ?occurrences_addCleanupTempName, ?occurrences_removeCleanupTempName,
        ?Ledger.
    all: destruct d as [nd|], k as [nk|], a as [na|];
      cbn in D; split_distinct.
    all: repeat match goal with
           | H : _ \/ _ |- _ => destruct H
           | H : Some _ = Some _ |- _ => injection H as H; subst
           | H : None = Some _ |- _ => discriminate H
           | H : ~ In _ (present _) |- _ => cbn in H
           | H : ~ (_ \/ _) |- _ => apply Decidable.not_or in H; destruct H
           | H : ?y <> ?x |- _ => apply String.eqb_neq in H
           end.
    all: rewrite ?String.eqb_refl; use_distinct; lia. }
  (* The run of the function, from the values on. *)
  unfold creation_values in Values.
  unfold create, generateFunctionCreationCode.
  rewrite Wn. cbn [assert].
  rewrite (bind_returned (ret tt) _ s s tt eq_refl).
  match type of Values with
  | bind ?names _ s = _ =>
      destruct (names s) as [failure|[d' k'] s1] eqn:R1;
      [rewrite (bind_raised _ _ _ _ R1) in Values; discriminate Values|]
  end.
  rewrite (bind_returned _ _ _ _ _ R1) in Values.
  rewrite (bind_returned _ _ _ _ _ R1).
  match type of Values with
  | bind ?annotations _ s1 = _ =>
      destruct (annotations s1) as [failure|a' s2] eqn:R2;
      [rewrite (bind_raised _ _ _ _ R2) in Values; discriminate Values|]
  end.
  rewrite (bind_returned _ _ _ _ _ R2) in Values.
  rewrite (bind_returned _ _ _ _ _ R2).
  unfold ret in Values. injection Values as <- <- <- <-.
  rewrite bind_ask.
  destruct (hasHelperCode (FunctionBody.getCodeName (creation_function_body r))
              (current s2)); cbn [negb when].
  - rewrite (bind_returned (ret tt) _ s2 s2 tt eq_refl).
    destruct (Tail s2 eq_refl eq_refl _ eq_refl)
      as (args & s1' & s' & R & Rel & Final & Facts).
    right. exists args, s2, s1', s'.
    split; [reflexivity|]. split; [reflexivity|].
    split; [exact R|]. split; [exact Rel|]. split; [exact Final|].
    exact Facts.
  - rewrite bind_bind, bind_ask, bind_bind, bind_ask.
    match goal with
    | |- context [formatted ?code] => destruct code as [maker_code|]
    end; cbn [formatted]; [|now left].
    rewrite bind_bind.
    rewrite (bind_returned (ret maker_code) _ s2 s2 maker_code eq_refl).
    rewrite bind_bind, bind_update.
    destruct (getFunctionMakerDecl
                (FunctionBody.getCodeName (creation_function_body r)) d' k' a'
                (FunctionBody.getClosureVariables (creation_function_body r)))
      as [function_decl|]; cbn [formatted]; [|now left].
    rewrite bind_bind.
    match goal with
    | |- context [bind (ret function_decl) _ ?s0] =>
        rewrite (bind_returned (ret function_decl) _ s0 s0 function_decl
                   eq_refl)
    end.
    rewrite bind_update.
    match goal with
    | |- context [bind _ _ ?s3] =>
        destruct (Tail s3 eq_refl eq_refl _ eq_refl)
          as (args & s1' & s' & R & Rel & Final & Facts)
    end.
    right.
    match goal with
    | |- context [bind _ _ ?s3] => exists args, s3, s1', s'
    end.
    split; [reflexivity|]. split; [reflexivity|].
    split; [exact R|]. split; [exact Rel|]. split; [exact Final|].
    exact Facts.
Qed.

(** X14.  A well-formed request to create a function, with code generators
    for the defaults, keyword defaults and annotations that leave the
    ledger alone except that each may enter its own target name.  The
    request either fails in filling a constructor template or returns, and
    then the cleanup ledger is balanced: the temp names allocated for the
    three values are off the ledger again (unless one was already tracked
    before, or is the result name), every other name has as many entries as
    before, and the result name has one more. *)
Theorem creation_balances_the_ledger (r : Creation) (s : GenState) :
  (forall to_name expression c,
     ledger_grows_by [to_name] c
       (snd (generateExpressionCode to_name expression c))) ->
  (forall to_name elements c,
     ledger_grows_by [to_name] c
       (snd (generateTupleCreationCode to_name elements c))) ->
  well_formed r = true ->
  create r s = Raised FormatError
  \/ exists s' d k a,
       create r s = Returned tt s'
       /\ temp_named "defaults" d
       /\ temp_named "kw_defaults" k
       /\ temp_named "annotations" a
       /\ (forall x,
             ~ In x (present [d; k; a]) ->
             occurrences x (cleanup_names (current s'))
             = occurrences x (cleanup_names (current s))
               + (if String.eqb (creation_to_name r) x then 1 else 0))
       /\ (forall x,
             In x (present [d; k; a]) ->
             x <> creation_to_name r ->
             needsCleanup (Some x) (current s) = false ->
             needsCleanup (Some x) (current s') = false).
Proof.
  intros HE HT W.
  apply andb_true_iff in W. destruct W as [Wn Wk].
  apply negb_true_iff in Wk.
  unfold create, generateFunctionCreationCode.
  rewrite Wn. cbn [assert].
  rewrite (bind_returned (ret tt) _ s s tt eq_refl).
  destruct (names_ledger HE HT (creation_defaults r) (creation_kw_defaults r)
              (creation_defaults_first r) s Wk)
    as (d & k & s1 & R1 & Nd & Nk & G1).
  rewrite (bind_returned _ _ _ _ _ R1).
  destruct (annotations_ledger HE (creation_annotations r) s1)
    as (a & s2 & R2 & Na & G2).
  rewrite (bind_returned _ _ _ _ _ R2).
  rewrite bind_ask.
  pose proof (temps_distinct d k a Nd Nk Na) as D.
  pose proof (ledger_grows_by_trans _ _ _ _ _ G1 G2) as G.
  assert (P : (present [d] ++ present [k] ++ present [a])%list
              = present [d; k; a])
    by now destruct d, k, a.
  rewrite <- app_assoc, P in G. clear P G1 G2.
  assert (Tail : forall s3,
             cleanup_names (current s3) = cleanup_names (current s2) ->
             exists s',
               (getFunctionCreationCode (creation_to_name r)
                  (FunctionBody.getCodeName (creation_function_body r)) d k a
                  (FunctionBody.getClosureVariables
                     (creation_function_body r)) ;;
                getReleaseCode a) s3
               = Returned tt s'
               /\ (forall x,
                     ~ In x (present [d; k; a]) ->
                     occurrences x (cleanup_names (current s'))
                     = occurrences x (cleanup_names (current s))
                       + (if String.eqb (creation_to_name r) x then 1 else 0))
               /\ (forall x,
                     In x (present [d; k; a]) ->
                     x <> creation_to_name r ->
                     needsCleanup (Some x) (current s) = false ->
                     needsCleanup (Some x) (current s') = false)).
  { intros s3 E3.
    destruct (call_and_release_ledger (creation_to_name r)
                (FunctionBody.getCodeName (creation_function_body r)) d k a
                (FunctionBody.getClosureVariables (creation_function_body r))
                s3 D) as (s' & R & Other & Temp).
    exists s'. split; [exact R|]. split.
    - intros x Hx. rewrite (Other x Hx), E3.
      destruct (G x) as [Lo Hi].
      apply (count_occ_not_In string_dec) in Hx. unfold occurrences in Hi at 3.
      rewrite Hx in Hi. lia.
    - intros x Hx Hr Hs. cbn [needsCleanup] in *.
      rewrite contains_occurrences in *. apply Nat.ltb_ge in Hs.
      apply Nat.ltb_ge. rewrite (Temp x Hx Hr), E3.
      destruct (G x) as [Lo Hi].
      pose proof (all_distinct_occurrences _ D x) as One. lia. }
  destruct (hasHelperCode (FunctionBody.getCodeName (creation_function_body r))
              (current s2)); cbn [negb when].
  - rewrite (bind_returned (ret tt) _ s2 s2 tt eq_refl).
    destruct (Tail s2 eq_refl) as (s' & R & Other & Temp).
    right. exists s', d, k, a. repeat split; assumption.
  - rewrite bind_bind, bind_ask, bind_bind, bind_ask.
    match goal with
    | |- context [formatted ?code] => destruct code as [maker_code|]
    end; cbn [formatted]; [|now left].
    rewrite bind_bind.
    rewrite (bind_returned (ret maker_code) _ s2 s2 maker_code eq_refl).
    rewrite bind_bind, bind_update.
    destruct (getFunctionMakerDecl
                (FunctionBody.getCodeName (creation_function_body r)) d k a
                (FunctionBody.getClosureVariables (creation_function_body r)))
      as [function_decl|]; cbn [formatted]; [|now left].
    rewrite bind_bind.
    match goal with
    | |- context [bind (ret function_decl) _ ?s0] =>
        rewrite (bind_returned (ret function_decl) _ s0 s0 function_decl
                   eq_refl)
    end.
    rewrite bind_update.
    match goal with
    | |- context [bind _ _ ?s3] =>
        destruct (Tail s3 eq_refl) as (s' & R & Other & Temp)
    end.
    right. exists s', d, k, a. repeat split; assumption.
Qed.

(** *** The local declarations of a resumable body *)

(** X15.  The local declarations of a resumable body, which
    [getGeneratorObjectCode] and [getGeneratorFunctionCode] build alike,
    start with the user and temporary variables, declared without initial
    value, followed by the setup of the locals dictionary if the context
    has one; parameters are not declared here.  Among what follows, the
    exception keeper variables of every index from 1 to the keeper count
    are declared, every temporary of the context has its declaration,
    [tmp_generator_return] is set to [false] and [tmp_return_value] to
    [NULL] if the temporary of that name was allocated, and every temporary
    whose name starts with [tmp_outline_return_value_] is set to [NULL]. *)
Theorem generator_locals_layout (context : Context)
  (user_variables temp_variables : list Var.t) :
  exists after,
    generator_function_locals context user_variables temp_variables
    = (map local_declaration (user_variables ++ temp_variables)
       ++ (if hasLocalsDict context
           then Py.split function_dict_setup "010" else [])
       ++ after)%list
    /\ (forall keeper_index line,
          1 <= keeper_index <= getKeeperVariableCount context ->
          In line (getExceptionKeeperVariableNames keeper_index) ->
          In line after)
    /\ (forall tmp_name tmp_type,
          In (tmp_name, tmp_type) (getTempNameInfos context) ->
          In (tmp_type
                ++ (if negb (Py.endswith tmp_type "*") then " " else "")
                ++ tmp_name ++ ";")
            after)
    /\ (hasTempName "generator_return" context = true ->
        In "tmp_generator_return = false;" after)
    /\ (hasTempName "return_value" context = true ->
        In "tmp_return_value = NULL;" after)
    /\ (forall tmp_name tmp_type,
          In (tmp_name, tmp_type) (getTempNameInfos context) ->
          Py.startswith tmp_name "tmp_outline_return_value_" = true ->
          In (tmp_name ++ " = NULL;") after)
    /\ (forall function_identifier function_codes needs_exception_exit
          needs_generator_return exit_code,
          generator_exit needs_exception_exit needs_generator_return
          = Some exit_code ->
          exists mapping,
            getGeneratorObjectCode context function_identifier user_variables
              temp_variables function_codes needs_exception_exit
              needs_generator_return
            = Py.format template_genfunc_yielder_body_template mapping
            /\ Py.getitem "function_var_inits" mapping
               = Some (Py.Str
                         (indented
                            (generator_function_locals context user_variables
                               temp_variables)))).
Proof.
  exists ((if needsExceptionVariables context
           then getErrorVariableDeclarations else [])
          ++ keeper_declarations context
          ++ preserver_declarations context
          ++ temp_declarations context
          ++ getFrameDeclarations context
          ++ (if hasTempName "generator_return" context
              then ["tmp_generator_return = false;"] else [])
          ++ (if hasTempName "return_value" context
              then ["tmp_return_value = NULL;"] else [])
          ++ outline_return_inits context)%list.
  split; [|split; [|split; [|split; [|split; [|split]]]]].
  - unfold generator_function_locals, Py.extend, Py.append, local_declaration.
    destruct (hasLocalsDict context),
      (hasTempName "generator_return" context),
      (hasTempName "return_value" context),
      (needsExceptionVariables context);
      cbn [app]; rewrite <- ?app_assoc; reflexivity.
  - intros keeper_index line Hindex Hline.
    apply in_or_app; right. apply in_or_app; left.
    now apply (keeper_declarations_In context keeper_index).
  - intros tmp_name tmp_type Hin.
    do 3 (apply in_or_app; right). apply in_or_app; left.
    unfold temp_declarations.
    apply (in_map (fun '(tmp_name, tmp_type) =>
                     tmp_type
                       ++ (if negb (Py.endswith tmp_type "*")
                           then " " else "")
                       ++ tmp_name ++ ";")
             _ _ Hin).
  - intros ->. do 5 (apply in_or_app; right). apply in_or_app; left.
    now left.
  - intros ->. do 6 (apply in_or_app; right). apply in_or_app; left.
    now left.
  - intros tmp_name tmp_type Hin Hstart.
    do 7 (apply in_or_app; right).
    rewrite outline_return_inits_filter.
    apply (in_map (fun entry => fst entry ++ " = NULL;") _
             (tmp_name, tmp_type)).
    apply filter_In. now split.
  - intros function_identifier function_codes needs_exception_exit
      needs_generator_return exit_code Hexit.
    unfold getGeneratorObjectCode. rewrite Hexit. cbn [and_then].
    eexists. split; reflexivity.
Qed.

End FunctionCodes.

(** ** The properties on the stand-ins *)

Local Abbreviation sample_create :=
  (create 340%Z Sample.getConstantCode Sample.getConstantCode
     Sample.getCodeObjectHandle Sample.getModuleAccessCode
     Sample.getParameterEntryPointIdentifier
     Sample.getQuickEntryPointIdentifier Sample.getReferenceExportCode
     Sample.getVariableCode Sample.getVariableCodeName Sample.indented
     Sample.generateExpressionCode Sample.generateTupleCreationCode
     Sample.template_function_make_declaration
     Sample.template_make_function_with_context_template
     Sample.template_make_function_without_context_template
     Sample.template_make_function_with_context_template
     Sample.template_make_function_without_context_template).


(** The first definition site of [f]: after the values the function emits
    the constructor call and the release of the annotations; the defaults
    and the annotations are off the ledger at the end. *)
Lemma creation_transfers_defaults_and_releases_annotations_witness :
  exists s_values s' args,
    creation_values Sample.generateExpressionCode
      Sample.generateTupleCreationCode Sample.first_site Sample.state
    = Returned
        (Some "tmp_defaults_1", Some "tmp_kw_defaults_1",
         Some "tmp_annotations_1")
        s_values
    /\ sample_create Sample.first_site Sample.state = Returned tt s'
    /\ emitted s'
       = (emitted s_values
          ++ [constructor_call "tmp_assign_source_1" "function_1_f_of_outer"
                args;
              decref_line "tmp_annotations_1"])%list
    /\ occurrences "tmp_defaults_1" (cleanup_names (current s')) = 0
    /\ occurrences "tmp_annotations_1" (cleanup_names (current s')) = 0.
Proof.
  destruct (creation_transfers_defaults_and_releases_annotations 340%Z
              Sample.getConstantCode Sample.getConstantCode
              Sample.getCodeObjectHandle Sample.getModuleAccessCode
              Sample.getParameterEntryPointIdentifier
              Sample.getQuickEntryPointIdentifier
              Sample.getReferenceExportCode Sample.getVariableCode
              Sample.getVariableCodeName Sample.indented
              Sample.generateExpressionCode Sample.generateTupleCreationCode
              Sample.template_function_make_declaration
              Sample.template_make_function_with_context_template
              Sample.template_make_function_without_context_template
              Sample.template_make_function_with_context_template
              Sample.template_make_function_without_context_template
              Sample.first_site Sample.state eq_refl)
    as (d & k & a & s_values & Values & _ & _ & _ & Run).
  destruct Run as [Failed | (args & s0 & s1 & s' & _ & _ & _ & _ & Run & Call
                            & Release & Handed & Released & _)];
    [vm_compute in Failed; discriminate Failed|].
  vm_compute in Values. injection Values as <- <- <- <-.
  eexists _, s', args.
  split; [vm_compute; reflexivity|]. split; [exact Run|].
  split.
  { rewrite Release, Call, <- app_assoc. reflexivity. }
  split.
  - refine (proj2 (Handed "tmp_defaults_1" (or_introl eq_refl) _)).
    discriminate.
  - refine (proj2 (Released "tmp_annotations_1" eq_refl _)). discriminate.
Defined.

(** A direct call with a tracked argument and an untracked one. *)
Lemma direct_call_one_reference_per_argument_witness :
  exists increfs c,
    getDirectFunctionCallCode Sample.getDirectFunctionEntryPointIdentifier
      Sample.getVariableCode Sample.getErrorExitCode "tmp_call_result_1"
      "function_1_f_of_outer" ["tmp_called_1"; "par_x"] [Sample.cell] true
      Sample.tracking_state
    = Returned tt
        {| current := addCleanupTempName "tmp_call_result_1" c;
           emitted :=
             (increfs
              ++ ["tmp_call_result_1 = impl_function_1_f_of_outer( tmp_called_1, par_x, closure_x );";
                  "if ( tmp_call_result_1 == NULL ) goto exception_exit;"])%list
        |}
    /\ occurrences "tmp_called_1" (cleanup_names c) = 0
    /\ occurrences "tmp_defaults_1" (cleanup_names c) = 1
    /\ occurrences (incref_line "tmp_called_1") increfs = 0
    /\ occurrences (incref_line "par_x") increfs = 1.
Proof.
  destruct (direct_call_one_reference_per_argument
              Sample.getDirectFunctionEntryPointIdentifier
              Sample.getVariableCode Sample.getErrorExitCode
              "tmp_call_result_1" "function_1_f_of_outer"
              ["tmp_called_1"; "par_x"] [Sample.cell] true
              Sample.tracking_state)
    as (s_call & increfs & c & _ & _ & _ & _ & Run & _ & _ & Once & Ledger).
  exists increfs, c. split; [exact Run|].
  pose proof (Once "tmp_called_1" eq_refl) as Tracked.
  pose proof (Once "par_x" eq_refl) as Untracked.
  cbn in Tracked, Untracked.
  destruct Tracked as [_ T]. destruct Untracked as [_ U].
  split; [exact (Ledger "tmp_called_1")|].
  split; [exact (Ledger "tmp_defaults_1")|].
  split; assumption.
Defined.


(** The exit section of a plain function that can raise and has a return
    value temporary. *)
Lemma function_exit_composition_witness :
  function_exit Sample.indented Sample.indented_text
    Sample.getMustNotGetHereCode Sample.template_function_exception_exit
    Sample.template_function_return_exit Sample.context_with_return_value true
  = Some
      (Sample.indented
         (Sample.getMustNotGetHereCode
            "Return statement must have exited already."
            Sample.context_with_return_value)
       ++ Py.newline ++ Py.newline
       ++ "function_exception_exit:  return NULL;"
       ++ Sample.indented_text
            "function_return_exit:  return tmp_return_value;").
Proof.
  destruct (function_exit_composition Sample.getConstantCode
              Sample.getParameterParsingCode Sample.getLocalVariableInitCode
              Sample.getVariableCodeName Sample.indented Sample.indented_text
              Sample.getErrorVariableDeclarations
              Sample.getExceptionKeeperVariableNames
              Sample.getExceptionPreserverVariableNames
              Sample.getMustNotGetHereCode Sample.function_dict_setup
              Sample.function_direct_body_template
              Sample.template_function_body
              Sample.template_function_exception_exit
              Sample.template_function_return_exit
              Sample.context_with_return_value
              "function_exception_exit:  return NULL;"
              "function_return_exit:  return tmp_return_value;"
              eq_refl eq_refl eq_refl eq_refl)
    as (G & _).
  exact (G true).
Defined.

Local Abbreviation sample_generator_function :=
  (getGeneratorFunctionCode 340%Z Sample.getConstantCode
     Sample.getParameterParsingCode Sample.getLocalVariableInitCode
     Sample.getVariableCodeName Sample.indented
     Sample.getErrorVariableDeclarations
     Sample.getExceptionKeeperVariableNames
     Sample.getExceptionPreserverVariableNames Sample.function_dict_setup
     Sample.template_generator_exception_exit
     Sample.template_generator_noexception_exit
     Sample.template_generator_return_exit
     Sample.template_genfunc_function_impl_template
     Sample.template_genfunc_generator_no_closure
     Sample.template_genfunc_generator_no_parameters
     Sample.template_genfunc_generator_with_own_closure
     Sample.template_genfunc_generator_with_parameters
     Sample.template_genfunc_generator_with_parent_closure
     Sample.template_genfunc_yielder_body_template).

(** The code of the generator function [g(a, b)] with one closure
    variable, in a context for a created function and in one for a direct
    call; the empty text if there were none. *)
Local Abbreviation sample_generator_code context :=
  (match
     sample_generator_function context "g" "outer.<locals>.g"
       "function_2_g_of_outer" "codeobj_g" Sample.parameters [Sample.cell] []
       [] ["yield a;"] ConstNone true false
   with
   | Some result => result
   | None => ""
   end).

(** A generator with a shared and a plain parameter. *)
Lemma generator_parameters_copied_by_index_witness :
  exists declaration mapping,
    sample_generator_function Sample.context "g" "outer.<locals>.g"
      "function_2_g_of_outer" "codeobj_g" Sample.parameters [Sample.cell] []
      [] ["yield a;"] ConstNone true false
    = Some (sample_generator_code Sample.context)
    /\ parameters_decl Sample.indented
         Sample.template_genfunc_generator_no_parameters
         Sample.template_genfunc_generator_with_parameters
         [Sample.parameter_a; Sample.parameter_b]
       = Some declaration
    /\ Py.getitem "parameter_decl" mapping = Some (Py.Str declaration)
    /\ nth_error (parameter_copy [Sample.parameter_a; Sample.parameter_b]) 0
       = Some "parameters[0] = (PyObject *)PyCell_NEW1( _python_par_a );"
    /\ nth_error (parameter_copy [Sample.parameter_a; Sample.parameter_b]) 1
       = Some "parameters[1] = _python_par_b;".
Proof.
  destruct (generator_parameters_copied_by_index 340%Z Sample.getConstantCode
              Sample.getParameterParsingCode Sample.getLocalVariableInitCode
              Sample.getVariableCodeName Sample.indented
              Sample.getErrorVariableDeclarations
              Sample.getExceptionKeeperVariableNames
              Sample.getExceptionPreserverVariableNames
              Sample.function_dict_setup
              Sample.template_generator_exception_exit
              Sample.template_generator_noexception_exit
              Sample.template_generator_return_exit
              Sample.template_genfunc_function_impl_template
              Sample.template_genfunc_generator_no_closure
              Sample.template_genfunc_generator_no_parameters
              Sample.template_genfunc_generator_with_own_closure
              Sample.template_genfunc_generator_with_parameters
              Sample.template_genfunc_generator_with_parent_closure
              Sample.template_genfunc_yielder_body_template
              [Sample.parameter_a; Sample.parameter_b])
    as (_ & Slot & _ & _ & Tie).
  assert (Run : sample_generator_function Sample.context "g"
                  "outer.<locals>.g" "function_2_g_of_outer" "codeobj_g"
                  Sample.parameters [Sample.cell] [] [] ["yield a;"]
                  ConstNone true false
                = Some (sample_generator_code Sample.context))
    by (vm_compute; reflexivity).
  destruct (Tie Sample.context "g" "outer.<locals>.g" "function_2_g_of_outer"
              "codeobj_g" Sample.parameters [Sample.cell] [] [] ["yield a;"]
              ConstNone true false (sample_generator_code Sample.context)
              eq_refl Run)
    as (body & declaration & mapping & impl & _ & Decl & Slot_decl & _).
  exists declaration, mapping.
  split; [exact Run|]. split; [exact Decl|]. split; [exact Slot_decl|].
  split.
  - exact (Slot 0 Sample.parameter_a eq_refl).
  - exact (Slot 1 Sample.parameter_b eq_refl).
Defined.


(** Keyword defaults that are the constant [{}] stop the creation. *)
Lemma empty_kw_defaults_constant_asserts_witness :
  generateFunctionCreationCode 340%Z Sample.getConstantCode
    Sample.getConstantCode Sample.getCodeObjectHandle
    Sample.getModuleAccessCode Sample.getParameterEntryPointIdentifier
    Sample.getQuickEntryPointIdentifier Sample.getReferenceExportCode
    Sample.getVariableCode Sample.getVariableCodeName Sample.indented
    Sample.generateExpressionCode Sample.generateTupleCreationCode
    Sample.template_function_make_declaration
    Sample.template_make_function_with_context_template
    Sample.template_make_function_without_context_template
    Sample.template_make_function_with_context_template
    Sample.template_make_function_without_context_template
    "tmp_assign_source_1" Sample.function_body Sample.code_object []
    (Some (ExpressionConstantRef (ConstDict []))) None true Sample.state
  = Raised (AssertKwDefaultsNotEmpty (ConstDict [])).
Proof.
  exact (proj1 (empty_kw_defaults_constant_asserts 340%Z
                  Sample.getConstantCode Sample.getConstantCode
                  Sample.getCodeObjectHandle Sample.getModuleAccessCode
                  Sample.getParameterEntryPointIdentifier
                  Sample.getQuickEntryPointIdentifier
                  Sample.getReferenceExportCode Sample.getVariableCode
                  Sample.getVariableCodeName Sample.indented
                  Sample.generateExpressionCode
                  Sample.generateTupleCreationCode
                  Sample.template_function_make_declaration
                  Sample.template_make_function_with_context_template
                  Sample.template_make_function_without_context_template
                  Sample.template_make_function_with_context_template
                  Sample.template_make_function_without_context_template
                  "tmp_assign_source_1" Sample.function_body
                  Sample.code_object []
                  (Some (ExpressionConstantRef (ConstDict []))) None true
                  Sample.state)
           eq_refl).
Defined.

(** A function without defaults, keyword defaults and annotations: the
    constructor body passes [NULL], [NULL] and the empty dictionary. *)
Lemma absent_slots_of_the_constructor_witness :
  getFunctionMakerCode 340%Z Sample.getConstantCode Sample.getConstantCode
    Sample.getModuleAccessCode Sample.getParameterEntryPointIdentifier
    Sample.getQuickEntryPointIdentifier Sample.getVariableCodeName
    Sample.indented Sample.template_make_function_with_context_template
    Sample.template_make_function_without_context_template
    Sample.template_make_function_with_context_template
    Sample.template_make_function_without_context_template
    "f" "f" "function_1_f" "codeobj_f" Sample.parameters [] None None None
    ConstNone false Sample.context
  = Some
      ("static PyObject *MAKE_FUNCTION_function_1_f(  ) { return Nuitka_Function_New( fparse_function_1_f, dparse_function_1_f, const_str_plain_f, NULL, codeobj_f, NULL, NULL, "
         ++ "const_dict_empty"
         ++ ", module___main__, Py_None ); }").
Proof.
  refine (proj2 (proj2 (absent_slots_of_the_constructor 340%Z
                          Sample.getConstantCode Sample.getConstantCode
                          Sample.getModuleAccessCode
                          Sample.getParameterEntryPointIdentifier
                          Sample.getQuickEntryPointIdentifier
                          Sample.getVariableCodeName Sample.indented
                          Sample.template_make_function_with_context_template
                          Sample.template_make_function_without_context_template
                          Sample.template_make_function_with_context_template
                          Sample.template_make_function_without_context_template
                          "f" "f" "function_1_f" "codeobj_f" Sample.parameters
                          [] None None None ConstNone false Sample.context))
            "annotations" None
            "static PyObject *MAKE_FUNCTION_%(function_identifier)s( %(function_creation_args)s ) { return Nuitka_Function_New( %(fparse_function_identifier)s, %(dparse_function_identifier)s, %(function_name_obj)s, %(function_qualname_obj)s, %(code_identifier)s, %(defaults)s, %(kw_defaults)s, "
            ", %(module_identifier)s, %(function_doc)s ); }"
            _ _ _ eq_refl eq_refl eq_refl eq_refl).
  right. right. left. reflexivity.
Defined.

(** The generator function [g], called directly, with one closure
    variable: its construction function gets the own-closure declaration,
    whose statements fill slot 0. *)
Lemma closure_copy_fills_every_slot_witness :
  exists declaration mapping,
    sample_generator_function Sample.context_for_direct_call "g"
      "outer.<locals>.g" "function_2_g_of_outer" "codeobj_g"
      Sample.parameters [Sample.cell] [] [] ["yield a;"] ConstNone true false
    = Some (sample_generator_code Sample.context_for_direct_call)
    /\ Py.getitem "closure_decl" mapping = Some (Py.Str declaration)
    /\ Some declaration
       = Py.format Sample.template_genfunc_generator_with_own_closure
           [ ("closure_copy",
              Py.Str
                (Py.join Py.newline
                   (closure_copy Sample.getVariableCodeName [Sample.cell])));
             ("closure_count", Py.Int 1) ]
    /\ nth_error (closure_copy Sample.getVariableCodeName [Sample.cell]) 0
       = Some "closure[0] = closure_x;"
    /\ nth_error (closure_copy Sample.getVariableCodeName [Sample.cell]) 1
       = Some "Py_INCREF( closure[0] );".
Proof.
  destruct (closure_copy_fills_every_slot 340%Z Sample.getConstantCode
              Sample.getParameterParsingCode Sample.getLocalVariableInitCode
              Sample.getVariableCodeName Sample.indented
              Sample.getErrorVariableDeclarations
              Sample.getExceptionKeeperVariableNames
              Sample.getExceptionPreserverVariableNames
              Sample.function_dict_setup
              Sample.template_generator_exception_exit
              Sample.template_generator_noexception_exit
              Sample.template_generator_return_exit
              Sample.template_genfunc_function_impl_template
              Sample.template_genfunc_generator_no_closure
              Sample.template_genfunc_generator_no_parameters
              Sample.template_genfunc_generator_with_own_closure
              Sample.template_genfunc_generator_with_parameters
              Sample.template_genfunc_generator_with_parent_closure
              Sample.template_genfunc_yielder_body_template
              [Sample.cell])
    as (_ & Slot & _ & Declared & Tie).
  assert (Run : sample_generator_function Sample.context_for_direct_call "g"
                  "outer.<locals>.g" "function_2_g_of_outer" "codeobj_g"
                  Sample.parameters [Sample.cell] [] [] ["yield a;"]
                  ConstNone true false
                = Some (sample_generator_code Sample.context_for_direct_call))
    by (vm_compute; reflexivity).
  destruct (Tie Sample.context_for_direct_call "g" "outer.<locals>.g"
              "function_2_g_of_outer" "codeobj_g" Sample.parameters [] []
              ["yield a;"] ConstNone true false
              (sample_generator_code Sample.context_for_direct_call) Run)
    as (body & declaration & mapping & impl & _ & Decl & Slot_decl & _).
  exists declaration, mapping.
  split; [exact Run|]. split; [exact Slot_decl|].
  split.
  { rewrite <- Decl.
    refine (Declared Sample.context_for_direct_call _). discriminate. }
  exact (Slot 0 Sample.cell eq_refl).
Defined.

(** A closure variable that is not shared: the direct declaration differs
    from the cell parameters. *)
Lemma direct_closure_args_by_sharing_witness :
  getFunctionDirectClosureArgs Sample.getVariableCodeName
    [Sample.cell; Sample.parameter_b]
  <> map (cell_parameter Sample.getVariableCodeName)
       [Sample.cell; Sample.parameter_b].
Proof.
  destruct (direct_closure_args_by_sharing Sample.getVariableCodeName
              [Sample.cell; Sample.parameter_b])
    as (_ & _ & Shared).
  intros H. apply Shared in H. discriminate H.
Defined.

(** The declaration of the directly called [f]. *)
Lemma direct_declaration_matches_definition_witness :
  generateFunctionDeclCode Sample.getVariableCodeName
    Sample.template_function_direct_declaration
    Sample.template_genfunc_yielder_decl_template Sample.direct_function_body
  = Some
      (Some
         "NUITKA_LOCAL_MODULE PyObject *impl_function_1_f_of_outer( PyObject *_python_par_a, PyObject *_python_par_b, PyCellObject *closure_x );").
Proof.
  unshelve epose proof
    (direct_declaration_matches_definition Sample.getConstantCode
       Sample.getParameterParsingCode Sample.getLocalVariableInitCode
       Sample.getVariableCodeName Sample.indented Sample.indented_text
       Sample.getErrorVariableDeclarations
       Sample.getExceptionKeeperVariableNames
       Sample.getExceptionPreserverVariableNames
       Sample.getMustNotGetHereCode Sample.function_dict_setup
       Sample.function_direct_body_template Sample.template_function_body
       Sample.template_function_direct_declaration
       Sample.template_function_exception_exit
       Sample.template_function_return_exit
       Sample.template_genfunc_yielder_decl_template
       Sample.context_for_direct_call Sample.direct_function_body "f" [] []
       ["return x;"] ConstNone false _ eq_refl eq_refl eq_refl eq_refl _)
    as W.
  - exact (Sample.indented
             (Sample.getMustNotGetHereCode
                "Return statement must have exited already."
                Sample.context_for_direct_call)
           ++ Py.newline ++ Py.newline
           ++ Sample.indented_text
                "function_return_exit:  return tmp_return_value;").
  - reflexivity.
  - destruct W as [Decl _]. rewrite Decl. reflexivity.
Defined.

(** A direct call with a tracked argument and an untracked one, on a ledger
    without duplicates: after the first loop neither needs cleanup. *)
Lemma direct_call_tracks_result_after_error_exit_witness :
  exists s_call,
    for_each ["tmp_called_1"; "par_x"] hand_over_argument
      Sample.tracking_state
    = Returned tt s_call
    /\ needsCleanup (Some "tmp_called_1") (current s_call) = false
    /\ needsCleanup (Some "tmp_call_result_1") (current s_call) = false.
Proof.
  destruct (direct_call_tracks_result_after_error_exit
              Sample.getDirectFunctionEntryPointIdentifier
              Sample.getVariableCode Sample.getErrorExitCode
              "tmp_call_result_1" "function_1_f_of_outer"
              ["tmp_called_1"; "par_x"] [Sample.cell] true
              Sample.tracking_state eq_refl)
    as (s_call & R & Untracked & _ & _ & Fresh & _).
  exists s_call. split; [exact R|]. split.
  - apply Untracked. now left.
  - apply Fresh. reflexivity.
Defined.

(** A generator function on the stand-in templates: its code starts with
    the code of the resumable body. *)
Lemma generator_function_code_composition_witness :
  exists body result,
    getGeneratorFunctionCode 340%Z Sample.getConstantCode
      Sample.getParameterParsingCode Sample.getLocalVariableInitCode
      Sample.getVariableCodeName Sample.indented
      Sample.getErrorVariableDeclarations
      Sample.getExceptionKeeperVariableNames
      Sample.getExceptionPreserverVariableNames Sample.function_dict_setup
      Sample.template_generator_exception_exit
      Sample.template_generator_noexception_exit
      Sample.template_generator_return_exit
      Sample.template_genfunc_function_impl_template
      Sample.template_genfunc_generator_no_closure
      Sample.template_genfunc_generator_no_parameters
      Sample.template_genfunc_generator_with_own_closure
      Sample.template_genfunc_generator_with_parameters
      Sample.template_genfunc_generator_with_parent_closure
      Sample.template_genfunc_yielder_body_template Sample.context "g"
      "outer.<locals>.g" "function_2_g_of_outer" "codeobj_g"
      Sample.parameters [Sample.cell] [] [] ["yield a;"] ConstNone true false
    = Some result
    /\ getGeneratorObjectCode Sample.getLocalVariableInitCode Sample.indented
         Sample.getErrorVariableDeclarations
         Sample.getExceptionKeeperVariableNames
         Sample.getExceptionPreserverVariableNames Sample.function_dict_setup
         Sample.template_generator_exception_exit
         Sample.template_generator_noexception_exit
         Sample.template_generator_return_exit
         Sample.template_genfunc_yielder_body_template Sample.context
         "function_2_g_of_outer" [] [] ["yield a;"] true false
       = Some body
    /\ String.prefix body result = true.
Proof.
  unshelve epose proof
    (generator_function_code_composition 340%Z Sample.getConstantCode
       Sample.getParameterParsingCode Sample.getLocalVariableInitCode
       Sample.getVariableCodeName Sample.indented
       Sample.getErrorVariableDeclarations
       Sample.getExceptionKeeperVariableNames
       Sample.getExceptionPreserverVariableNames Sample.function_dict_setup
       Sample.template_generator_exception_exit
       Sample.template_generator_noexception_exit
       Sample.template_generator_return_exit
       Sample.template_genfunc_function_impl_template
       Sample.template_genfunc_generator_no_closure
       Sample.template_genfunc_generator_no_parameters
       Sample.template_genfunc_generator_with_own_closure
       Sample.template_genfunc_generator_with_parameters
       Sample.template_genfunc_generator_with_parent_closure
       Sample.template_genfunc_yielder_body_template Sample.context "g"
       "outer.<locals>.g" "function_2_g_of_outer" "codeobj_g"
       Sample.parameters [Sample.cell] [] [] ["yield a;"] ConstNone true false
       _ _) as W.
  - exact (match
             getGeneratorFunctionCode 340%Z Sample.getConstantCode
               Sample.getParameterParsingCode Sample.getLocalVariableInitCode
               Sample.getVariableCodeName Sample.indented
               Sample.getErrorVariableDeclarations
               Sample.getExceptionKeeperVariableNames
               Sample.getExceptionPreserverVariableNames
               Sample.function_dict_setup
               Sample.template_generator_exception_exit
               Sample.template_generator_noexception_exit
               Sample.template_generator_return_exit
               Sample.template_genfunc_function_impl_template
               Sample.template_genfunc_generator_no_closure
               Sample.template_genfunc_generator_no_parameters
               Sample.template_genfunc_generator_with_own_closure
               Sample.template_genfunc_generator_with_parameters
               Sample.template_genfunc_generator_with_parent_closure
               Sample.template_genfunc_yielder_body_template Sample.context
               "g" "outer.<locals>.g" "function_2_g_of_outer" "codeobj_g"
               Sample.parameters [Sample.cell] [] [] ["yield a;"] ConstNone
               true false
           with
           | Some result => result
           | None => ""
           end).
  - vm_compute. reflexivity.
  - destruct W as (body & mapping & impl & Hbody & _ & _ & Hprefix & _).
    eexists body, _. split; [vm_compute; reflexivity|].
    split; [exact Hbody | exact Hprefix].
Defined.

(** Below version 350 the construction function of [g] passes [NULL] for
    the qualified name. *)
Lemma generator_function_names_by_version_witness :
  exists body mapping impl,
    sample_generator_function Sample.context "g" "outer.<locals>.g"
      "function_2_g_of_outer" "codeobj_g" Sample.parameters [Sample.cell] []
      [] ["yield a;"] ConstNone true false
    = Some (body ++ impl
            ++ "static PyObject *fparse_function_2_g_of_outer( Nuitka_FunctionObject *self, PyObject **args, Py_ssize_t args_size, PyObject *kw );")
    /\ Py.format Sample.template_genfunc_function_impl_template mapping
       = Some impl
    /\ Py.getitem "function_qualname_obj" mapping = Some (Py.Str "NULL")
    /\ Py.getitem "function_name_obj" mapping
       = Some (Py.Str "const_str_plain_g").
Proof.
  assert (Run : sample_generator_function Sample.context "g"
                  "outer.<locals>.g" "function_2_g_of_outer" "codeobj_g"
                  Sample.parameters [Sample.cell] [] [] ["yield a;"]
                  ConstNone true false
                = Some (sample_generator_code Sample.context))
    by (vm_compute; reflexivity).
  destruct (generator_function_names_by_version 340%Z Sample.getConstantCode
              Sample.getParameterParsingCode Sample.getLocalVariableInitCode
              Sample.getVariableCodeName Sample.indented
              Sample.getErrorVariableDeclarations
              Sample.getExceptionKeeperVariableNames
              Sample.getExceptionPreserverVariableNames
              Sample.function_dict_setup
              Sample.template_generator_exception_exit
              Sample.template_generator_noexception_exit
              Sample.template_generator_return_exit
              Sample.template_genfunc_function_impl_template
              Sample.template_genfunc_generator_no_closure
              Sample.template_genfunc_generator_no_parameters
              Sample.template_genfunc_generator_with_own_closure
              Sample.template_genfunc_generator_with_parameters
              Sample.template_genfunc_generator_with_parent_closure
              Sample.template_genfunc_yielder_body_template
              Sample.context "g" "outer.<locals>.g" "function_2_g_of_outer"
              "codeobj_g" Sample.parameters [Sample.cell] [] [] ["yield a;"]
              ConstNone true false (sample_generator_code Sample.context)
              Run)
    as (body & mapping & impl & name_obj & qualname_obj & _ & Himpl & Hresult
        & Hname & Hqualname & Below & _).
  destruct (Below eq_refl) as [En Eq].
  exists body, mapping, impl.
  split; [rewrite Run; f_equal; exact Hresult|].
  split; [exact Himpl|].
  rewrite Hname, Hqualname, En, Eq. now split.
Defined.

(** A generator expression without closure: one line, and the result is
    tracked. *)
Lemma generator_object_creation_outcome_witness :
  exists line,
    generateMakeGeneratorObjectCode 340%Z Sample.getConstantCode
      Sample.getCodeObjectHandle Sample.getVariableCode Sample.indented
      Sample.template_generator_making_with_context
      Sample.template_generator_making_without_context
      Sample.template_genfunc_generator_with_own_closure "tmp_iter_1"
      Sample.generator_object_body Sample.code_object Sample.state
    = Returned tt
        {| current := addCleanupTempName "tmp_iter_1" Sample.context;
           emitted := [line] |}.
Proof.
  destruct (generator_object_creation_outcome 340%Z Sample.getConstantCode
              Sample.getCodeObjectHandle Sample.getVariableCode
              Sample.indented Sample.template_generator_making_with_context
              Sample.template_generator_making_without_context
              Sample.template_genfunc_generator_with_own_closure "tmp_iter_1"
              Sample.generator_object_body Sample.code_object Sample.state)
    as [[[line Made] | Failed] _].
  - exists line. exact Made.
  - vm_compute in Failed. discriminate Failed.
Defined.

(** A coroutine: the statement of its body is not among the emitted lines,
    and the ledger stays empty. *)
Lemma coroutine_creation_outcome_witness :
  exists s',
    generateCoroutineCreationCode
      Sample.template_make_coroutine_with_context_template
      Sample.template_make_coroutine_without_context_template
      Sample.generateStatementSequenceCode "tmp_coroutine_1"
      Sample.coroutine_body Sample.state
    = Returned tt s'
    /\ emitted s'
       = ["tmp_coroutine_1 = MAKE_COROUTINE_coroutine_1_c_of_outer();"]
    /\ cleanup_names (current s') = [].
Proof.
  destruct (coroutine_creation_outcome
              Sample.template_make_coroutine_with_context_template
              Sample.template_make_coroutine_without_context_template
              Sample.generateStatementSequenceCode "tmp_coroutine_1"
              Sample.coroutine_body Sample.state)
    as [Run Ledger].
  eexists. split; [exact Run|]. split; reflexivity.
Defined.

(** The locals of the directly called [f]: the parameters come first, and
    the return value and the outline return value are set to [NULL]. *)
Lemma function_locals_layout_witness :
  exists mapping after,
    getFunctionCode Sample.getConstantCode Sample.getParameterParsingCode
      Sample.getLocalVariableInitCode Sample.getVariableCodeName
      Sample.indented Sample.indented_text
      Sample.getErrorVariableDeclarations
      Sample.getExceptionKeeperVariableNames
      Sample.getExceptionPreserverVariableNames Sample.getMustNotGetHereCode
      Sample.function_dict_setup Sample.function_direct_body_template
      Sample.template_function_body Sample.template_function_exception_exit
      Sample.template_function_return_exit Sample.context_for_direct_call
      "f" "function_1_f_of_outer" Sample.parameters [Sample.cell] [] []
      ["return x;"] ConstNone "NUITKA_LOCAL_MODULE" false
    = Py.format Sample.function_direct_body_template mapping
    /\ Py.getitem "function_locals" mapping
       = Some
           (Py.Str
              (Sample.indented
                 (["PyObject *var_a = _python_par_a;";
                   "PyObject *var_b = _python_par_b;"] ++ after)))
    /\ In "tmp_return_value = NULL;" after
    /\ In "tmp_outline_return_value_1 = NULL;" after
    /\ In "PyObject *tmp_outline_return_value_1;" after
    /\ In "PyObject *exception_keeper_type_1;" after.
Proof.
  unshelve epose proof
    (function_locals_layout Sample.getConstantCode
       Sample.getParameterParsingCode Sample.getLocalVariableInitCode
       Sample.getVariableCodeName Sample.indented Sample.indented_text
       Sample.getErrorVariableDeclarations
       Sample.getExceptionKeeperVariableNames
       Sample.getExceptionPreserverVariableNames
       Sample.getMustNotGetHereCode Sample.function_dict_setup
       Sample.function_direct_body_template Sample.template_function_body
       Sample.template_function_exception_exit
       Sample.template_function_return_exit Sample.context_for_direct_call
       "f" "function_1_f_of_outer" Sample.parameters [Sample.cell] [] []
       ["return x;"] ConstNone "NUITKA_LOCAL_MODULE" false _ _) as W.
  - exact (Sample.indented
             (Sample.getMustNotGetHereCode
                "Return statement must have exited already."
                Sample.context_for_direct_call)
           ++ Py.newline ++ Py.newline
           ++ Sample.indented_text
                "function_return_exit:  return tmp_return_value;").
  - reflexivity.
  - destruct W as (mapping & before & after & Run & _ & _ & Locals & Before
                   & Keepers & Temps & Return & Outline).
    exists mapping, after. rewrite Locals, Before.
    split.
    { rewrite Run. cbn [isForDirectCall isForCreatedFunction
                          Sample.context_for_direct_call].
      destruct (Py.format Sample.function_direct_body_template mapping);
        cbn [and_then]; [now rewrite append_nil_r | reflexivity]. }
    split; [reflexivity|].
    split; [exact (Return eq_refl)|].
    split.
    { apply (Outline "tmp_outline_return_value_1" "PyObject *");
        [now left | reflexivity]. }
    split.
    { apply (Temps "tmp_outline_return_value_1" "PyObject *"). now left. }
    apply (Keepers 1); [split; apply le_n | now left].
Defined.

(** A without-context template that asks for the copy of the closure
    cells cannot be filled in. *)
Lemma maker_without_closure_has_no_capture_slots_witness :
  getFunctionMakerCode 340%Z Sample.getConstantCode Sample.getConstantCode
    Sample.getModuleAccessCode Sample.getParameterEntryPointIdentifier
    Sample.getQuickEntryPointIdentifier Sample.getVariableCodeName
    Sample.indented Sample.template_make_function_with_context_template
    "{ %(context_copy)s return Nuitka_Function_New( %(code_identifier)s ); }"
    Sample.template_make_function_with_context_template
    Sample.template_make_function_without_context_template
    "f" "f" "function_1_f" "codeobj_f" Sample.parameters [] None None None
    ConstNone false Sample.context
  = None.
Proof.
  refine (proj2 (proj2 (maker_without_closure_has_no_capture_slots 340%Z
                          Sample.getConstantCode Sample.getConstantCode
                          Sample.getModuleAccessCode
                          Sample.getParameterEntryPointIdentifier
                          Sample.getQuickEntryPointIdentifier
                          Sample.getVariableCodeName Sample.indented
                          Sample.template_make_function_with_context_template
                          "{ %(context_copy)s return Nuitka_Function_New( %(code_identifier)s ); }"
                          Sample.template_make_function_with_context_template
                          Sample.template_make_function_without_context_template
                          "f" "f" "function_1_f" "codeobj_f" Sample.parameters
                          None None None ConstNone false Sample.context
                          "{ "
                          " return Nuitka_Function_New( %(code_identifier)s ); }"
                          "{ " eq_refl _))).
  left. reflexivity.
Defined.

(** The constructor of [f] is registered: a further definition site
    returns although no template can be filled in. *)
Lemma registered_constructor_needs_no_template_witness :
  exists s',
    create 340%Z Sample.getConstantCode Sample.getConstantCode
      Sample.getCodeObjectHandle Sample.getModuleAccessCode
      Sample.getParameterEntryPointIdentifier
      Sample.getQuickEntryPointIdentifier Sample.getReferenceExportCode
      Sample.getVariableCode Sample.getVariableCodeName Sample.indented
      Sample.generateExpressionCode Sample.generateTupleCreationCode
      "%(unknown)s" "%(unknown)s" "%(unknown)s" "%(unknown)s" "%(unknown)s"
      Sample.second_site
      {| current :=
           addHelperCode "function_1_f_of_outer" "static PyObject *MAKE_FUNCTION_function_1_f_of_outer();"
             Sample.context;
         emitted := [] |}
    = Returned tt s'
    /\ registered "function_1_f_of_outer" (helper_codes (current s'))
       = [("function_1_f_of_outer",
           "static PyObject *MAKE_FUNCTION_function_1_f_of_outer();")].
Proof.
  unshelve epose proof
    (registered_constructor_needs_no_template 340%Z Sample.getConstantCode
       Sample.getConstantCode Sample.getCodeObjectHandle
       Sample.getModuleAccessCode Sample.getParameterEntryPointIdentifier
       Sample.getQuickEntryPointIdentifier Sample.getReferenceExportCode
       Sample.getVariableCode Sample.getVariableCodeName Sample.indented
       Sample.generateExpressionCode Sample.generateTupleCreationCode
       "%(unknown)s" "%(unknown)s" "%(unknown)s" "%(unknown)s" "%(unknown)s"
       Sample.second_site
       {| current :=
            addHelperCode "function_1_f_of_outer" "static PyObject *MAKE_FUNCTION_function_1_f_of_outer();"
              Sample.context;
          emitted := [] |}
       _ _ eq_refl eq_refl) as W.
  - intros to_name [constant|node] c; split; reflexivity.
  - intros to_name elements c; split; reflexivity.
  - destruct W as (s' & before & args & after & R & _ & Kept & _).
    exists s'. split; [exact R | exact Kept].
Defined.

(** The first definition site of [f] on an empty ledger: the result name
    is the one new cleanup obligation. *)
Lemma creation_balances_the_ledger_witness :
  exists s',
    sample_create Sample.first_site Sample.state = Returned tt s'
    /\ occurrences "tmp_assign_source_1" (cleanup_names (current s')) = 1
    /\ occurrences "tmp_called_1" (cleanup_names (current s')) = 0.
Proof.
  unshelve epose proof
    (creation_balances_the_ledger 340%Z Sample.getConstantCode
       Sample.getConstantCode Sample.getCodeObjectHandle
       Sample.getModuleAccessCode Sample.getParameterEntryPointIdentifier
       Sample.getQuickEntryPointIdentifier Sample.getReferenceExportCode
       Sample.getVariableCode Sample.getVariableCodeName Sample.indented
       Sample.generateExpressionCode Sample.generateTupleCreationCode
       Sample.template_function_make_declaration
       Sample.template_make_function_with_context_template
       Sample.template_make_function_without_context_template
       Sample.template_make_function_with_context_template
       Sample.template_make_function_without_context_template
       Sample.first_site Sample.state _ _ eq_refl) as W.
  - intros to_name [constant|node] c x; cbn [Sample.generateExpressionCode snd].
    + split; [apply le_n | apply Nat.le_add_r].
    + rewrite occurrences_addCleanupTempName, occurrences_cons.
      unfold occurrences at 4. cbn [count_occ].
      rewrite Nat.add_0_r. split; [apply Nat.le_add_r | apply le_n].
  - intros to_name elements c x. cbn [Sample.generateTupleCreationCode snd].
    rewrite occurrences_addCleanupTempName, occurrences_cons.
    unfold occurrences at 4. cbn [count_occ].
    rewrite Nat.add_0_r. split; [apply Nat.le_add_r | apply le_n].
  - destruct W as [Failed | (s' & d & k & a & R & Nd & Nk & Na & Other & _)];
      [vm_compute in Failed; discriminate Failed|].
    assert (Fresh : forall x,
               String.prefix "tmp_d" x = false ->
               String.prefix "tmp_k" x = false ->
               String.prefix "tmp_an" x = false ->
               ~ In x (present [d; k; a])).
    { intros x Pd Pk Pa Hin.
      destruct Nd as [-> | [nd ->]], Nk as [-> | [nk ->]],
        Na as [-> | [na ->]];
        cbn [present flat_map app In] in Hin;
        repeat match goal with
          | H : _ \/ _ |- _ => destruct H
          | H : False |- _ => destruct H
          end;
        subst x; discriminate. }
    exists s'. split; [exact R|]. split.
    + exact (Other "tmp_assign_source_1"
               (Fresh "tmp_assign_source_1" eq_refl eq_refl eq_refl)).
    + exact (Other "tmp_called_1"
               (Fresh "tmp_called_1" eq_refl eq_refl eq_refl)).
Defined.

(** The locals of a resumable body in a context with a keeper variable and
    an outline return value. *)
Lemma generator_locals_layout_witness :
  In "tmp_outline_return_value_1 = NULL;"
    (generator_function_locals Sample.getLocalVariableInitCode
       Sample.getErrorVariableDeclarations
       Sample.getExceptionKeeperVariableNames
       Sample.getExceptionPreserverVariableNames Sample.function_dict_setup
       Sample.context_for_direct_call [Sample.parameter_a] [])
  /\ In "PyObject *exception_keeper_type_1;"
       (generator_function_locals Sample.getLocalVariableInitCode
          Sample.getErrorVariableDeclarations
          Sample.getExceptionKeeperVariableNames
          Sample.getExceptionPreserverVariableNames Sample.function_dict_setup
          Sample.context_for_direct_call [Sample.parameter_a] []).
Proof.
  destruct (generator_locals_layout Sample.getLocalVariableInitCode
              Sample.indented Sample.getErrorVariableDeclarations
              Sample.getExceptionKeeperVariableNames
              Sample.getExceptionPreserverVariableNames
              Sample.function_dict_setup
              Sample.template_generator_exception_exit
              Sample.template_generator_noexception_exit
              Sample.template_generator_return_exit
              Sample.template_genfunc_yielder_body_template
              Sample.context_for_direct_call [Sample.parameter_a] [])
    as (after & Locals & Keepers & _ & _ & _ & Outline & _).
  rewrite Locals. split.
  - do 2 (apply in_or_app; right).
    apply (Outline "tmp_outline_return_value_1" "PyObject *");
      [now left | reflexivity].
  - do 2 (apply in_or_app; right).
    apply (Keepers 1); [split; apply le_n | now left].
Defined.

(** A direct call of [f] with two arguments and one closure variable: the
    cell is the third argument and the third parameter. *)
Lemma direct_call_lines_up_with_declaration_witness :
  exists args declared,
    nth_error args 2 = Some "closure_x"
    /\ nth_error declared 2 = Some "PyCellObject *closure_x"
    /\ List.length args = List.length declared.
Proof.
  destruct (direct_call_lines_up_with_declaration
              Sample.getDirectFunctionEntryPointIdentifier
              Sample.getVariableCode Sample.getVariableCodeName
              Sample.getErrorExitCode
              Sample.template_function_direct_declaration
              "tmp_call_result_1" "function_1_f_of_outer"
              ["tmp_called_1"; "par_x"] [Sample.cell]
              [Sample.parameter_a; Sample.parameter_b] true
              "NUITKA_LOCAL_MODULE" Sample.tracking_state)
    as (args & declared & s' & _ & _ & _ & _ & _ & _ & _ & Closure & Same).
  exists args, declared.
  destruct (Closure 0 Sample.cell eq_refl) as [Passed Declared].
  split; [exact Passed|]. split; [exact Declared|].
  apply Same. reflexivity.
Defined.
